(** * A shallow embedding of the calorie bot (src/calorie_bot.py)

    The bot keeps one profile per Telegram user, walks the user through a
    setup conversation, and logs water, food and workouts against the daily
    targets it computed at setup.

    Python values are modelled as follows.
    - [int] is [Z] (unbounded).
    - [float] is an IEEE-754 binary64 number, [spec_float] of the Standard
      Library with [prec = 53] and [emax = 1024]; every arithmetic operation
      rounds to nearest, ties to even, exactly as CPython does on the usual
      platforms.
    - [str] is a list of Unicode code points.
    - an exception is a value of [exn]; fallible code lives in [result].
    - the process-wide dictionary [user_database] and aiogram's per-user FSM
      storage are finite maps keyed by the user id.
    - the clock, the weather service and the food database are parameters of
      the handlers ([Env]). *)

From Stdlib Require Import ZArith List Bool Lia Reals Lra String Ascii.
From Stdlib Require Import SpecFloat.
From stdpp Require Import gmap.

Local Open Scope Z_scope.

(** ** Exceptions *)

Inductive exn : Type :=
| ZeroDivisionError
| OverflowError
| ValueError
| KeyError.

Inductive result (A : Type) : Type :=
| Ok (a : A)
| Raise (e : exn).

Arguments Ok {A} a.
Arguments Raise {A} e.

Definition bind {A B : Type} (m : result A) (k : A -> result B) : result B :=
  match m with
  | Ok a => k a
  | Raise e => Raise e
  end.

Notation "'let*' x := m 'in' k" := (bind m (fun x => k))
  (at level 10, x name, m at level 100, k at level 200).

(** ** Python floats *)

Module PyFloat.

Definition prec : Z := 53.
Definition emax : Z := 1024.
Definition float : Type := spec_float.

Definition fadd : float -> float -> float := SFadd prec emax.
Definition fsub : float -> float -> float := SFsub prec emax.
Definition fmul : float -> float -> float := SFmul prec emax.

(** [x / y] for a divisor that is a non-zero literal of the source
    ([60.0], [100.0]); Python raises only when the divisor is zero. *)
Definition fdiv : float -> float -> float := SFdiv prec emax.

(** [x < y] and [x > y] on floats; comparisons with a NaN are false. *)
Definition flt (x y : float) : bool := SFltb x y.
Definition fgt (x y : float) : bool := SFltb y x.

(** Truth value of a float: only [0.0] and [-0.0] are false. *)
Definition is_zero (f : float) : bool :=
  match f with
  | S754_zero _ => true
  | _ => false
  end.

Definition is_finite (f : float) : bool :=
  match f with
  | S754_zero _ | S754_finite _ _ _ => true
  | _ => false
  end.

(** An integer as an unnormalised operand [n * 2^0]; only used as an operand
    of [SFdiv], which rounds the exact quotient whatever the size of the
    mantissas. *)
Definition fexact (n : Z) : float :=
  match n with
  | Z0 => S754_zero false
  | Zpos p => S754_finite false p 0
  | Zneg p => S754_finite true p 0
  end.

(** A float literal with an integral value, e.g. [30] in [weight * 30]. *)
Definition fconst (n : Z) : float := binary_normalize prec emax n 0 false.

(** A decimal float literal [m / 10^k], e.g. [1.375] is [fdec 1375 3];
    Python reads literals with correct rounding. *)
Definition fdec (m k : Z) : float := SFdiv prec emax (fexact m) (fexact (10 ^ k)).

(** Conversion of an [int] operand of a mixed operation such as
    [float + int]. *)
Definition float_of_int (n : Z) : result float :=
  match binary_normalize prec emax n 0 false with
  | S754_infinity _ => Raise OverflowError
  | f => Ok f
  end.

(** [a / b] on two [int]s: the correctly rounded quotient. *)
Definition int_truediv (a b : Z) : result float :=
  if b =? 0 then Raise ZeroDivisionError
  else match SFdiv prec emax (fexact a) (fexact b) with
       | S754_infinity _ => Raise OverflowError
       | f => Ok f
       end.

(** The integer part of a finite float, towards zero. *)
Definition trunc_float (f : float) : Z :=
  match f with
  | S754_finite s m e => cond_Zopp s (Z.shiftl (Zpos m) e)
  | _ => 0
  end.

(** [int(f)]. *)
Definition py_int (f : float) : result Z :=
  match f with
  | S754_nan => Raise ValueError
  | S754_infinity _ => Raise OverflowError
  | _ => Ok (trunc_float f)
  end.

(** The float nearest to [(-1)^neg * m * 10^e10], for [0 <= m]; what
    [float(str)] returns for a decimal numeral. *)
Definition float_of_decimal (neg : bool) (m e10 : Z) : float :=
  if m =? 0 then S754_zero neg
  else
    let sm := if neg then - m else m in
    if 0 <=? e10 then binary_normalize prec emax (sm * 10 ^ e10) 0 false
    else SFdiv prec emax (fexact sm) (fexact (10 ^ (- e10))).

End PyFloat.

(** ** Python strings *)

Module PyStr.

Definition pystr : Type := list Z.

(** An ASCII literal of the source. *)
Definition str (s : string) : pystr :=
  map (fun a => Z.of_N (N_of_ascii a)) (list_ascii_of_string s).

(** [str.isspace] of one character. *)
Definition isspace (c : Z) : bool :=
  ((9 <=? c) && (c <=? 13)) || ((28 <=? c) && (c <=? 32)) ||
  (c =? 133) || (c =? 160) || (c =? 5760) ||
  ((8192 <=? c) && (c <=? 8202)) || (c =? 8232) || (c =? 8233) ||
  (c =? 8239) || (c =? 8287) || (c =? 12288).

Fixpoint lstrip (s : pystr) : pystr :=
  match s with
  | c :: s' => if isspace c then lstrip s' else s
  | [] => []
  end.

Definition rstrip (s : pystr) : pystr := rev (lstrip (rev s)).

(** [s.strip()]. *)
Definition strip (s : pystr) : pystr := rstrip (lstrip s).

(** [str.lower] on the Latin and Cyrillic letters the bot's keywords use
    (Basic Latin, Latin-1 and the Cyrillic block); other code points are
    left as they are. *)
Definition lower_char (c : Z) : Z :=
  if (65 <=? c) && (c <=? 90) then c + 32
  else if (192 <=? c) && (c <=? 222) && negb (c =? 215) then c + 32
  else if (1040 <=? c) && (c <=? 1071) then c + 32
  else if (1024 <=? c) && (c <=? 1039) then c + 80
  else c.

Definition lower (s : pystr) : pystr := map lower_char s.

(** [s.replace(old, new)] for one-character [old] and [new]. *)
Definition replace_char (old new : Z) (s : pystr) : pystr :=
  map (fun c => if c =? old then new else c) s.

Fixpoint startswith (s p : pystr) : bool :=
  match p, s with
  | [], _ => true
  | a :: p', b :: s' => (a =? b) && startswith s' p'
  | _ :: _, [] => false
  end.

(** [sub in s]. *)
Fixpoint contains (sub s : pystr) : bool :=
  startswith s sub ||
  match s with
  | [] => false
  | _ :: s' => contains sub s'
  end.

Definition eqb (a b : pystr) : bool := bool_decide (a = b).

Fixpoint split_aux (cur : pystr) (s : pystr) : list pystr :=
  match s with
  | [] => match cur with [] => [] | _ => [rev cur] end
  | c :: s' =>
      if isspace c then
        match cur with
        | [] => split_aux [] s'
        | _ => rev cur :: split_aux [] s'
        end
      else split_aux (c :: cur) s'
  end.

(** [s.split()]: the maximal runs of non-space characters. *)
Definition split (s : pystr) : list pystr := split_aux [] s.

Fixpoint span_nonspace (s : pystr) : pystr * pystr :=
  match s with
  | c :: s' =>
      if isspace c then ([], s)
      else let '(tok, rest) := span_nonspace s' in (c :: tok, rest)
  | [] => ([], [])
  end.

(** [s.split(maxsplit=1)]. *)
Definition split_max1 (s : pystr) : list pystr :=
  match lstrip s with
  | [] => []
  | s1 =>
      let '(tok, rest) := span_nonspace s1 in
      match lstrip rest with
      | [] => [tok]
      | rest' => [tok; rest']
      end
  end.

(** *** [float(str)] *)

Definition is_digit (c : Z) : bool := (48 <=? c) && (c <=? 57).

(** Underscores may only stand between two digits. *)
Fixpoint underscores_ok (prev : Z) (s : pystr) : bool :=
  match s with
  | [] => negb (prev =? 95)
  | c :: s' =>
      (if c =? 95 then is_digit prev
       else if prev =? 95 then is_digit c else true)
      && underscores_ok c s'
  end.

Definition remove_underscores (s : pystr) : pystr :=
  filter (fun c => c <> 95) s.

Fixpoint span_digits (s : pystr) : pystr * pystr :=
  match s with
  | c :: s' =>
      if is_digit c then let '(ds, rest) := span_digits s' in (c :: ds, rest)
      else ([], s)
  | [] => ([], [])
  end.

Definition digits_value (ds : pystr) : Z :=
  fold_left (fun acc c => 10 * acc + (c - 48)) ds 0.

(** The optional exponent part, which must reach the end of the string. *)
Definition parse_exponent (s : pystr) : option Z :=
  match s with
  | [] => Some 0
  | c :: s1 =>
      if (c =? 101) || (c =? 69) then
        let '(neg, s2) :=
          match s1 with
          | d :: t => if d =? 45 then (true, t)
                      else if d =? 43 then (false, t) else (false, s1)
          | [] => (false, s1)
          end in
        let '(ds, rest) := span_digits s2 in
        match ds, rest with
        | _ :: _, [] => Some (if neg then - digits_value ds else digits_value ds)
        | _, _ => None
        end
      else None
  end.

(** An unsigned decimal numeral: the value of its digits and its decimal
    exponent. *)
Definition parse_decimal (s : pystr) : option (Z * Z) :=
  let '(ip, s1) := span_digits s in
  let '(fp, s2) :=
    match s1 with
    | c :: t => if c =? 46 then span_digits t else ([], s1)
    | [] => ([], s1)
    end in
  match ip ++ fp with
  | [] => None
  | ds =>
      match parse_exponent s2 with
      | Some e => Some (digits_value ds, e - Z.of_nat (length fp))
      | None => None
      end
  end.

(** [float(text)] on a string; decimal digits other than ASCII ones, which
    CPython also accepts, are not modelled. *)
Definition py_float (text : pystr) : result PyFloat.float :=
  let s := strip text in
  if negb (underscores_ok 0 s) then Raise ValueError
  else
    let s := remove_underscores s in
    let '(neg, body) :=
      match s with
      | c :: t => if c =? 45 then (true, t)
                  else if c =? 43 then (false, t) else (false, s)
      | [] => (false, s)
      end in
    match parse_decimal body with
    | Some (m, e) => Ok (PyFloat.float_of_decimal neg m e)
    | None =>
        let w := lower body in
        if eqb w (str "inf") || eqb w (str "infinity") then Ok (S754_infinity neg)
        else if eqb w (str "nan") then Ok S754_nan
        else Raise ValueError
    end.

End PyStr.

(** ** The bot *)

Module Bot.

Import PyFloat PyStr.

(** src/calorie_bot.py, [UserProfile]. *)
Record UserProfile : Type := mkUserProfile {
  weight : float;
  height : Z;
  age : Z;
  gender : pystr;
  activity_minutes : Z;
  city : pystr;
  temperature : option float;
  water_consumed : Z;
  calories_eaten : Z;
  calories_burned : Z;
  water_target : Z;
  calorie_target : Z;
  water_timeline : list (pystr * Z);
  calorie_timeline : list (pystr * Z);
  workout_timeline : list (pystr * Z)
}.

Definition set_water_consumed (v : Z) (p : UserProfile) : UserProfile :=
  mkUserProfile (weight p) (height p) (age p) (gender p) (activity_minutes p)
    (city p) (temperature p) v (calories_eaten p) (calories_burned p)
    (water_target p) (calorie_target p) (water_timeline p)
    (calorie_timeline p) (workout_timeline p).

Definition set_calories_eaten (v : Z) (p : UserProfile) : UserProfile :=
  mkUserProfile (weight p) (height p) (age p) (gender p) (activity_minutes p)
    (city p) (temperature p) (water_consumed p) v (calories_burned p)
    (water_target p) (calorie_target p) (water_timeline p)
    (calorie_timeline p) (workout_timeline p).

Definition set_calories_burned (v : Z) (p : UserProfile) : UserProfile :=
  mkUserProfile (weight p) (height p) (age p) (gender p) (activity_minutes p)
    (city p) (temperature p) (water_consumed p) (calories_eaten p) v
    (water_target p) (calorie_target p) (water_timeline p)
    (calorie_timeline p) (workout_timeline p).

Definition set_water_target (v : Z) (p : UserProfile) : UserProfile :=
  mkUserProfile (weight p) (height p) (age p) (gender p) (activity_minutes p)
    (city p) (temperature p) (water_consumed p) (calories_eaten p)
    (calories_burned p) v (calorie_target p) (water_timeline p)
    (calorie_timeline p) (workout_timeline p).

Definition set_water_timeline (v : list (pystr * Z)) (p : UserProfile) : UserProfile :=
  mkUserProfile (weight p) (height p) (age p) (gender p) (activity_minutes p)
    (city p) (temperature p) (water_consumed p) (calories_eaten p)
    (calories_burned p) (water_target p) (calorie_target p) v
    (calorie_timeline p) (workout_timeline p).

Definition set_calorie_timeline (v : list (pystr * Z)) (p : UserProfile) : UserProfile :=
  mkUserProfile (weight p) (height p) (age p) (gender p) (activity_minutes p)
    (city p) (temperature p) (water_consumed p) (calories_eaten p)
    (calories_burned p) (water_target p) (calorie_target p) (water_timeline p)
    v (workout_timeline p).

Definition set_workout_timeline (v : list (pystr * Z)) (p : UserProfile) : UserProfile :=
  mkUserProfile (weight p) (height p) (age p) (gender p) (activity_minutes p)
    (city p) (temperature p) (water_consumed p) (calories_eaten p)
    (calories_burned p) (water_target p) (calorie_target p) (water_timeline p)
    (calorie_timeline p) v.

(** *** Norms *)

(** [calculate_water_norm]; [temp and temp > 25] is false for [None], for
    [0.0] and for a NaN. *)
Definition calculate_water_norm (weight : float) (activity : Z)
    (temp : option float) : result Z :=
  let base_amount := fmul weight (fconst 30) in
  let activity_bonus := (activity / 30) * 500 in
  let heat_bonus :=
    match temp with
    | Some t => if negb (is_zero t) && fgt t (fconst 25) then 500 else 0
    | None => 0
    end in
  let* ab := float_of_int activity_bonus in
  let* hb := float_of_int heat_bonus in
  py_int (fadd (fadd base_amount ab) hb).

(** [calculate_calorie_norm]; [if manual] is false for [None] and for [0]. *)
Definition calculate_calorie_norm (weight : float) (height age : Z)
    (gender : pystr) (activity : Z) (manual : option Z) : result Z :=
  let mifflin :=
    let* h := float_of_int height in
    let* a5 := float_of_int (5 * age) in
    let bmr := fsub (fadd (fmul (fconst 10) weight) (fmul (fdec 625 2) h)) a5 in
    let bmr := fadd bmr (if eqb gender (str "male") then fconst 5 else fconst (-161)) in
    let multiplier :=
      if 60 <=? activity then fdec 155 2
      else if 30 <=? activity then fdec 1375 3
      else fdec 12 1 in
    py_int (fmul bmr multiplier) in
  match manual with
  | Some m => if m =? 0 then mifflin else Ok m
  | None => mifflin
  end.

(** *** Workouts *)

Fixpoint dict_get {V : Type} (k : pystr) (d : list (pystr * V)) : option V :=
  match d with
  | [] => None
  | (k', v) :: d' => if eqb k k' then Some v else dict_get k d'
  end.

Module WorkoutCalculator.

(** The Russian keys, as code points: бег, ходьба, велосипед, плавание,
    зал, йога. *)
Definition MET_VALUES : list (pystr * float) :=
  [ ([1073; 1077; 1075], fdec 100 1);
    (str "run", fdec 100 1);
    ([1093; 1086; 1076; 1100; 1073; 1072], fdec 45 1);
    (str "walk", fdec 45 1);
    ([1074; 1077; 1083; 1086; 1089; 1080; 1087; 1077; 1076], fdec 80 1);
    (str "cycling", fdec 80 1);
    ([1087; 1083; 1072; 1074; 1072; 1085; 1080; 1077], fdec 95 1);
    (str "swimming", fdec 95 1);
    ([1079; 1072; 1083], fdec 65 1);
    (str "gym", fdec 65 1);
    ([1081; 1086; 1075; 1072], fdec 35 1);
    (str "yoga", fdec 35 1) ].

(** [MET_VALUES.get(exercise.lower(), 7.0)]. *)
Definition met_of (exercise : pystr) : float :=
  match dict_get (lower exercise) MET_VALUES with
  | Some met => met
  | None => fdec 70 1
  end.

Definition calculate_burned (exercise : pystr) (minutes : Z)
    (weight_kg : float) : result Z :=
  let met := met_of exercise in
  let* m := float_of_int minutes in
  let hours := fdiv m (fdec 600 1) in
  py_int (fmul (fmul met weight_kg) hours).

Definition water_bonus (minutes : Z) : Z := (minutes / 30) * 200.

End WorkoutCalculator.

(** *** Input parsing *)

(** [parse_number]: the bare [except] turns every exception into [None]. *)
Definition parse_number (text : pystr) (allow_float : bool)
    : option (if allow_float then float else Z) :=
  match py_float (strip (replace_char 44 46 text)) with
  | Raise _ => None
  | Ok f =>
      match allow_float return option (if allow_float then float else Z) with
      | true => Some f
      | false =>
          match py_int f with
          | Ok n => Some n
          | Raise _ => None
          end
      end
  end.

(** *** Conversation state (aiogram's FSM storage) *)

Inductive State : Type :=
| weight_input
| height_input
| age_input
| gender_input
| activity_input
| city_input
| manual_calories_choice
| manual_calories_input
| waiting_grams.

(** The keys the handlers store with [state.update_data]. *)
Record Data : Type := mkData {
  d_weight : option float;
  d_height : option Z;
  d_age : option Z;
  d_gender : option pystr;
  d_activity : option Z;
  d_city : option pystr;
  d_product_name : option pystr;
  d_kcal_per_100g : option float
}.

Definition no_data : Data := mkData None None None None None None None None.

Record Session : Type := mkSession {
  fsm_state : option State;
  fsm_data : Data
}.

(** [state.clear()] leaves neither a state nor data. *)
Definition cleared : Session := mkSession None no_data.

Record World : Type := mkWorld {
  user_database : gmap Z UserProfile;
  storage : gmap Z Session
}.

Definition get_profile (w : World) (user_id : Z) : option UserProfile :=
  user_database w !! user_id.

Definition put_profile (w : World) (user_id : Z) (p : UserProfile) : World :=
  mkWorld (<[user_id := p]> (user_database w)) (storage w).

Definition get_session (w : World) (user_id : Z) : Session :=
  default cleared (storage w !! user_id).

Definition put_session (w : World) (user_id : Z) (s : Session) : World :=
  mkWorld (user_database w) (<[user_id := s]> (storage w)).

Definition get_state (w : World) (user_id : Z) : option State :=
  fsm_state (get_session w user_id).

Definition get_data (w : World) (user_id : Z) : Data :=
  fsm_data (get_session w user_id).

Definition set_state (w : World) (user_id : Z) (st : State) : World :=
  put_session w user_id (mkSession (Some st) (get_data w user_id)).

Definition update_data (w : World) (user_id : Z) (f : Data -> Data) : World :=
  put_session w user_id (mkSession (get_state w user_id) (f (get_data w user_id))).

Definition clear (w : World) (user_id : Z) : World :=
  put_session w user_id cleared.

(** *** Replies

    A message of the bot is modelled by its kind and the values it
    shows; the fixed Russian wording is left out. *)

Inductive ChartKind : Type := WaterChart | CaloriesChart | BurnedChart.

(** The arguments of one [create_chart] call. *)
Record ChartRequest : Type := mkChart {
  chart_kind : ChartKind;
  chart_times : list pystr;
  chart_values : list Z;
  chart_target : option Z
}.

(** A progress bar: how many green and how many white squares. *)
Record Bar : Type := mkBar { filled_squares : nat; empty_squares : nat }.

Record StatusReport : Type := mkStatus {
  st_water_bar : Bar;
  st_water_percent : Z;
  st_water_consumed : Z;
  st_water_target : Z;
  st_water_remain : Z;
  st_calorie_bar : Bar;
  st_calorie_percent : Z;
  st_calories_eaten : Z;
  st_calories_burned : Z;
  st_calorie_balance : Z;
  st_calorie_target : Z;
  st_calorie_remain : Z
}.

Inductive Reply : Type :=
| NeedProfile
| Prompt (st : State)
| Retry (st : State)
| ProfileReady (city : pystr) (temp : option float) (water_norm calorie_norm : Z)
| CancelNothing
| CancelDone
| DrinkUsage
| DrinkRange
| DrinkAdded (amount consumed target percent remaining : Z)
| EatUsage
| FoodNotFound (query : pystr)
| FoodFound (name : pystr) (kcal_per_100g : float)
| GramsRange
| FoodLogged (name : pystr) (grams added eaten balance target percent remaining : Z)
| TrainUsage
| TrainRange
| TrainLogged (kind : pystr) (duration burned bonus target balance : Z)
| StatusMessage (r : StatusReport)
| ChartsInsufficient
| Photo (c : ChartRequest)
| ResetDone (water_target calorie_target : Z).

(** What a handler leaves behind: the state it reached, and its replies or
    the exception that ended it. *)
Definition Outcome : Type := (World * result (list Reply))%type.

(** The world outside the process. [current_time n] is the label returned
    by the [n]-th call of [current_time()] within one handler run. *)
Record Env : Type := mkEnv {
  current_time : nat -> pystr;
  fetch_weather : pystr -> option float;
  search_food_calories : pystr -> option (pystr * float)
}.

(** [min(int(a / b * 100), 100)], the expression behind every percentage
    the bot shows. *)
Definition percent (a b : Z) : result Z :=
  let* q := int_truediv a b in
  let* n := py_int (fmul q (fconst 100)) in
  Ok (Z.min n 100).

Section Handlers.

Context (env : Env).

(** [init_timeline]: each empty timeline receives its seed entry. *)
Definition init_timeline (profile : UserProfile) : UserProfile :=
  let '(profile, n) :=
    match water_timeline profile with
    | [] => (set_water_timeline [(current_time env 0, 0)] profile, 1%nat)
    | _ => (profile, 0%nat)
    end in
  let '(profile, n) :=
    match calorie_timeline profile with
    | [] => (set_calorie_timeline [(current_time env n, 0)] profile, S n)
    | _ => (profile, n)
    end in
  match workout_timeline profile with
  | [] => set_workout_timeline [(current_time env n, 0)] profile
  | _ => profile
  end.

(** *** Profile setup *)

Definition cmd_setup (w : World) (user_id : Z) : Outcome :=
  let w := clear w user_id in
  (set_state w user_id weight_input, Ok [Prompt weight_input]).

Definition process_weight (w : World) (user_id : Z) (text : pystr) : Outcome :=
  match parse_number text true with
  | Some weight =>
      if is_zero weight || flt weight (fconst 30) || fgt weight (fconst 300)
      then (w, Ok [Retry weight_input])
      else
        let w := update_data w user_id (fun d =>
          mkData (Some weight) (d_height d) (d_age d) (d_gender d)
            (d_activity d) (d_city d) (d_product_name d) (d_kcal_per_100g d)) in
        (set_state w user_id height_input, Ok [Prompt height_input])
  | None => (w, Ok [Retry weight_input])
  end.

Definition process_height (w : World) (user_id : Z) (text : pystr) : Outcome :=
  match parse_number text false with
  | Some height =>
      if (height =? 0) || (height <? 100) || (250 <? height)
      then (w, Ok [Retry height_input])
      else
        let w := update_data w user_id (fun d =>
          mkData (d_weight d) (Some height) (d_age d) (d_gender d)
            (d_activity d) (d_city d) (d_product_name d) (d_kcal_per_100g d)) in
        (set_state w user_id age_input, Ok [Prompt age_input])
  | None => (w, Ok [Retry height_input])
  end.

Definition process_age (w : World) (user_id : Z) (text : pystr) : Outcome :=
  match parse_number text false with
  | Some age =>
      if (age =? 0) || (age <? 10) || (100 <? age)
      then (w, Ok [Retry age_input])
      else
        let w := update_data w user_id (fun d =>
          mkData (d_weight d) (d_height d) (Some age) (d_gender d)
            (d_activity d) (d_city d) (d_product_name d) (d_kcal_per_100g d)) in
        (set_state w user_id gender_input, Ok [Prompt gender_input])
  | None => (w, Ok [Retry age_input])
  end.

(** The keywords муж and жен, as code points. *)
Definition kw_muzh : pystr := [1084; 1091; 1078].
Definition kw_zhen : pystr := [1078; 1077; 1085].

Definition process_gender (w : World) (user_id : Z) (text : pystr) : Outcome :=
  let gender_text := lower (strip text) in
  let gender :=
    if contains kw_muzh gender_text || contains (str "male") gender_text
    then Some (str "male")
    else if contains kw_zhen gender_text || contains (str "female") gender_text
    then Some (str "female")
    else None in
  match gender with
  | Some gender =>
      let w := update_data w user_id (fun d =>
        mkData (d_weight d) (d_height d) (d_age d) (Some gender)
          (d_activity d) (d_city d) (d_product_name d) (d_kcal_per_100g d)) in
      (set_state w user_id activity_input, Ok [Prompt activity_input])
  | None => (w, Ok [Retry gender_input])
  end.

Definition process_activity (w : World) (user_id : Z) (text : pystr) : Outcome :=
  match parse_number text false with
  | Some activity =>
      if (activity <? 0) || (500 <? activity)
      then (w, Ok [Retry activity_input])
      else
        let w := update_data w user_id (fun d =>
          mkData (d_weight d) (d_height d) (d_age d) (d_gender d)
            (Some activity) (d_city d) (d_product_name d) (d_kcal_per_100g d)) in
        (set_state w user_id city_input, Ok [Prompt city_input])
  | None => (w, Ok [Retry activity_input])
  end.

Definition process_city (w : World) (user_id : Z) (text : pystr) : Outcome :=
  let city := strip text in
  if (length city <? 2)%nat then (w, Ok [Retry city_input])
  else
    let w := update_data w user_id (fun d =>
      mkData (d_weight d) (d_height d) (d_age d) (d_gender d)
        (d_activity d) (Some city) (d_product_name d) (d_kcal_per_100g d)) in
    (set_state w user_id manual_calories_choice, Ok [Prompt manual_calories_choice]).

(** [data[key]] raises [KeyError] when the key was never stored. *)
Definition item {A : Type} (v : option A) : result A :=
  match v with
  | Some a => Ok a
  | None => Raise KeyError
  end.

Definition finalize_profile (w : World) (user_id : Z)
    (manual_calories : option Z) : Outcome :=
  let data := get_data w user_id in
  let created :=
    let* city := item (d_city data) in
    let temp := fetch_weather env city in
    let* weight := item (d_weight data) in
    let* activity := item (d_activity data) in
    let* water_norm := calculate_water_norm weight activity temp in
    let* height := item (d_height data) in
    let* age := item (d_age data) in
    let* gender := item (d_gender data) in
    let* calorie_norm :=
      calculate_calorie_norm weight height age gender activity manual_calories in
    Ok (mkUserProfile weight height age gender activity city temp 0 0 0
          water_norm calorie_norm [] [] []) in
  match created with
  | Raise e => (w, Raise e)
  | Ok profile =>
      let profile := init_timeline profile in
      let w := put_profile w user_id profile in
      (clear w user_id,
       Ok [ProfileReady (city profile) (temperature profile)
             (water_target profile) (calorie_target profile)])
  end.

(** The keywords да and нет, as code points. *)
Definition kw_da : pystr := [1076; 1072].
Definition kw_net : pystr := [1085; 1077; 1090].

Definition process_manual_choice (w : World) (user_id : Z) (text : pystr) : Outcome :=
  let answer := lower (strip text) in
  if contains kw_da answer || contains (str "yes") answer
  then (set_state w user_id manual_calories_input, Ok [Prompt manual_calories_input])
  else if contains kw_net answer || contains (str "no") answer
  then finalize_profile w user_id None
  else (w, Ok [Retry manual_calories_choice]).

Definition process_manual_calories (w : World) (user_id : Z) (text : pystr) : Outcome :=
  match parse_number text false with
  | Some calories =>
      if (calories =? 0) || (calories <? 1000) || (5000 <? calories)
      then (w, Ok [Retry manual_calories_input])
      else finalize_profile w user_id (Some calories)
  | None => (w, Ok [Retry manual_calories_input])
  end.

Definition cmd_cancel (w : World) (user_id : Z) : Outcome :=
  match get_state w user_id with
  | None => (w, Ok [CancelNothing])
  | Some _ => (clear w user_id, Ok [CancelDone])
  end.

(** *** The daily ledger *)

Definition cmd_drink (w : World) (user_id : Z) (text : pystr) : Outcome :=
  match get_profile w user_id with
  | None => (w, Ok [NeedProfile])
  | Some profile =>
      match split text with
      | _ :: arg :: _ =>
          match parse_number arg false with
          | Some amount =>
              if (amount =? 0) || (amount <=? 0) || (3000 <? amount)
              then (w, Ok [DrinkRange])
              else
                let profile :=
                  set_water_consumed (water_consumed profile + amount) profile in
                let profile :=
                  set_water_timeline
                    (water_timeline profile ++
                       [(current_time env 0, water_consumed profile)]) profile in
                let w := put_profile w user_id profile in
                let remaining :=
                  Z.max (water_target profile - water_consumed profile) 0 in
                (w,
                 let* pct := percent (water_consumed profile) (water_target profile) in
                 Ok [DrinkAdded amount (water_consumed profile)
                       (water_target profile) pct remaining])
          | None => (w, Ok [DrinkRange])
          end
      | _ => (w, Ok [DrinkUsage])
      end
  end.

Definition cmd_eat (w : World) (user_id : Z) (text : pystr) : Outcome :=
  match get_profile w user_id with
  | None => (w, Ok [NeedProfile])
  | Some _ =>
      match split_max1 text with
      | _ :: arg :: _ =>
          let product_query := strip arg in
          match search_food_calories env product_query with
          | None => (w, Ok [FoodNotFound product_query])
          | Some (product_name, kcal_per_100g) =>
              let w := update_data w user_id (fun d =>
                mkData (d_weight d) (d_height d) (d_age d) (d_gender d)
                  (d_activity d) (d_city d) (Some product_name)
                  (Some kcal_per_100g)) in
              (set_state w user_id waiting_grams,
               Ok [FoodFound product_name kcal_per_100g])
          end
      | _ => (w, Ok [EatUsage])
      end
  end.

Definition process_food_grams (w : World) (user_id : Z) (text : pystr) : Outcome :=
  match get_profile w user_id with
  | None => (clear w user_id, Ok [NeedProfile])
  | Some profile =>
      match parse_number text false with
      | Some grams =>
          if (grams =? 0) || (grams <=? 0) || (2000 <? grams)
          then (w, Ok [GramsRange])
          else
            let data := get_data w user_id in
            let eaten :=
              let* product_name := item (d_product_name data) in
              let* kcal_per_100g := item (d_kcal_per_100g data) in
              let* g := float_of_int grams in
              let total_kcal := fdiv (fmul kcal_per_100g g) (fdec 1000 1) in
              let* added := py_int total_kcal in
              Ok (product_name, added) in
            match eaten with
            | Raise e => (w, Raise e)
            | Ok (product_name, added) =>
                let profile :=
                  set_calories_eaten (calories_eaten profile + added) profile in
                let profile :=
                  set_calorie_timeline
                    (calorie_timeline profile ++
                       [(current_time env 0, calories_eaten profile)]) profile in
                let w := put_profile w user_id profile in
                let balance := calories_eaten profile - calories_burned profile in
                let remaining := Z.max (calorie_target profile - balance) 0 in
                match percent balance (calorie_target profile) with
                | Raise e => (w, Raise e)
                | Ok pct =>
                    (clear w user_id,
                     Ok [FoodLogged product_name grams added
                           (calories_eaten profile) balance
                           (calorie_target profile) pct remaining])
                end
            end
      | None => (w, Ok [GramsRange])
      end
  end.

Definition cmd_train (w : World) (user_id : Z) (text : pystr) : Outcome :=
  match get_profile w user_id with
  | None => (w, Ok [NeedProfile])
  | Some profile =>
      match split text with
      | _ :: kind :: arg :: _ =>
          let exercise_type := strip kind in
          match parse_number arg false with
          | Some duration =>
              if (duration =? 0) || (duration <=? 0) || (300 <? duration)
              then (w, Ok [TrainRange])
              else
                match WorkoutCalculator.calculate_burned exercise_type duration
                        (weight profile) with
                | Raise e => (w, Raise e)
                | Ok burned =>
                    let water_bonus := WorkoutCalculator.water_bonus duration in
                    let profile :=
                      set_calories_burned (calories_burned profile + burned) profile in
                    let profile :=
                      set_water_target (water_target profile + water_bonus) profile in
                    let profile :=
                      set_workout_timeline
                        (workout_timeline profile ++
                           [(current_time env 0, calories_burned profile)]) profile in
                    let balance := calories_eaten profile - calories_burned profile in
                    (put_profile w user_id profile,
                     Ok [TrainLogged exercise_type duration burned water_bonus
                           (water_target profile) balance])
                end
          | None => (w, Ok [TrainRange])
          end
      | _ => (w, Ok [TrainUsage])
      end
  end.

(** *** Reports *)

(** [progress_bar]: a string repeated a negative number of times is
    empty. *)
Definition progress_bar (pct : Z) : result Bar :=
  let* q := int_truediv pct 10 in
  let* filled := py_int q in
  Ok (mkBar (Z.to_nat filled) (Z.to_nat (10 - filled))).

Definition cmd_status (w : World) (user_id : Z) : Outcome :=
  match get_profile w user_id with
  | None => (w, Ok [NeedProfile])
  | Some profile =>
      (w,
       let* water_percent := percent (water_consumed profile) (water_target profile) in
       let water_remain := Z.max (water_target profile - water_consumed profile) 0 in
       let calorie_balance := calories_eaten profile - calories_burned profile in
       let* calorie_percent := percent calorie_balance (calorie_target profile) in
       let calorie_remain := Z.max (calorie_target profile - calorie_balance) 0 in
       let* water_bar := progress_bar water_percent in
       let* calorie_bar := progress_bar calorie_percent in
       Ok [StatusMessage
             (mkStatus water_bar water_percent (water_consumed profile)
                (water_target profile) water_remain calorie_bar calorie_percent
                (calories_eaten profile) (calories_burned profile)
                calorie_balance (calorie_target profile) calorie_remain)])
  end.

Definition chart_of (kind : ChartKind) (timeline : list (pystr * Z))
    (target : option Z) : ChartRequest :=
  mkChart kind (map fst timeline) (map snd timeline) target.

Definition cmd_charts (w : World) (user_id : Z) : Outcome :=
  match get_profile w user_id with
  | None => (w, Ok [NeedProfile])
  | Some profile =>
      if (length (water_timeline profile) <? 2)%nat
         && (length (calorie_timeline profile) <? 2)%nat
      then (w, Ok [ChartsInsufficient])
      else
        (w,
         Ok ((if (2 <=? length (water_timeline profile))%nat
              then [Photo (chart_of WaterChart (water_timeline profile)
                             (Some (water_target profile)))]
              else []) ++
             (if (2 <=? length (calorie_timeline profile))%nat
              then [Photo (chart_of CaloriesChart (calorie_timeline profile)
                             (Some (calorie_target profile)))]
              else []) ++
             (if (2 <=? length (workout_timeline profile))%nat
              then [Photo (chart_of BurnedChart (workout_timeline profile) None)]
              else [])))
  end.

Definition cmd_reset (w : World) (user_id : Z) : Outcome :=
  match get_profile w user_id with
  | None => (w, Ok [NeedProfile])
  | Some profile =>
      let water_target := water_target profile in
      let calorie_target := calorie_target profile in
      let profile := set_water_consumed 0 profile in
      let profile := set_calories_eaten 0 profile in
      let profile := set_calories_burned 0 profile in
      let profile := set_water_timeline [(current_time env 0, 0)] profile in
      let profile := set_calorie_timeline [(current_time env 1, 0)] profile in
      let profile := set_workout_timeline [(current_time env 2, 0)] profile in
      (put_profile w user_id profile, Ok [ResetDone water_target calorie_target])
  end.

End Handlers.

End Bot.

(** ** The real-number meaning of floats

    The value of a finite float, the rounding that IEEE-754 prescribes
    (to nearest, ties to even, on the grid of the binade of the exact
    result) and the truncation of [int()], stated over [R]. The lemmas below
    connect the bit-level operations of [SpecFloat] to these. *)

Module FloatSem.

Import PyFloat.

Definition pow2 (e : Z) : R := powerRZ 2 e.

Definition F2R (m e : Z) : R := (IZR m * pow2 e)%R.

(** The value of a float; zero for the values that are none. *)
Definition SF2R (f : float) : R :=
  match f with
  | S754_finite s m e => F2R (cond_Zopp s (Zpos m)) e
  | _ => 0%R
  end.

(** [y] lies in [m, m+1) at the place [l] tells. *)
Definition inbetween (m : Z) (y : R) (l : location) : Prop :=
  match l with
  | loc_Exact => y = IZR m
  | loc_Inexact c =>
      (IZR m < y < IZR m + 1)%R /\
      match c with
      | Lt => (y < IZR m + /2)%R
      | Eq => (y = IZR m + /2)%R
      | Gt => (IZR m + /2 < y)%R
      end
  end.

(** [k] is the integer nearest to [y], the even one of two. *)
Definition nearest_even (y : R) (k : Z) : Prop :=
  (IZR k - /2 <= y <= IZR k + /2)%R /\
  ((y = IZR k - /2 \/ y = IZR k + /2)%R -> Z.even k = true).

(** [E] is the exponent of the grid on which [q] is rounded: that of the
    binade of [q], and [emin] below the normal range. *)
Definition grid_exp (q : R) (E : Z) : Prop :=
  (E = emin prec emax /\ (q < pow2 (emin prec emax + prec))%R) \/
  (emin prec emax < E /\ (pow2 (E + prec - 1) <= q < pow2 (E + prec))%R).

(** [r] is the rounding of the magnitude [q]. *)
Definition rounded (q r : R) : Prop :=
  exists E k, grid_exp q E /\ nearest_even (q / pow2 E) k /\ r = F2R k E.

(** [r] is the rounding of the real [x], of either sign. *)
Definition rnd (x r : R) : Prop :=
  ((0 <= x)%R -> rounded x r) /\ ((x <= 0)%R -> rounded (- x) (- r)).

Definition rec_ok (mrs : shr_record) (y : R) : Prop :=
  0 <= shr_m mrs /\ inbetween (shr_m mrs) y (loc_of_shr_record mrs).

(** What [binary_round_aux] returns for a magnitude whose rounding is [r]. *)
Inductive round_res (s : bool) (r : R) : float -> Prop :=
| rr_zero : r = 0%R -> round_res s r (S754_zero s)
| rr_finite p E :
    r = F2R (Zpos p) E -> bounded prec emax p E = true ->
    round_res s r (S754_finite s p E)
| rr_inf : (pow2 emax <= r)%R -> round_res s r (S754_infinity s).

(** The last step of [binary_round_aux]: renormalise after the carry and
    test for overflow. *)
Definition finish (s : bool) (k E : Z) : float :=
  let '(mrs, e) := shr_fexp prec emax k E loc_Exact in
  match shr_m mrs with
  | Z0 => S754_zero s
  | Zpos m => if e <=? emax - prec then S754_finite s m e else S754_infinity s
  | Zneg _ => S754_nan
  end.

Definition fl_of (s : bool) (q : R) (f : float) : Prop :=
  exists r, rounded q r /\ round_res s r f.

(** [f] is a finite float in canonical form whose value is the rounding of
    the exact result [x]. *)
Definition fl_ok (x : R) (f : float) : Prop :=
  is_finite f = true /\ valid_binary prec emax f = true /\ rnd x (SF2R f).

(** [n] is [x] truncated towards zero. *)
Definition trunc_of (x : R) (n : Z) : Prop :=
  ((0 <= x)%R -> (IZR n <= x < IZR n + 1)%R) /\
  ((x <= 0)%R -> (IZR n - 1 < x <= IZR n)%R).

Definition cmp_ok (c : comparison) (x y : R) : Prop :=
  match c with
  | Lt => (x < y)%R
  | Eq => x = y
  | Gt => (y < x)%R
  end.

End FloatSem.


(** ** The specification's formulas

    Definitions that follow the words of the specification (spec.md, 4.1
    and 4.4); the theorems at the end compare the code with them. *)

Module Spec.

Import PyFloat PyStr Bot.

(** A float in canonical binary64 form, as every float that [float()] or an
    arithmetic operation returns. *)
Definition is_binary64 (f : float) : bool := valid_binary prec emax f.

(** A weight that passed the setup validation: a number between 30 and
    300. *)
Definition valid_weight (w : float) : bool :=
  is_finite w && is_binary64 w && SFleb (fconst 30) w && SFleb w (fconst 300).

(** "temperature is known and exceeds 25 degrees". *)
Definition exceeds_25 (temp : option float) : bool :=
  match temp with
  | Some t => fgt t (fconst 25)
  | None => false
  end.

Definition heat (temp : option float) : Z :=
  if exceeds_25 temp then 500 else 0.

(** "base = weight x 30; + 500 for every complete 30-minute block of
    activity; + 500 flat if temperature is known and exceeds 25; result
    truncated to integer". *)
Definition hydration_target (w : float) (a : Z) (temp : option float) : Z :=
  trunc_float
    (fadd (fadd (fmul w (fconst 30)) (fconst ((a / 30) * 500)))
          (fconst (heat temp))).

(** The gender category of the specification's data model. *)
Inductive Gender : Type := Male | Female.

Definition gender_str (g : Gender) : pystr :=
  match g with
  | Male => str "male"
  | Female => str "female"
  end.

(** "adjusted +5 for male / -161 for female". *)
Definition gender_adjustment (g : Gender) : float :=
  match g with
  | Male => fconst 5
  | Female => fconst (-161)
  end.

(** "an activity coefficient selected by activity_minutes thresholds:
    <30 -> 1.20, 30-59 -> 1.375, >=60 -> 1.55". *)
Definition activity_coefficient (activity : Z) : float :=
  if activity <? 30 then fdec 120 2
  else if activity <=? 59 then fdec 1375 3
  else fdec 155 2.

(** "basal rate = 10 x weight + 6.25 x height - 5 x age", adjusted for the
    gender. *)
Definition basal_rate (w : float) (h a : Z) (g : Gender) : float :=
  fadd (fsub (fadd (fmul (fconst 10) w) (fmul (fdec 625 2) (fconst h)))
             (fconst (5 * a)))
       (gender_adjustment g).

(** The largest integer below the value of a float. *)
Definition floor_float (f : float) : Z :=
  match f with
  | S754_finite s m e => Z.shiftl (cond_Zopp s (Zpos m)) e
  | _ => 0
  end.

(** "multiply by an activity coefficient ...; truncate to integer". *)
Definition calorie_target (w : float) (h a : Z) (g : Gender) (activity : Z) : Z :=
  floor_float (fmul (basal_rate w h a g) (activity_coefficient activity)).

(** "burn = MET x weight_kg x (minutes/60), truncated to integer". *)
Definition exercise_burn (met w : float) (minutes : Z) : Z :=
  trunc_float (fmul (fmul met w) (fdiv (fconst minutes) (fdec 600 1))).

(** "percent = min(int(x / target x 100), 100)": the percentage as the
    code computes it, capped at 100 and with no lower bound. *)
Definition status_percent (x target : Z) : Z :=
  Z.min (trunc_float (fmul (fdiv (fexact x) (fexact target)) (fconst 100))) 100.

(** "clamp(floor(x / target x 100), 0, 100)", over the integers. *)
Definition clamped_percent (x target : Z) : Z :=
  Z.max 0 (Z.min (x * 100 / target) 100).

(** An energy density the food database can sensibly return: a finite
    binary64 number of kcal per 100 g between 0 and 1000000. *)
Definition valid_energy (kcal : float) : bool :=
  is_finite kcal && is_binary64 kcal &&
  SFleb (fconst 0) kcal && SFleb kcal (fconst 1000000).

(** "total kcal = round-down(kcal_per_100g x grams / 100)". *)
Definition food_energy (kcal : float) (grams : Z) : Z :=
  floor_float (fdiv (fmul kcal (fconst grams)) (fdec 1000 1)).

End Spec.

(** ** A sample conversation

    One user sets up a profile (75 kg, 175 cm, 25 years, male, 20 minutes of
    activity, no manual calorie norm) and logs a 30-minute run. The weather
    service is down and the food database knows bananas. *)

Module Scenario.

Import PyFloat PyStr Bot.

Definition env0 : Env :=
  mkEnv (fun _ => str "12:00")
        (fun _ => None)
        (fun q => if eqb q (str "banana") then Some (str "Banana", fdec 890 1)
                  else None).

Definition user : Z := 1.

Definition empty_world : World := mkWorld ∅ ∅.

Definition asked_height : World :=
  fst (process_weight (fst (cmd_setup empty_world user)) user (str "75")).

Definition asked_age : World :=
  fst (process_height asked_height user (str "175")).

Definition asked_gender : World :=
  fst (process_age asked_age user (str "25")).

Definition asked_activity : World :=
  fst (process_gender asked_gender user (str "male")).

Definition asked_city : World :=
  fst (process_activity asked_activity user (str "20")).

Definition asked_manual : World :=
  fst (process_city asked_city user (str "Moscow")).

Definition after_setup : World :=
  fst (process_manual_choice env0 asked_manual user (str "no")).

Definition after_train : World :=
  fst (cmd_train env0 after_setup user (str "/train run 30")).

(** The profile the database holds after the run. *)
Definition profile_after_train : UserProfile :=
  mkUserProfile (fconst 75) 175 25 (str "male") 20 (str "Moscow") None
                0 0 375 2450 2068
                [(str "12:00", 0)] [(str "12:00", 0)]
                [(str "12:00", 0); (str "12:00", 375)].

(** The user has asked for a banana and is to say how many grams. *)
Definition asked_grams : World :=
  fst (cmd_eat env0 after_train user (str "/eat banana")).

End Scenario.

(** ** Recommendations ([cmd_tips]) *)

Module Advice.

Import PyFloat PyStr Bot.

(** The three shapes of the water paragraph. *)
Inductive WaterAdvice : Type :=
| DrinkPortions (water_deficit portion : Z)
| AlmostThere (water_deficit : Z)
| WaterDone.

(** The four shapes of the calorie paragraph. *)
Inductive CalorieAdvice : Type :=
| WalkOff (excess workout_time : Z)
| Snack (cal_deficit : Z)
| NearlyThere (cal_deficit : Z)
| GoalReached.

Inductive Food : Type := Cucumbers | Tomatoes | ChickenBreast | GreekYogurt | Eggs.

Definition low_cal_foods : list Food :=
  [Cucumbers; Tomatoes; ChickenBreast; GreekYogurt; Eggs].

Inductive TipsReply : Type :=
| TipsNeedProfile
| Recommendations (water : WaterAdvice) (calories : CalorieAdvice)
                  (foods : list Food).

(** [x / y] on floats raises on a zero divisor. *)
Definition truediv (x y : float) : result float :=
  if is_zero y then Raise ZeroDivisionError else Ok (fdiv x y).

(** The key ходьба of [MET_VALUES]. *)
Definition kw_walk : pystr := [1093; 1086; 1076; 1100; 1073; 1072].

Definition water_advice (profile : UserProfile) : WaterAdvice :=
  let water_deficit := water_target profile - water_consumed profile in
  if 500 <? water_deficit
  then DrinkPortions water_deficit (Z.min 250 water_deficit)
  else if 0 <? water_deficit then AlmostThere water_deficit
  else WaterDone.

(** [excess / (MET_VALUES.get("ходьба", 4.5) * weight / 60)], truncated. *)
Definition walking_minutes (excess : Z) (weight : float) : result Z :=
  let met :=
    match dict_get kw_walk WorkoutCalculator.MET_VALUES with
    | Some m => m
    | None => fdec 45 1
    end in
  let pace := fdiv (fmul met weight) (fconst 60) in
  let* e := float_of_int excess in
  let* q := truediv e pace in
  py_int q.

Definition calorie_advice (profile : UserProfile) : result CalorieAdvice :=
  let cal_balance := calories_eaten profile - calories_burned profile in
  let cal_deficit := calorie_target profile - cal_balance in
  if calorie_target profile + 300 <? cal_balance then
    let excess := cal_balance - calorie_target profile in
    let* workout_time := walking_minutes excess (weight profile) in
    Ok (WalkOff excess workout_time)
  else if 300 <? cal_deficit then Ok (Snack cal_deficit)
  else if 0 <? cal_deficit then Ok (NearlyThere cal_deficit)
  else Ok GoalReached.

Definition cmd_tips (w : World) (user_id : Z) : World * result TipsReply :=
  match get_profile w user_id with
  | None => (w, Ok TipsNeedProfile)
  | Some profile =>
      (w,
       let water := water_advice profile in
       let* calories := calorie_advice profile in
       Ok (Recommendations water calories (firstn 3 low_cal_foods)))
  end.

End Advice.

(** ** The dispatcher

    One step of the bot: a text message of user [u] reaches the handler
    whose filters (the command, or the conversation state together with a
    text that is no command) let it through. A command handler is taken to
    run on any text, which can only add steps; [cmd_start] sends a fixed
    text and is left out. Each step has its own clock, weather and food
    answers. The bot starts with an empty database and an empty FSM
    storage. *)

Module Dispatch.

Import PyFloat PyStr Bot Advice.

Definition no_command (text : pystr) : bool := negb (startswith text (str "/")).

Definition initial : World := mkWorld ∅ ∅.

Inductive step (u : Z) : World -> World -> Prop :=
| step_setup w :
    step u w (fst (cmd_setup w u))
| step_weight w text :
    get_state w u = Some weight_input -> no_command text = true ->
    step u w (fst (process_weight w u text))
| step_height w text :
    get_state w u = Some height_input -> no_command text = true ->
    step u w (fst (process_height w u text))
| step_age w text :
    get_state w u = Some age_input -> no_command text = true ->
    step u w (fst (process_age w u text))
| step_gender w text :
    get_state w u = Some gender_input -> no_command text = true ->
    step u w (fst (process_gender w u text))
| step_activity w text :
    get_state w u = Some activity_input -> no_command text = true ->
    step u w (fst (process_activity w u text))
| step_city w text :
    get_state w u = Some city_input -> no_command text = true ->
    step u w (fst (process_city w u text))
| step_manual_choice env w text :
    get_state w u = Some manual_calories_choice -> no_command text = true ->
    step u w (fst (process_manual_choice env w u text))
| step_manual_calories env w text :
    get_state w u = Some manual_calories_input -> no_command text = true ->
    step u w (fst (process_manual_calories env w u text))
| step_cancel w :
    step u w (fst (cmd_cancel w u))
| step_drink env w text :
    step u w (fst (cmd_drink env w u text))
| step_eat env w text :
    step u w (fst (cmd_eat env w u text))
| step_food_grams env w text :
    get_state w u = Some waiting_grams -> no_command text = true ->
    step u w (fst (process_food_grams env w u text))
| step_train env w text :
    step u w (fst (cmd_train env w u text))
| step_status w :
    step u w (fst (cmd_status w u))
| step_charts w :
    step u w (fst (cmd_charts w u))
| step_tips w :
    step u w (fst (cmd_tips w u))
| step_reset env w :
    step u w (fst (cmd_reset env w u)).

Inductive reachable : World -> Prop :=
| reach_initial : reachable initial
| reach_step u w w' : reachable w -> step u w w' -> reachable w'.

(** *** What every reachable state satisfies *)

(** The values of a timeline, in order. *)
Definition values (timeline : list (pystr * Z)) : list Z := map snd timeline.

Fixpoint ascending (strict : bool) (l : list Z) : bool :=
  match l with
  | a :: (b :: _) as t => (if strict then a <? b else a <=? b) && ascending strict t
  | _ => true
  end.

(** A weight the weight question lets through: a number in [30, 300], or
    a NaN, on which every comparison is false. *)
Definition weight_ok (x : float) : Prop :=
  x = S754_nan \/ Spec.valid_weight x = true.

Definition is_gender (g : pystr) : Prop := g = str "male" \/ g = str "female".

Record profile_ok (p : UserProfile) : Prop := mk_profile_ok {
  ok_weight : Spec.valid_weight (weight p) = true;
  ok_height : 100 <= height p <= 250;
  ok_age : 10 <= age p <= 100;
  ok_gender : is_gender (gender p);
  ok_activity : 0 <= activity_minutes p <= 500;
  ok_city : (2 <= length (city p))%nat;
  ok_water_target : 900 <= water_target p;
  ok_calorie_target : 239 <= calorie_target p;
  ok_water_consumed : 0 <= water_consumed p;
  ok_calories_burned : 0 <= calories_burned p;
  ok_water_last : last (values (water_timeline p)) = Some (water_consumed p);
  ok_calorie_last : last (values (calorie_timeline p)) = Some (calories_eaten p);
  ok_workout_last : last (values (workout_timeline p)) = Some (calories_burned p);
  ok_water_ascending : ascending true (values (water_timeline p)) = true;
  ok_workout_ascending : ascending true (values (workout_timeline p)) = true
}.

(** How many setup answers a conversation state presupposes. *)
Definition setup_stage (st : option State) : nat :=
  match st with
  | Some height_input => 1
  | Some age_input => 2
  | Some gender_input => 3
  | Some activity_input => 4
  | Some city_input => 5
  | Some manual_calories_choice | Some manual_calories_input => 6
  | _ => 0
  end.

Record answers_ok (d : Data) (n : nat) : Prop := mk_answers_ok {
  ans_weight : (1 <= n)%nat -> exists x, d_weight d = Some x /\ weight_ok x;
  ans_height : (2 <= n)%nat -> exists h, d_height d = Some h /\ 100 <= h <= 250;
  ans_age : (3 <= n)%nat -> exists a, d_age d = Some a /\ 10 <= a <= 100;
  ans_gender : (4 <= n)%nat -> exists g, d_gender d = Some g /\ is_gender g;
  ans_activity : (5 <= n)%nat -> exists a, d_activity d = Some a /\ 0 <= a <= 500;
  ans_city : (6 <= n)%nat -> exists c, d_city d = Some c /\ (2 <= length c)%nat
}.

Definition session_ok (s : Session) : Prop :=
  answers_ok (fsm_data s) (setup_stage (fsm_state s)) /\
  (fsm_state s = Some waiting_grams ->
   exists name kcal,
     d_product_name (fsm_data s) = Some name /\
     d_kcal_per_100g (fsm_data s) = Some kcal).

Definition world_ok (w : World) : Prop :=
  (forall u p, get_profile w u = Some p -> profile_ok p) /\
  (forall u, session_ok (get_session w u)).

(** The handler run left user [v] as it was. *)
Definition untouched (v : Z) (w w' : World) : Prop :=
  get_profile w' v = get_profile w v /\ get_session w' v = get_session w v.

(** The profile [finalize_profile] stores: the answers, the temperature of
    the city, zeroed counters, the two norms and three seeded timelines. *)
Definition created_profile (env : Env) (x : float) (h a : Z) (g : pystr)
    (activity : Z) (c : pystr) (water_norm calorie_norm : Z) : UserProfile :=
  mkUserProfile x h a g activity c (fetch_weather env c) 0 0 0
    water_norm calorie_norm
    [(current_time env 0, 0)] [(current_time env 1, 0)] [(current_time env 2, 0)].

End Dispatch.

(** ** Orders on the inputs of the norms *)

Module Orders.

Import Spec.

(** The gender adjustment of [g] is at most that of [g']. *)
Definition gender_le (g g' : Gender) : Prop :=
  match g, g' with
  | Male, Female => False
  | _, _ => True
  end.

End Orders.

(** ** A second sample conversation: the weight is answered with "nan" *)

Module NanScenario.

Import PyFloat PyStr Bot Scenario.

Definition asked_height : World :=
  fst (process_weight (fst (cmd_setup empty_world user)) user (str "nan")).

Definition asked_manual : World :=
  let w := fst (process_height asked_height user (str "175")) in
  let w := fst (process_age w user (str "25")) in
  let w := fst (process_gender w user (str "male")) in
  let w := fst (process_activity w user (str "20")) in
  fst (process_city w user (str "Moscow")).

End NanScenario.
(** * Facts about floats *)

Module FloatFacts.

Import PyFloat FloatSem.

Lemma pow2_pos e : (0 < pow2 e)%R.
Proof. apply powerRZ_lt. lra. Qed.

Lemma pow2_add a b : pow2 (a + b) = (pow2 a * pow2 b)%R.
Proof. apply powerRZ_add. lra. Qed.

Lemma pow2_0 : pow2 0 = 1%R.
Proof. reflexivity. Qed.

Lemma pow2_1 : pow2 1 = 2%R.
Proof. unfold pow2. simpl. lra. Qed.

Lemma pow2_succ a : pow2 (a + 1) = (2 * pow2 a)%R.
Proof. rewrite pow2_add, pow2_1. lra. Qed.

Lemma pow2_opp a : pow2 (- a) = (/ pow2 a)%R.
Proof. apply powerRZ_neg'. Qed.

Lemma pow2_sub a b : pow2 (a - b) = (pow2 a / pow2 b)%R.
Proof. unfold Z.sub. rewrite pow2_add, pow2_opp. reflexivity. Qed.

Lemma pow2_IZR n : 0 <= n -> pow2 n = IZR (2 ^ n).
Proof.
  intros Hn. pattern n. apply natlike_ind; [reflexivity | | exact Hn].
  intros x Hx IH. unfold Z.succ. rewrite pow2_succ, IH, Z.pow_add_r by lia.
  rewrite Z.pow_1_r, mult_IZR. lra.
Qed.

Lemma pow2_le a b : a <= b -> (pow2 a <= pow2 b)%R.
Proof.
  intros H. replace b with (a + (b - a)) by lia.
  rewrite pow2_add, (pow2_IZR (b - a)) by lia.
  assert (0 < 2 ^ (b - a)) by (apply Z.pow_pos_nonneg; lia).
  assert (1 <= 2 ^ (b - a)) by lia.
  apply IZR_le in H1. pose proof (pow2_pos a). nra.
Qed.

Lemma pow2_lt a b : a < b -> (pow2 a < pow2 b)%R.
Proof.
  intros H. apply Rlt_le_trans with (pow2 (a + 1)).
  - rewrite pow2_succ. pose proof (pow2_pos a). lra.
  - apply pow2_le. lia.
Qed.

Lemma pow2_lt_inv a b : (pow2 a < pow2 b)%R -> a < b.
Proof.
  intros H. destruct (Z_lt_le_dec a b) as [|Hle]; [assumption|].
  apply pow2_le in Hle. lra.
Qed.

Lemma pow2_le_inv a b : (pow2 a <= pow2 b)%R -> a <= b.
Proof.
  intros H. destruct (Z_le_gt_dec a b) as [|Hgt]; [assumption|].
  assert (b < a) as Hlt by lia. apply pow2_lt in Hlt. lra.
Qed.

Lemma digits2_pos_bounds p :
  2 ^ (Zpos (digits2_pos p) - 1) <= Zpos p < 2 ^ Zpos (digits2_pos p).
Proof.
  induction p as [p IH | p IH | ]; simpl digits2_pos.
  - rewrite Pos2Z.inj_succ. unfold Z.succ.
    replace (Zpos (digits2_pos p) + 1 - 1) with (Zpos (digits2_pos p) - 1 + 1) by lia.
    rewrite !Z.pow_add_r by lia. lia.
  - rewrite Pos2Z.inj_succ. unfold Z.succ.
    replace (Zpos (digits2_pos p) + 1 - 1) with (Zpos (digits2_pos p) - 1 + 1) by lia.
    rewrite !Z.pow_add_r by lia. lia.
  - simpl. lia.
Qed.

Lemma Zdigits2_bounds m :
  0 < m -> 2 ^ (Zdigits2 m - 1) <= m < 2 ^ Zdigits2 m.
Proof. destruct m; try lia. intros _. apply digits2_pos_bounds. Qed.

Lemma Zdigits2_nonneg m : 0 <= Zdigits2 m.
Proof. destruct m; simpl; lia. Qed.

Lemma Zdigits2_unique m d :
  0 < d -> 2 ^ (d - 1) <= m < 2 ^ d -> Zdigits2 m = d.
Proof.
  intros Hd [H1 H2].
  assert (0 < m) as Hm by (pose proof (Z.pow_pos_nonneg 2 (d - 1)); lia).
  pose proof (Zdigits2_bounds m Hm) as [H3 H4].
  assert (0 < Zdigits2 m) by (destruct m; simpl; lia).
  assert (d - 1 < Zdigits2 m) by (apply (Z.pow_lt_mono_r_iff 2); lia).
  assert (Zdigits2 m - 1 < d) by (apply (Z.pow_lt_mono_r_iff 2); lia).
  lia.
Qed.

Lemma rec_ok_of_loc m l y :
  0 <= m -> inbetween m y l -> rec_ok (shr_record_of_loc m l) y.
Proof.
  intros Hm H. split.
  - destruct l as [|[]]; simpl; assumption.
  - destruct l as [|[]]; simpl; assumption.
Qed.

Lemma IZR_xO p : IZR (Zpos p~0) = (2 * IZR (Zpos p))%R.
Proof. rewrite Pos2Z.inj_xO, mult_IZR. reflexivity. Qed.

Lemma IZR_xI p : IZR (Zpos p~1) = (2 * IZR (Zpos p) + 1)%R.
Proof. rewrite Pos2Z.inj_xI, plus_IZR, mult_IZR. reflexivity. Qed.

Lemma shr_1_ok mrs y : rec_ok mrs y -> rec_ok (shr_1 mrs) (y / 2).
Proof.
  destruct mrs as [m r s]. unfold rec_ok. simpl shr_m at 1 2.
  intros [Hm H]. destruct m as [|p|p]; [| |lia].
  - destruct r, s; simpl in *; split; try lia; lra.
  - assert (0 < IZR (Zpos p))%R as Hp by (apply IZR_lt; lia).
    destruct p as [p|p|]; destruct r, s; simpl shr_m; simpl loc_of_shr_record;
      simpl in H; try rewrite IZR_xO in H; try rewrite IZR_xI in H;
      (split; [lia|]); simpl; lra.
Qed.

Lemma iter_shr_ok n : forall mrs y,
  rec_ok mrs y -> rec_ok (SpecFloat.iter_pos shr_1 n mrs) (y / pow2 (Zpos n)).
Proof.
  induction n as [n IH | n IH | ]; intros mrs y H; simpl SpecFloat.iter_pos.
  - replace (y / pow2 (Zpos n~1))%R with (y / 2 / pow2 (Zpos n) / pow2 (Zpos n))%R.
    + apply IH, IH, shr_1_ok, H.
    + rewrite Pos2Z.inj_xI. replace (2 * Zpos n + 1) with (Zpos n + Zpos n + 1) by lia.
      rewrite !pow2_add, pow2_1. pose proof (pow2_pos (Zpos n)). field. lra.
  - replace (y / pow2 (Zpos n~0))%R with (y / pow2 (Zpos n) / pow2 (Zpos n))%R.
    + apply IH, IH, H.
    + rewrite Pos2Z.inj_xO. replace (2 * Zpos n) with (Zpos n + Zpos n) by lia.
      rewrite !pow2_add. pose proof (pow2_pos (Zpos n)). field. lra.
  - rewrite pow2_1. apply shr_1_ok, H.
Qed.

Lemma shr_ok mrs e n y :
  rec_ok mrs y ->
  rec_ok (fst (shr mrs e n)) (y / pow2 (Z.max 0 n)) /\ snd (shr mrs e n) = e + Z.max 0 n.
Proof.
  intros H. destruct n as [|p|p]; unfold shr; cbn [fst snd].
  - rewrite Z.max_l, pow2_0 by lia. split; [|lia]. replace (y / 1)%R with y by field. exact H.
  - rewrite Z.max_r by lia. split; [|lia]. apply iter_shr_ok, H.
  - rewrite Z.max_l, pow2_0 by lia. split; [|lia]. replace (y / 1)%R with y by field. exact H.
Qed.

Lemma rne_ok mrs y :
  rec_ok mrs y ->
  nearest_even y (round_nearest_even (shr_m mrs) (loc_of_shr_record mrs)) /\
  shr_m mrs <= round_nearest_even (shr_m mrs) (loc_of_shr_record mrs) <= shr_m mrs + 1.
Proof.
  intros [Hm H]. generalize dependent (shr_m mrs). intros m Hm.
  destruct (loc_of_shr_record mrs) as [|[]]; unfold inbetween, round_nearest_even, nearest_even.
  - intros H. split; [|lia]. split; [lra|]. intros [?|?]; lra.
  - intros [H1 H2]. destruct (Z.even m) eqn:Hev.
    + split; [|lia]. split; [lra|]. intros _. exact Hev.
    + split; [|lia]. rewrite plus_IZR. split; [lra|]. intros _.
      rewrite Z.even_add, Hev. reflexivity.
  - intros [H1 H2]. split; [|lia]. split; [lra|]. intros [?|?]; lra.
  - intros [H1 H2]. split; [|lia]. rewrite plus_IZR. split; [lra|]. intros [?|?]; lra.
Qed.

Lemma fexp_eq x : fexp prec emax x = Z.max (x - 53) (-1074).
Proof. reflexivity. Qed.

Lemma emin_eq : emin prec emax = -1074.
Proof. reflexivity. Qed.

Lemma shr_fexp_ok m e l y :
  0 <= m -> inbetween m y l -> e <= fexp prec emax (Zdigits2 m + e) ->
  rec_ok (fst (shr_fexp prec emax m e l)) (y / pow2 (fexp prec emax (Zdigits2 m + e) - e)) /\
  snd (shr_fexp prec emax m e l) = fexp prec emax (Zdigits2 m + e).
Proof.
  intros Hm H He. unfold shr_fexp.
  pose proof (shr_ok (shr_record_of_loc m l) e (fexp prec emax (Zdigits2 m + e) - e) y
                (rec_ok_of_loc m l y Hm H)) as [H1 H2].
  rewrite Z.max_r in H1, H2 by lia. split; [exact H1 | lia].
Qed.

Lemma inbetween_bounds m y l : inbetween m y l -> (IZR m <= y < IZR m + 1)%R.
Proof. destruct l; simpl; intros; lra. Qed.

Lemma grid_exp_of_digits m e l q :
  0 <= m -> inbetween m (q / pow2 e) l -> e <= fexp prec emax (Zdigits2 m + e) ->
  grid_exp q (fexp prec emax (Zdigits2 m + e)).
Proof.
  intros Hm H He. apply inbetween_bounds in H.
  pose proof (pow2_pos e) as Hpe.
  assert (IZR m * pow2 e <= q < (IZR m + 1) * pow2 e)%R as Hq.
  { destruct H as [H1 H2]. split.
    - apply Rmult_le_compat_r with (r := pow2 e) in H1; [|lra].
      unfold Rdiv in H1. rewrite Rmult_assoc, Rinv_l, Rmult_1_r in H1 by lra. exact H1.
    - apply Rmult_lt_compat_r with (r := pow2 e) in H2; [|lra].
      unfold Rdiv in H2. rewrite Rmult_assoc, Rinv_l, Rmult_1_r in H2 by lra. exact H2. }
  clear H. unfold grid_exp. rewrite emin_eq. rewrite fexp_eq in *.
  destruct (Z.eq_dec m 0) as [->|Hm0].
  - simpl Zdigits2 in *. left. split; [lia|].
    apply Rlt_le_trans with (pow2 e); [simpl in Hq; lra|]. apply pow2_le. unfold prec. lia.
  - assert (0 < m) as Hmpos by lia.
    pose proof (Zdigits2_bounds m Hmpos) as [Hd1 Hd2].
    assert (0 < Zdigits2 m) as Hdpos by (destruct m; simpl; lia).
    set (d := Zdigits2 m) in *.
    assert (pow2 (d - 1 + e) <= q < pow2 (d + e))%R as Hq'.
    { rewrite !pow2_add, (pow2_IZR (d - 1)), (pow2_IZR d) by lia. apply IZR_le in Hd1.
      assert (m + 1 <= 2 ^ d) as Hd3 by lia. apply IZR_le in Hd3. rewrite plus_IZR in Hd3.
      split.
      - apply Rle_trans with (IZR m * pow2 e)%R; [|lra].
        apply Rmult_le_compat_r; lra.
      - apply Rlt_le_trans with ((IZR m + 1) * pow2 e)%R; [lra|].
        apply Rmult_le_compat_r; lra. }
    destruct (Z_le_gt_dec (d + e - 53) (-1074)) as [Hc|Hc].
    + left. split; [lia|]. apply Rlt_le_trans with (pow2 (d + e)); [lra|].
      apply pow2_le. unfold prec. lia.
    + right. rewrite Z.max_l by lia. split; [lia|]. unfold prec.
      replace (d + e - 53 + 53 - 1) with (d - 1 + e) by lia.
      replace (d + e - 53 + 53) with (d + e) by lia. exact Hq'.
Qed.

Lemma grid_exp_ge q E : grid_exp q E -> emin prec emax <= E.
Proof. intros [[-> _]|[H _]]; lia. Qed.

Lemma grid_exp_scaled q E :
  grid_exp q E ->
  (q / pow2 E < IZR (2 ^ prec))%R /\ (emin prec emax < E -> (IZR (2 ^ (prec - 1)) <= q / pow2 E)%R).
Proof.
  intros H. pose proof (pow2_pos E) as HE.
  rewrite <- !pow2_IZR by (unfold prec; lia).
  assert (forall a, pow2 (E + a) / pow2 E = pow2 a)%R as Hdiv.
  { intros a. rewrite pow2_add. field. lra. }
  destruct H as [[-> H]|[H1 [H2 H3]]].
  - split; [|lia]. rewrite <- Hdiv with (a := prec).
    apply Rmult_lt_compat_r; [apply Rinv_0_lt_compat; apply pow2_pos | exact H].
  - split.
    + rewrite <- Hdiv with (a := prec).
      apply Rmult_lt_compat_r; [apply Rinv_0_lt_compat; exact HE | exact H3].
    + intros _. rewrite <- Hdiv with (a := prec - 1).
      apply Rmult_le_compat_r; [apply Rlt_le, Rinv_0_lt_compat; exact HE |].
      replace (E + (prec - 1)) with (E + prec - 1) by lia. exact H2.
Qed.

Lemma nearest_even_bounds y k (a b : Z) :
  nearest_even y k -> ((IZR a <= y)%R -> a <= k) /\ ((y <= IZR b)%R -> k <= b).
Proof.
  intros [[H1 H2] _]. split; intros H.
  - assert (IZR a < IZR (k + 1))%R as Hlt by (rewrite plus_IZR; lra).
    apply lt_IZR in Hlt. lia.
  - assert (IZR (k - 1) < IZR b)%R as Hlt by (rewrite minus_IZR; lra).
    apply lt_IZR in Hlt. lia.
Qed.

Lemma F2R_shift k E : F2R (2 * k) E = F2R k (E + 1).
Proof. unfold F2R. rewrite mult_IZR, pow2_succ. lra. Qed.

Lemma shr_carry E :
  shr (shr_record_of_loc (2 ^ 53) loc_Exact) E 1 =
  ({| shr_m := 2 ^ 52; shr_r := false; shr_s := false |}, E + 1).
Proof. reflexivity. Qed.

Lemma finish_spec s k E :
  emin prec emax <= E -> 0 <= k <= 2 ^ prec ->
  (emin prec emax < E -> 2 ^ (prec - 1) <= k) ->
  round_res s (F2R k E) (finish s k E).
Proof.
  rewrite emin_eq. unfold prec at 1 2. intros HE [Hk0 Hk] Hnorm.
  assert (k = 0 \/ 0 < k < 2 ^ 53 \/ k = 2 ^ 53) as [->|[Hk'| ->]] by lia.
  - unfold finish, shr_fexp. simpl Zdigits2. rewrite fexp_eq.
    destruct (Z.max (0 + E - 53) (-1074) - E) as [|p|p] eqn:Hn; try lia;
      simpl; apply rr_zero; unfold F2R; lra.
  - pose proof (Zdigits2_bounds k (proj1 Hk')) as [Hd1 Hd2].
    assert (0 < Zdigits2 k) as Hd0 by (destruct k; simpl; lia).
    assert (Zdigits2 k <= 53) as Hd.
    { assert (Zdigits2 k - 1 < 53); [|lia]. apply (Z.pow_lt_mono_r_iff 2); lia. }
    assert (emin prec emax < E -> Zdigits2 k = 53) as Hfull.
    { intros HE'. specialize (Hnorm HE'). unfold prec in Hnorm. simpl in Hnorm.
      apply Zdigits2_unique; lia. }
    rewrite emin_eq in Hfull.
    unfold finish, shr_fexp. rewrite fexp_eq.
    destruct (Z.max (Zdigits2 k + E - 53) (-1074) - E) as [|p|p] eqn:Hn; try lia.
    unfold shr. cbn [shr_record_of_loc shr_m]. destruct k as [|p|p]; try lia.
      destruct (E <=? emax - prec) eqn:Hle.
      * apply rr_finite; [reflexivity|]. unfold bounded, canonical_mantissa.
        rewrite Hle, andb_true_r. apply Z.eqb_eq. rewrite fexp_eq.
        change (Zpos (digits2_pos p)) with (Zdigits2 (Zpos p)). lia.
      * apply rr_inf. apply Z.leb_gt in Hle. unfold emax, prec in Hle.
        assert (-1074 < E) as HE' by lia. specialize (Hnorm HE'). unfold prec in Hnorm.
        unfold F2R. apply Rle_trans with (IZR (2 ^ 52) * pow2 972)%R.
        -- rewrite <- pow2_IZR, <- pow2_add by lia. apply pow2_le. unfold emax. lia.
        -- apply Rmult_le_compat; [apply IZR_le; lia | apply Rlt_le, pow2_pos | apply IZR_le; exact Hnorm | apply pow2_le; lia].
  - unfold finish, shr_fexp. rewrite fexp_eq.
    change (Zdigits2 (2 ^ 53)) with 54.
    replace (Z.max (54 + E - 53) (-1074) - E) with 1 by lia.
    rewrite shr_carry. cbn [shr_m]. change (2 ^ 53) with (2 * 2 ^ 52).
    rewrite F2R_shift. change (2 ^ 52) with (Zpos (Z.to_pos (2 ^ 52))).
    destruct (E + 1 <=? emax - prec) eqn:Hle.
    + apply rr_finite; [reflexivity|]. unfold bounded, canonical_mantissa.
      rewrite Hle, andb_true_r. apply Z.eqb_eq. rewrite fexp_eq.
      change (Zpos (digits2_pos (Z.to_pos (2 ^ 52)))) with 53. lia.
    + apply rr_inf. apply Z.leb_gt in Hle. unfold emax, prec in Hle.
      change (Zpos (Z.to_pos (2 ^ 52))) with (2 ^ 52).
      unfold F2R. rewrite <- (pow2_IZR 52), <- pow2_add by lia. apply pow2_le. unfold emax. lia.
Qed.

Lemma bra_finish s m e l :
  binary_round_aux prec emax s m e l =
  finish s (round_nearest_even (shr_m (fst (shr_fexp prec emax m e l)))
              (loc_of_shr_record (fst (shr_fexp prec emax m e l))))
           (snd (shr_fexp prec emax m e l)).
Proof.
  unfold binary_round_aux, finish.
  destruct (shr_fexp prec emax m e l) as [mrs' e']. reflexivity.
Qed.

Lemma bra_spec s m e l q :
  0 <= m -> inbetween m (q / pow2 e) l -> e <= fexp prec emax (Zdigits2 m + e) ->
  exists r, rounded q r /\ round_res s r (binary_round_aux prec emax s m e l).
Proof.
  intros Hm Hin He.
  pose proof (shr_fexp_ok m e l _ Hm Hin He) as [Hrec HE].
  pose proof (grid_exp_of_digits m e l q Hm Hin He) as Hgrid.
  set (E := fexp prec emax (Zdigits2 m + e)) in *.
  assert (q / pow2 e / pow2 (E - e) = q / pow2 E)%R as Hy.
  { rewrite pow2_sub. pose proof (pow2_pos e). pose proof (pow2_pos E). field. lra. }
  rewrite Hy in Hrec.
  pose proof (rne_ok _ _ Hrec) as [Hne Hk].
  set (k := round_nearest_even _ _) in *.
  exists (F2R k E). split.
  - exists E, k. auto.
  - rewrite bra_finish. fold k. rewrite HE.
    pose proof (grid_exp_scaled q E Hgrid) as [Hlt Hge].
    pose proof (nearest_even_bounds _ _ (2 ^ (prec - 1)) (2 ^ prec) Hne) as [Hlo Hhi].
    apply finish_spec.
    + apply (grid_exp_ge q), Hgrid.
    + split; [destruct Hrec; lia | apply Hhi; lra].
    + intros HE'. apply Hlo, Hge, HE'.
Qed.

Lemma nearest_even_mono y y' k k' :
  (y <= y')%R -> nearest_even y k -> nearest_even y' k' -> k <= k'.
Proof.
  intros Hy [[H1 H2] He] [[H1' H2'] He'].
  destruct (Z_le_gt_dec k k') as [|Hgt]; [assumption|exfalso].
  assert (k' <= k - 1) as Hle by lia. apply IZR_le in Hle. rewrite minus_IZR in Hle.
  assert (y = IZR k - /2)%R as E1 by lra.
  assert (y' = IZR k' + /2)%R as E2 by lra.
  assert (IZR k' = IZR (k - 1)) as E3 by (rewrite minus_IZR; lra).
  apply eq_IZR in E3. subst k'.
  specialize (He (or_introl E1)). specialize (He' (or_intror E2)).
  rewrite Z.even_sub in He'. rewrite He in He'. discriminate.
Qed.

Lemma F2R_le_compat k k' E : k <= k' -> (F2R k E <= F2R k' E)%R.
Proof.
  intros H. unfold F2R. apply Rmult_le_compat_r; [apply Rlt_le, pow2_pos | apply IZR_le, H].
Qed.

Lemma scaled_eq q E : (q / pow2 E * pow2 E = q)%R.
Proof. pose proof (pow2_pos E). field. lra. Qed.

Lemma rounded_upper q E k :
  grid_exp q E -> nearest_even (q / pow2 E) k -> (F2R k E <= pow2 (E + prec))%R.
Proof.
  intros Hg Hn. pose proof (grid_exp_scaled q E Hg) as [Hlt _].
  pose proof (nearest_even_bounds _ _ 0 (2 ^ prec) Hn) as [_ Hhi].
  assert (k <= 2 ^ prec) as Hk by (apply Hhi; lra).
  rewrite Z.add_comm, pow2_add, (pow2_IZR prec) by (unfold prec; lia).
  apply F2R_le_compat, Hk.
Qed.

Lemma rounded_lower q E k :
  grid_exp q E -> nearest_even (q / pow2 E) k -> emin prec emax < E ->
  (pow2 (E + prec - 1) <= F2R k E)%R.
Proof.
  intros Hg Hn HE. pose proof (grid_exp_scaled q E Hg) as [_ Hge].
  pose proof (nearest_even_bounds _ _ (2 ^ (prec - 1)) 0 Hn) as [Hlo _].
  assert (2 ^ (prec - 1) <= k) as Hk by (apply Hlo, Hge, HE).
  replace (E + prec - 1) with ((prec - 1) + E) by lia.
  rewrite pow2_add, (pow2_IZR (prec - 1)) by (unfold prec; lia).
  apply F2R_le_compat, Hk.
Qed.

Lemma rounded_mono q q' r r' :
  (q <= q')%R -> rounded q r -> rounded q' r' -> (r <= r')%R.
Proof.
  intros Hq (E & k & Hg & Hn & ->) (E' & k' & Hg' & Hn' & ->).
  destruct (Z.lt_trichotomy E E') as [Hlt|[<-|Hgt]].
  - apply Rle_trans with (pow2 (E + prec)); [eapply rounded_upper; eauto|].
    apply Rle_trans with (pow2 (E' + prec - 1)); [apply pow2_le; lia|].
    eapply rounded_lower; eauto. pose proof (grid_exp_ge _ _ Hg). lia.
  - apply F2R_le_compat. apply (nearest_even_mono (q / pow2 E) (q' / pow2 E)); auto.
    apply Rmult_le_compat_r; [apply Rlt_le, Rinv_0_lt_compat, pow2_pos | exact Hq].
  - exfalso. pose proof (grid_exp_ge _ _ Hg') as HE'.
    destruct Hg as [[-> _]|[_ [Hlo _]]]; [lia|].
    assert (q' < pow2 (E' + prec))%R as Hup by (destruct Hg' as [[-> ?]|[_ [_ ?]]]; assumption).
    assert (pow2 (E' + prec) <= pow2 (E + prec - 1))%R by (apply pow2_le; lia).
    lra.
Qed.

Lemma rounded_unique q r r' : rounded q r -> rounded q r' -> r = r'.
Proof.
  intros H H'. apply Rle_antisym; eapply rounded_mono; eauto; lra.
Qed.

Lemma rounded_exact m e r :
  0 <= m < 2 ^ prec -> emin prec emax <= e -> rounded (F2R m e) r -> r = F2R m e.
Proof.
  intros [Hm0 Hm] He (E & k & Hg & Hn & ->).
  assert (E <= e) as HEe.
  { destruct Hg as [[-> _]|[_ [Hlo _]]]; [assumption|].
    assert (F2R m e < pow2 (prec + e))%R as Hup.
    { unfold F2R. rewrite pow2_add, (pow2_IZR prec) by (unfold prec; lia).
      apply Rmult_lt_compat_r; [apply pow2_pos | apply IZR_lt, Hm]. }
    assert (E + prec - 1 < prec + e); [|lia]. apply pow2_lt_inv. lra. }
  assert (F2R m e / pow2 E = IZR (m * 2 ^ (e - E)))%R as Hint.
  { unfold F2R. rewrite mult_IZR, <- pow2_IZR, pow2_sub by lia.
    pose proof (pow2_pos E). field. lra. }
  rewrite Hint in Hn.
  pose proof (nearest_even_bounds _ _ (m * 2 ^ (e - E)) (m * 2 ^ (e - E)) Hn) as [Hlo Hhi].
  assert (k = m * 2 ^ (e - E)) as -> by (specialize (Hlo (Rle_refl _)); specialize (Hhi (Rle_refl _)); lia).
  unfold F2R at 1. rewrite <- Hint. apply scaled_eq.
Qed.

Lemma rounded_nonneg q r : (0 <= q)%R -> rounded q r -> (0 <= r)%R.
Proof.
  intros Hq (E & k & Hg & Hn & ->).
  pose proof (pow2_pos E) as HE.
  assert (0 <= q / pow2 E)%R as Hy.
  { apply Rmult_le_pos; [exact Hq | apply Rlt_le, Rinv_0_lt_compat, HE]. }
  pose proof (nearest_even_bounds _ _ 0 0 Hn) as [Hlo _].
  specialize (Hlo Hy). unfold F2R. apply Rmult_le_pos; [apply IZR_le, Hlo | lra].
Qed.

Lemma rounded_0 r : rounded 0 r -> r = 0%R.
Proof.
  intros H. replace 0%R with (F2R 0 0) in H by (unfold F2R; lra).
  apply rounded_exact in H; [| unfold prec; lia | rewrite emin_eq; lia].
  rewrite H. unfold F2R. lra.
Qed.

Lemma rnd_mono x x' r r' : (x <= x')%R -> rnd x r -> rnd x' r' -> (r <= r')%R.
Proof.
  intros Hx [Hp Hn] [Hp' Hn'].
  destruct (Rle_dec 0 x) as [H0|H0].
  - apply (rounded_mono x x'); auto. apply Hp'. lra.
  - assert (x <= 0)%R as Hx0 by lra. specialize (Hn Hx0).
    destruct (Rle_dec x' 0) as [H1|H1].
    + specialize (Hn' H1). assert (- r' <= - r)%R; [|lra].
      apply (rounded_mono (- x') (- x)); auto. lra.
    + assert (0 <= x')%R as Hx1 by lra. specialize (Hp' Hx1).
      apply rounded_nonneg in Hn; [|lra]. apply rounded_nonneg in Hp'; [|lra]. lra.
Qed.

Lemma rnd_exact m e r :
  Z.abs m < 2 ^ prec -> emin prec emax <= e -> rnd (F2R m e) r -> r = F2R m e.
Proof.
  intros Hm He [Hp Hn]. destruct (Z_le_gt_dec 0 m) as [H0|H0].
  - apply rounded_exact; [lia | assumption |]. apply Hp.
    unfold F2R. apply Rmult_le_pos; [apply IZR_le, H0 | apply Rlt_le, pow2_pos].
  - assert (F2R m e <= 0)%R as Hle.
    { unfold F2R. assert (IZR m <= 0)%R by (apply IZR_le; lia). pose proof (pow2_pos e). nra. }
    specialize (Hn Hle). assert (- F2R m e = F2R (- m) e)%R as Heq.
    { unfold F2R. rewrite opp_IZR. lra. }
    rewrite Heq in Hn. apply rounded_exact in Hn; [|lia|assumption]. lra.
Qed.

Lemma rnd_unique x r r' : rnd x r -> rnd x r' -> r = r'.
Proof. intros H H'. apply Rle_antisym; eapply rnd_mono; eauto; lra. Qed.

Lemma rnd_IZR n r : Z.abs n < 2 ^ prec -> rnd (IZR n) r -> r = IZR n.
Proof.
  intros Hn H. replace (IZR n) with (F2R n 0) in * by (unfold F2R; rewrite pow2_0; lra).
  apply rnd_exact in H; [exact H | exact Hn | rewrite emin_eq; lia].
Qed.

Lemma F2R_0 e : F2R 0 e = 0%R.
Proof. unfold F2R. lra. Qed.

Lemma F2R_opp m e : F2R (- m) e = (- F2R m e)%R.
Proof. unfold F2R. rewrite opp_IZR. lra. Qed.

Lemma F2R_pos m e : 0 < m -> (0 < F2R m e)%R.
Proof.
  intros H. unfold F2R. apply Rmult_lt_0_compat; [apply IZR_lt, H | apply pow2_pos].
Qed.

Lemma F2R_mul_pow m e k : 0 <= k -> F2R (m * 2 ^ k) e = F2R m (e + k).
Proof.
  intros Hk. unfold F2R. rewrite mult_IZR, <- pow2_IZR, pow2_add by lia. lra.
Qed.

Lemma rounded_0_0 : rounded 0 0.
Proof.
  exists (emin prec emax), 0. split; [|split].
  - left. split; [reflexivity | apply pow2_pos].
  - unfold Rdiv. rewrite Rmult_0_l. split; [lra|]. intros [?|?]; lra.
  - rewrite F2R_0. reflexivity.
Qed.

Lemma rnd_0_0 : rnd 0 0.
Proof. split; intros _; [|rewrite Ropp_0]; apply rounded_0_0. Qed.

Lemma fl_of_ok (s : bool) q f :
  (0 <= q)%R -> fl_of s q f -> (forall r, rounded q r -> (r < pow2 emax)%R) ->
  fl_ok (if s then - q else q)%R f.
Proof.
  intros Hq (r & Hr & Hres) Hb. specialize (Hb r Hr).
  pose proof (rounded_nonneg q r Hq Hr) as Hr0.
  assert (q = 0 -> r = 0)%R as Hz by (intros ->; apply rounded_0, Hr).
  destruct Hres as [Hr1 | p E Hr1 Hbd | Hinf]; [| |lra].
  - subst r. repeat split; try reflexivity; simpl SF2R; intros Hs.
    + destruct s; [|exact Hr].
      assert (q = 0)%R as -> by lra. rewrite Ropp_0. apply rounded_0_0.
    + rewrite Ropp_0. destruct s; [rewrite Ropp_involutive; exact Hr|].
      assert (q = 0)%R as -> by lra. rewrite Ropp_0. apply rounded_0_0.
  - repeat split; try reflexivity; try exact Hbd; simpl SF2R; intros Hs.
    + destruct s; simpl cond_Zopp.
      * assert (q = 0)%R as Hq0 by lra. specialize (Hz Hq0).
        pose proof (F2R_pos (Zpos p) E ltac:(lia)). lra.
      * rewrite <- Hr1. exact Hr.
    + destruct s; simpl cond_Zopp.
      * rewrite Ropp_involutive. change (Zneg p) with (- Zpos p). rewrite F2R_opp, Ropp_involutive.
        rewrite <- Hr1. exact Hr.
      * assert (q = 0)%R as Hq0 by lra. specialize (Hz Hq0).
        pose proof (F2R_pos (Zpos p) E ltac:(lia)). lra.
Qed.

Lemma Zdigits2_mul_pow m k :
  0 < m -> 0 <= k -> Zdigits2 (m * 2 ^ k) = Zdigits2 m + k.
Proof.
  intros Hm Hk. pose proof (Zdigits2_bounds m Hm) as [H1 H2].
  assert (0 < Zdigits2 m) by (destruct m; simpl; lia).
  apply Zdigits2_unique; [lia|].
  replace (Zdigits2 m + k - 1) with (Zdigits2 m - 1 + k) by lia.
  rewrite !Z.pow_add_r by lia.
  assert (0 < 2 ^ k) by (apply Z.pow_pos_nonneg; lia). nia.
Qed.

Lemma Pos_iter_xO m d : Zpos (Pos.iter xO m d) = Zpos m * 2 ^ Zpos d.
Proof.
  rewrite <- Z.shiftl_mul_pow2 by lia. unfold Z.shiftl.
  induction d as [|d IH] using Pos.peano_ind.
  - reflexivity.
  - rewrite !Pos.iter_succ, <- IH. reflexivity.
Qed.

Lemma shl_align_spec m e e' :
  let '(m', e'') := shl_align m e e' in
  F2R (Zpos m') e'' = F2R (Zpos m) e /\ e'' = Z.min e e' /\
  Zdigits2 (Zpos m') + e'' = Zdigits2 (Zpos m) + e.
Proof.
  unfold shl_align. destruct (e' - e) as [|d|d] eqn:Hd.
  - repeat split; lia.
  - repeat split; lia.
  - rewrite Pos_iter_xO. assert (e = e' + Zpos d) as -> by lia. repeat split.
    + apply F2R_mul_pow. lia.
    + lia.
    + rewrite Zdigits2_mul_pow by lia. lia.
Qed.

Lemma binary_round_spec s m e :
  fl_of s (F2R (Zpos m) e) (binary_round prec emax s m e).
Proof.
  unfold binary_round.
  pose proof (shl_align_spec m e (fexp prec emax (Zpos (digits2_pos m) + e))) as H.
  destruct (shl_align m e _) as [m' e'']. destruct H as (Hv & He & Hd).
  change (Zpos (digits2_pos m)) with (Zdigits2 (Zpos m)) in He.
  rewrite <- Hv. apply bra_spec; [lia | | ].
  - simpl. unfold F2R. pose proof (pow2_pos e''). field. lra.
  - rewrite Hd, He. lia.
Qed.

Lemma rounded_ex m e : 0 <= m -> exists r, rounded (F2R m e) r.
Proof.
  intros Hm. destruct m as [|p|p]; [| |lia].
  - exists 0%R. rewrite F2R_0. apply rounded_0_0.
  - destruct (binary_round_spec false p e) as (r & Hr & _). exists r. exact Hr.
Qed.

Lemma rounded_le_repr q r m e :
  rounded q r -> (q <= F2R m e)%R -> 0 <= m < 2 ^ prec -> emin prec emax <= e ->
  (r <= F2R m e)%R.
Proof.
  intros Hr Hq Hm He. destruct (rounded_ex m e (proj1 Hm)) as [r' Hr'].
  rewrite <- (rounded_exact m e r' Hm He Hr'). eapply rounded_mono; eauto.
Qed.

Lemma rounded_ge_repr q r m e :
  rounded q r -> (F2R m e <= q)%R -> 0 <= m < 2 ^ prec -> emin prec emax <= e ->
  (F2R m e <= r)%R.
Proof.
  intros Hr Hq Hm He. destruct (rounded_ex m e (proj1 Hm)) as [r' Hr'].
  rewrite <- (rounded_exact m e r' Hm He Hr'). eapply rounded_mono; eauto.
Qed.

Lemma rnd_ex m e : exists r, rnd (F2R m e) r.
Proof.
  destruct (Z.lt_trichotomy m 0) as [Hm|[->|Hm]].
  - destruct (rounded_ex (- m) e ltac:(lia)) as [r Hr]. exists (- r)%R. split; intros Hs.
    + pose proof (F2R_pos (- m) e ltac:(lia)) as Hp. rewrite F2R_opp in Hp. lra.
    + rewrite Ropp_involutive, <- F2R_opp. exact Hr.
  - exists 0%R. rewrite F2R_0. apply rnd_0_0.
  - destruct (rounded_ex m e ltac:(lia)) as [r Hr]. exists r. split; intros Hs.
    + exact Hr.
    + pose proof (F2R_pos m e Hm). lra.
Qed.

Lemma rnd_le_repr x r m e :
  rnd x r -> (x <= F2R m e)%R -> Z.abs m < 2 ^ prec -> emin prec emax <= e ->
  (r <= F2R m e)%R.
Proof.
  intros Hr Hx Hm He. destruct (rnd_ex m e) as [r' Hr'].
  rewrite <- (rnd_exact m e r' Hm He Hr'). eapply rnd_mono; eauto.
Qed.

Lemma rnd_ge_repr x r m e :
  rnd x r -> (F2R m e <= x)%R -> Z.abs m < 2 ^ prec -> emin prec emax <= e ->
  (F2R m e <= r)%R.
Proof.
  intros Hr Hx Hm He. destruct (rnd_ex m e) as [r' Hr'].
  rewrite <- (rnd_exact m e r' Hm He Hr'). eapply rnd_mono; eauto.
Qed.

Lemma IZR_F2R n : IZR n = F2R n 0.
Proof. unfold F2R. rewrite pow2_0. lra. Qed.

Lemma rnd_le_IZR x r n : rnd x r -> (x <= IZR n)%R -> Z.abs n < 2 ^ prec -> (r <= IZR n)%R.
Proof.
  rewrite IZR_F2R. intros. eapply rnd_le_repr; eauto. rewrite emin_eq. lia.
Qed.

Lemma rnd_ge_IZR x r n : rnd x r -> (IZR n <= x)%R -> Z.abs n < 2 ^ prec -> (IZR n <= r)%R.
Proof.
  rewrite IZR_F2R. intros. eapply rnd_ge_repr; eauto. rewrite emin_eq. lia.
Qed.

Lemma rounded_lt_emax q r : (q <= pow2 (emax - 1))%R -> rounded q r -> (r < pow2 emax)%R.
Proof.
  intros Hq Hr. apply Rle_lt_trans with (pow2 (emax - 1)); [|apply pow2_lt; lia].
  replace (pow2 (emax - 1)) with (F2R 1 (emax - 1)) in * by (unfold F2R; lra).
  eapply rounded_le_repr; eauto; [unfold prec; lia | rewrite emin_eq; unfold emax; lia].
Qed.

Lemma binary_normalize_ok n e :
  (Rabs (F2R n e) <= pow2 (emax - 1))%R ->
  fl_ok (F2R n e) (binary_normalize prec emax n e false).
Proof.
  intros Hb. destruct n as [|p|p]; simpl binary_normalize.
  - rewrite F2R_0. repeat split; try reflexivity; simpl; intros _; [|rewrite Ropp_0]; apply rounded_0_0.
  - pose proof (F2R_pos (Zpos p) e ltac:(lia)) as Hp.
    rewrite Rabs_pos_eq in Hb by lra.
    apply (fl_of_ok false (F2R (Zpos p) e)); [lra | apply binary_round_spec |].
    intros r. apply rounded_lt_emax, Hb.
  - pose proof (F2R_pos (Zpos p) e ltac:(lia)) as Hp.
    change (Zneg p) with (- Zpos p) in *. rewrite F2R_opp in *. rewrite Rabs_Ropp, Rabs_pos_eq in Hb by lra.
    apply (fl_of_ok true (F2R (Zpos p) e)); [lra | apply binary_round_spec |].
    intros r. apply rounded_lt_emax, Hb.
Qed.

Lemma bounded_inv m e :
  bounded prec emax m e = true ->
  fexp prec emax (Zdigits2 (Zpos m) + e) = e /\ e <= emax - prec.
Proof.
  unfold bounded, canonical_mantissa. intros H. apply andb_true_iff in H as [H1 H2].
  apply Z.eqb_eq in H1. apply Z.leb_le in H2. split; assumption.
Qed.

Lemma bounded_repr m e :
  bounded prec emax m e = true -> Zpos m < 2 ^ prec /\ emin prec emax <= e.
Proof.
  intros H. apply bounded_inv in H as [H _]. rewrite fexp_eq in H. rewrite emin_eq.
  pose proof (Zdigits2_bounds (Zpos m) ltac:(lia)) as [H1 H2].
  split; [|lia]. apply Z.lt_le_trans with (2 ^ Zdigits2 (Zpos m)); [exact H2|].
  apply Z.pow_le_mono_r; unfold prec; lia.
Qed.

Lemma valid_rnd f :
  is_finite f = true -> valid_binary prec emax f = true -> rnd (SF2R f) (SF2R f).
Proof.
  intros Hf Hv. destruct f as [s|s| |s m e]; try discriminate; simpl SF2R.
  - apply rnd_0_0.
  - simpl in Hv. apply bounded_repr in Hv as [Hm He].
    destruct (rnd_ex (cond_Zopp s (Zpos m)) e) as [r Hr].
    assert (r = F2R (cond_Zopp s (Zpos m)) e) as Heq.
    { apply rnd_exact; [destruct s; simpl; lia | exact He | exact Hr]. }
    rewrite Heq in Hr. exact Hr.
Qed.

Lemma valid_fl_ok f :
  is_finite f = true -> valid_binary prec emax f = true -> fl_ok (SF2R f) f.
Proof. intros Hf Hv. repeat split; auto; apply valid_rnd; auto. Qed.

Lemma Zdigits2_mul_ge a b :
  0 < a -> 0 < b -> Zdigits2 a + Zdigits2 b - 1 <= Zdigits2 (a * b).
Proof.
  intros Ha Hb.
  pose proof (Zdigits2_bounds a Ha) as [A1 A2].
  pose proof (Zdigits2_bounds b Hb) as [B1 B2].
  pose proof (Zdigits2_bounds (a * b) ltac:(nia)) as [C1 C2].
  assert (0 < Zdigits2 a) by (destruct a; simpl; lia).
  assert (0 < Zdigits2 b) by (destruct b; simpl; lia).
  assert (Zdigits2 a - 1 + (Zdigits2 b - 1) < Zdigits2 (a * b)); [|lia].
  apply (Z.pow_lt_mono_r_iff 2); [lia | apply Zdigits2_nonneg |].
  rewrite Z.pow_add_r by lia.
  assert (0 < 2 ^ (Zdigits2 a - 1)) by (apply Z.pow_pos_nonneg; lia).
  assert (0 < 2 ^ (Zdigits2 b - 1)) by (apply Z.pow_pos_nonneg; lia).
  nia.
Qed.

Lemma mul_exp_ok mx ex my ey :
  bounded prec emax mx ex = true -> bounded prec emax my ey = true ->
  ex + ey <= fexp prec emax (Zdigits2 (Zpos (mx * my)) + (ex + ey)).
Proof.
  intros Hx Hy. apply bounded_inv in Hx as [Hx _]. apply bounded_inv in Hy as [Hy _].
  rewrite fexp_eq in *.
  pose proof (Zdigits2_mul_ge (Zpos mx) (Zpos my) ltac:(lia) ltac:(lia)) as Hd.
  rewrite <- Pos2Z.inj_mul in Hd.
  assert (0 < Zdigits2 (Zpos mx)) by (simpl; lia).
  assert (0 < Zdigits2 (Zpos my)) by (simpl; lia).
  lia.
Qed.

Lemma F2R_mul m1 e1 m2 e2 : (F2R m1 e1 * F2R m2 e2 = F2R (m1 * m2) (e1 + e2))%R.
Proof. unfold F2R. rewrite mult_IZR, pow2_add. lra. Qed.

Lemma SFmul_ok x y :
  is_finite x = true -> valid_binary prec emax x = true ->
  is_finite y = true -> valid_binary prec emax y = true ->
  (Rabs (SF2R x * SF2R y) <= pow2 (emax - 1))%R ->
  fl_ok (SF2R x * SF2R y) (SFmul prec emax x y).
Proof.
  intros Hfx Hvx Hfy Hvy Hb.
  destruct x as [sx|sx| |sx mx ex]; try discriminate;
  destruct y as [sy|sy| |sy my ey]; try discriminate; simpl SF2R in *;
    try (rewrite ?Rmult_0_l, ?Rmult_0_r; repeat split; try reflexivity; apply rnd_0_0).
  simpl in Hvx, Hvy. unfold SFmul.
  assert (F2R (cond_Zopp sx (Zpos mx)) ex * F2R (cond_Zopp sy (Zpos my)) ey =
          if xorb sx sy then - F2R (Zpos (mx * my)) (ex + ey) else F2R (Zpos (mx * my)) (ex + ey))%R as Hval.
  { rewrite F2R_mul. destruct sx, sy; simpl cond_Zopp; simpl xorb;
      rewrite ?Pos2Z.inj_mul; change (Zneg mx) with (- Zpos mx); change (Zneg my) with (- Zpos my);
      rewrite <- ?F2R_opp; f_equal; lia. }
  rewrite Hval in *.
  pose proof (F2R_pos (Zpos (mx * my)) (ex + ey) ltac:(lia)) as Hpos.
  apply fl_of_ok; [lra | |].
  - apply bra_spec; [lia | | apply mul_exp_ok; assumption].
    simpl. unfold F2R. pose proof (pow2_pos (ex + ey)). field. lra.
  - intros r. apply rounded_lt_emax.
    destruct (xorb sx sy); [rewrite Rabs_Ropp in Hb|]; rewrite Rabs_pos_eq in Hb; lra.
Qed.

Lemma F2R_align mx ex ez :
  ez <= ex -> F2R (Zpos (fst (shl_align mx ex ez))) ez = F2R (Zpos mx) ex.
Proof.
  intros H. pose proof (shl_align_spec mx ex ez) as Hs.
  destruct (shl_align mx ex ez) as [m' e'']. destruct Hs as (Hv & He & _).
  simpl fst. rewrite Z.min_r in He by lia. subst e''. exact Hv.
Qed.

Lemma F2R_cond_Zopp s m e : F2R (cond_Zopp s m) e = (if s then - F2R m e else F2R m e)%R.
Proof. destruct s; simpl; [apply F2R_opp | reflexivity]. Qed.

Lemma F2R_add m1 m2 e : (F2R m1 e + F2R m2 e = F2R (m1 + m2) e)%R.
Proof. unfold F2R. rewrite plus_IZR. lra. Qed.

Lemma F2R_sub m1 m2 e : (F2R m1 e - F2R m2 e = F2R (m1 - m2) e)%R.
Proof. unfold F2R. rewrite minus_IZR. lra. Qed.

Lemma SFadd_ok x y :
  is_finite x = true -> valid_binary prec emax x = true ->
  is_finite y = true -> valid_binary prec emax y = true ->
  (Rabs (SF2R x + SF2R y) <= pow2 (emax - 1))%R ->
  fl_ok (SF2R x + SF2R y) (SFadd prec emax x y).
Proof.
  intros Hfx Hvx Hfy Hvy Hb.
  destruct x as [sx|sx| |sx mx ex]; try discriminate;
  destruct y as [sy|sy| |sy my ey]; try discriminate.
  - simpl SF2R. rewrite Rplus_0_l. destruct sx, sy; simpl; repeat split; try reflexivity; apply rnd_0_0.
  - change (SF2R (S754_zero sx)) with 0%R. rewrite Rplus_0_l. simpl SFadd. apply valid_fl_ok; assumption.
  - change (SF2R (S754_zero sy)) with 0%R. rewrite Rplus_0_r. simpl SFadd. apply valid_fl_ok; assumption.
  - unfold SFadd. simpl SF2R in *.
    set (ez := Z.min ex ey).
    assert (F2R (cond_Zopp sx (Zpos mx)) ex + F2R (cond_Zopp sy (Zpos my)) ey =
            F2R (cond_Zopp sx (Zpos (fst (shl_align mx ex ez))) +
                 cond_Zopp sy (Zpos (fst (shl_align my ey ez)))) ez)%R as Hval.
    { rewrite <- F2R_add, !F2R_cond_Zopp, !F2R_align by (unfold ez; lia). reflexivity. }
    rewrite Hval in *. apply binary_normalize_ok, Hb.
Qed.

Lemma SFsub_ok x y :
  is_finite x = true -> valid_binary prec emax x = true ->
  is_finite y = true -> valid_binary prec emax y = true ->
  (Rabs (SF2R x - SF2R y) <= pow2 (emax - 1))%R ->
  fl_ok (SF2R x - SF2R y) (SFsub prec emax x y).
Proof.
  intros Hfx Hvx Hfy Hvy Hb.
  destruct x as [sx|sx| |sx mx ex]; try discriminate;
  destruct y as [sy|sy| |sy my ey]; try discriminate.
  - simpl SF2R. rewrite Rminus_0_r. destruct sx, sy; simpl; repeat split; try reflexivity; apply rnd_0_0.
  - change (SF2R (S754_zero sx)) with 0%R. rewrite Rminus_0_l. simpl SFsub.
    replace (- SF2R (S754_finite sy my ey))%R with (SF2R (S754_finite (negb sy) my ey)).
    + apply valid_fl_ok; assumption.
    + simpl. rewrite !F2R_cond_Zopp. destruct sy; simpl; lra.
  - change (SF2R (S754_zero sy)) with 0%R. rewrite Rminus_0_r. simpl SFsub. apply valid_fl_ok; assumption.
  - unfold SFsub. simpl SF2R in *.
    set (ez := Z.min ex ey).
    assert (F2R (cond_Zopp sx (Zpos mx)) ex - F2R (cond_Zopp sy (Zpos my)) ey =
            F2R (cond_Zopp sx (Zpos (fst (shl_align mx ex ez))) -
                 cond_Zopp sy (Zpos (fst (shl_align my ey ez)))) ez)%R as Hval.
    { rewrite <- F2R_sub, !F2R_cond_Zopp, !F2R_align by (unfold ez; lia). reflexivity. }
    rewrite Hval in *. apply binary_normalize_ok, Hb.
Qed.

Lemma new_location_ok n q r :
  0 < n -> 0 <= r < n ->
  inbetween q (IZR q + IZR r / IZR n) (new_location n r).
Proof.
  intros Hn Hr.
  assert (0 < IZR n)%R as Hn' by (apply IZR_lt, Hn).
  assert (0 <= IZR r < IZR n)%R as Hr' by (split; [apply IZR_le | apply IZR_lt]; lia).
  assert (forall a b : Z, (IZR a < IZR b)%R -> (IZR a / IZR n < IZR b / IZR n)%R) as Hdiv.
  { intros a b Hab. apply Rmult_lt_compat_r; [apply Rinv_0_lt_compat, Hn' | exact Hab]. }
  assert (IZR n / IZR n = 1)%R as Hnn by (field; lra).
  assert (0 < r -> (0 < IZR r / IZR n < 1)%R) as Hfrac.
  { intros Hr0. rewrite <- Hnn. split.
    - apply Rmult_lt_0_compat; [apply IZR_lt, Hr0 | apply Rinv_0_lt_compat, Hn'].
    - apply Hdiv, IZR_lt. lia. }
  assert (forall c, 0 < r -> (2 * r ?= n) = c ->
            match c with
            | Lt => (IZR r / IZR n < /2)%R
            | Eq => (IZR r / IZR n = /2)%R
            | Gt => (/2 < IZR r / IZR n)%R
            end) as Hcmp.
  { intros c Hr0 Hc. destruct c.
    - apply Z.compare_eq in Hc. assert (IZR n = 2 * IZR r)%R as -> by (rewrite <- Hc, mult_IZR; lra).
      field. apply IZR_lt in Hr0. lra.
    - rewrite Z.compare_lt_iff in Hc. apply IZR_lt in Hc. rewrite mult_IZR in Hc.
      apply Rmult_lt_reg_r with (IZR n); [exact Hn'|].
      unfold Rdiv. rewrite Rmult_assoc, Rinv_l by lra. lra.
    - rewrite Z.compare_gt_iff in Hc. apply IZR_lt in Hc. rewrite mult_IZR in Hc.
      apply Rmult_lt_reg_r with (IZR n); [exact Hn'|].
      unfold Rdiv. rewrite Rmult_assoc, Rinv_l by lra. lra. }
  unfold new_location.
  destruct (Z.even n) eqn:Hev; [unfold new_location_even | unfold new_location_odd];
    (destruct (r =? 0) eqn:Hr0;
     [ apply Z.eqb_eq in Hr0; subst r; unfold Rdiv, inbetween; rewrite Rmult_0_l; lra
     | apply Z.eqb_neq in Hr0 ]).
  - assert (0 < r) as Hrpos by lia. specialize (Hfrac Hrpos).
    unfold inbetween. split; [lra|]. specialize (Hcmp (2 * r ?= n) Hrpos eq_refl).
    destruct (2 * r ?= n); lra.
  - assert (0 < r) as Hrpos by lia. specialize (Hfrac Hrpos).
    assert (2 * r <> n) as Hne.
    { intros <-. rewrite Z.even_mul in Hev. discriminate. }
    unfold inbetween. split; [lra|].
    destruct (2 * r + 1 ?= n) eqn:Hc.
    + apply Z.compare_eq in Hc. specialize (Hcmp Lt Hrpos). simpl in Hcmp.
      assert (IZR r / IZR n < / 2)%R; [|lra]. apply Hcmp. rewrite Z.compare_lt_iff. lia.
    + rewrite Z.compare_lt_iff in Hc. specialize (Hcmp Lt Hrpos). simpl in Hcmp.
      assert (IZR r / IZR n < / 2)%R; [|lra]. apply Hcmp. rewrite Z.compare_lt_iff. lia.
    + rewrite Z.compare_gt_iff in Hc. specialize (Hcmp Gt Hrpos). simpl in Hcmp.
      assert (/ 2 < IZR r / IZR n)%R; [|lra]. apply Hcmp. rewrite Z.compare_gt_iff. lia.
Qed.

Lemma div_core_spec mx ex my ey :
  let '(q, e', l) := SFdiv_core_binary prec emax (Zpos mx) ex (Zpos my) ey in
  0 <= q /\ inbetween q (F2R (Zpos mx) ex / F2R (Zpos my) ey / pow2 e') l /\
  e' <= fexp prec emax (Zdigits2 q + e').
Proof.
  unfold SFdiv_core_binary.
  set (d1 := Zdigits2 (Zpos mx)). set (d2 := Zdigits2 (Zpos my)).
  set (e' := Z.min (fexp prec emax (d1 + ex - (d2 + ey))) (ex - ey)).
  set (s := ex - ey - e').
  assert (0 <= s) as Hs by (unfold s, e'; lia).
  set (m' := match s with Zpos _ => Z.shiftl (Zpos mx) s | Z0 => Zpos mx | Zneg _ => 0 end).
  assert (m' = Zpos mx * 2 ^ s) as Hm'.
  { unfold m'. destruct s as [|p|p] eqn:Hsp; [simpl; lia | | lia].
    apply Z.shiftl_mul_pow2. lia. }
  pose proof (Z_div_mod m' (Zpos my) ltac:(lia)) as Hdm.
  destruct (Z.div_eucl m' (Zpos my)) as [q r]. destruct Hdm as [Hdm Hr].
  assert (0 < 2 ^ s) as Hps by (apply Z.pow_pos_nonneg; lia).
  assert (0 <= q) as Hq by nia.
  split; [exact Hq|]. split.
  - replace (F2R (Zpos mx) ex / F2R (Zpos my) ey / pow2 e')%R
      with (IZR q + IZR r / IZR (Zpos my))%R.
    + apply new_location_ok; lia.
    + assert (IZR (Zpos mx) * pow2 s = IZR (Zpos my) * IZR q + IZR r)%R as Hreal.
      { rewrite pow2_IZR, <- !mult_IZR, <- plus_IZR by lia. f_equal. lia. }
      assert (pow2 ex = pow2 s * pow2 ey * pow2 e')%R as Hex.
      { rewrite <- !pow2_add. f_equal. unfold s. lia. }
      unfold F2R. rewrite Hex.
      pose proof (pow2_pos ey). pose proof (pow2_pos e'). pose proof (pow2_pos s).
      assert (0 < IZR (Zpos my))%R by (apply IZR_lt; lia).
      apply Rmult_eq_reg_r with (IZR (Zpos my)); [|lra].
      replace ((IZR q + IZR r / IZR (Zpos my)) * IZR (Zpos my))%R
        with (IZR (Zpos my) * IZR q + IZR r)%R by (field; lra).
      rewrite <- Hreal. field. lra.
  - rewrite fexp_eq in *. destruct (Z_le_gt_dec e' (-1074)) as [|Hgt]; [lia|].
    assert (53 <= Zdigits2 q); [|lia].
    pose proof (Zdigits2_bounds (Zpos mx) ltac:(lia)) as [A1 A2].
    pose proof (Zdigits2_bounds (Zpos my) ltac:(lia)) as [B1 B2].
    fold d1 in A1, A2. fold d2 in B1, B2.
    assert (0 < d1) by (unfold d1; simpl; lia).
    assert (0 < d2) by (unfold d2; simpl; lia).
    assert (53 - d1 + d2 <= s) as Hs' by (unfold s, e' in *; rewrite fexp_eq in *; lia).
    assert (2 ^ 52 * Zpos my <= m') as Hlow.
    { rewrite Hm'. apply Z.le_trans with (2 ^ 52 * 2 ^ d2); [nia|].
      rewrite <- Z.pow_add_r by lia.
      apply Z.le_trans with (2 ^ (d1 - 1) * 2 ^ s); [|nia].
      rewrite <- Z.pow_add_r by lia. apply Z.pow_le_mono_r; lia. }
    assert (2 ^ 52 <= q) as Hq52 by nia.
    pose proof (Zdigits2_bounds q ltac:(lia)) as [_ C2].
    assert (52 < Zdigits2 q); [|lia].
    apply (Z.pow_lt_mono_r_iff 2); [lia | apply Zdigits2_nonneg | lia].
Qed.

Lemma SFdiv_finite_spec sx mx ex sy my ey :
  fl_of (xorb sx sy) (F2R (Zpos mx) ex / F2R (Zpos my) ey)
    (SFdiv prec emax (S754_finite sx mx ex) (S754_finite sy my ey)).
Proof.
  unfold SFdiv. pose proof (div_core_spec mx ex my ey) as H.
  destruct (SFdiv_core_binary prec emax (Zpos mx) ex (Zpos my) ey) as [[q e'] l].
  destruct H as (Hq & Hin & He). apply bra_spec; assumption.
Qed.

Lemma SFdiv_ok x sy my ey :
  is_finite x = true ->
  (Rabs (SF2R x / SF2R (S754_finite sy my ey)) <= pow2 (emax - 1))%R ->
  fl_ok (SF2R x / SF2R (S754_finite sy my ey)) (SFdiv prec emax x (S754_finite sy my ey)).
Proof.
  intros Hfx Hb. destruct x as [sx|sx| |sx mx ex]; try discriminate.
  - simpl SF2R at 1. unfold Rdiv. rewrite Rmult_0_l.
    simpl. repeat split; try reflexivity; apply rnd_0_0.
  - pose proof (F2R_pos (Zpos mx) ex ltac:(lia)) as Hx.
    pose proof (F2R_pos (Zpos my) ey ltac:(lia)) as Hy.
    assert (0 < F2R (Zpos mx) ex / F2R (Zpos my) ey)%R as Hpos.
    { apply Rmult_lt_0_compat; [exact Hx | apply Rinv_0_lt_compat, Hy]. }
    assert (SF2R (S754_finite sx mx ex) / SF2R (S754_finite sy my ey) =
            if xorb sx sy then - (F2R (Zpos mx) ex / F2R (Zpos my) ey)
            else F2R (Zpos mx) ex / F2R (Zpos my) ey)%R as Hval.
    { simpl SF2R. rewrite !F2R_cond_Zopp. destruct sx, sy; simpl xorb; cbv beta iota; field; lra. }
    rewrite Hval in *. apply fl_of_ok; [lra | apply SFdiv_finite_spec |].
    intros r. apply rounded_lt_emax.
    destruct (xorb sx sy); [rewrite Rabs_Ropp in Hb|]; rewrite Rabs_pos_eq in Hb; lra.
Qed.

Lemma shiftl_floor m e :
  0 < m -> (IZR (Z.shiftl m e) <= F2R m e < IZR (Z.shiftl m e) + 1)%R.
Proof.
  intros Hm. destruct (Z_le_gt_dec 0 e) as [He|He].
  - rewrite Z.shiftl_mul_pow2 by lia. unfold F2R. rewrite mult_IZR, <- pow2_IZR by lia. lra.
  - rewrite Z.shiftl_div_pow2 by lia.
    assert (0 < 2 ^ (- e)) as Hp by (apply Z.pow_pos_nonneg; lia).
    pose proof (Z_div_mod_eq_full m (2 ^ (- e))) as Hdm.
    pose proof (Z.mod_pos_bound m (2 ^ (- e)) Hp) as Hr.
    set (q := m / 2 ^ (- e)) in *. set (r := m mod 2 ^ (- e)) in *.
    assert (F2R m e * IZR (2 ^ (- e)) = IZR m)%R as Hval.
    { unfold F2R. rewrite <- pow2_IZR, Rmult_assoc, <- pow2_add by lia.
      replace (e + - e) with 0 by lia. rewrite pow2_0. lra. }
    assert (0 < IZR (2 ^ (- e)))%R as Hp' by (apply IZR_lt, Hp).
    assert (IZR m = IZR (2 ^ (- e)) * IZR q + IZR r)%R as Hm'.
    { rewrite <- mult_IZR, <- plus_IZR. f_equal. exact Hdm. }
    assert (0 <= IZR r < IZR (2 ^ (- e)))%R as Hr'.
    { split; [apply IZR_le | apply IZR_lt]; lia. }
    split; nra.
Qed.

Lemma trunc_float_spec f : is_finite f = true -> trunc_of (SF2R f) (trunc_float f).
Proof.
  intros Hf. destruct f as [s|s| |s m e]; try discriminate; simpl.
  - split; intros _; lra.
  - pose proof (shiftl_floor (Zpos m) e ltac:(lia)) as H.
    pose proof (F2R_pos (Zpos m) e ltac:(lia)) as Hp.
    rewrite F2R_cond_Zopp. destruct s; simpl cond_Zopp.
    + split; intros Hs; [lra|]. rewrite opp_IZR. lra.
    + split; intros Hs; lra.
Qed.

Lemma trunc_of_mono x x' n n' :
  (x <= x')%R -> trunc_of x n -> trunc_of x' n' -> n <= n'.
Proof.
  intros Hx [Hp Hn] [Hp' Hn'].
  assert (IZR n < IZR (n' + 1))%R as Hlt.
  { rewrite plus_IZR.
    destruct (Rle_dec 0 x) as [H0|H0].
    - specialize (Hp H0). specialize (Hp' ltac:(lra)). lra.
    - specialize (Hn ltac:(lra)). destruct (Rle_dec 0 x') as [H1|H1].
      + specialize (Hp' H1).
        assert (IZR n <= 0)%R.
        { assert (IZR (n - 1) < IZR 0)%R as Hz by (rewrite minus_IZR; lra).
          apply lt_IZR in Hz. apply IZR_le. lia. }
        assert (0 <= IZR n')%R.
        { assert (IZR 0 < IZR (n' + 1))%R as Hz by (rewrite plus_IZR; lra).
          apply lt_IZR in Hz. apply IZR_le. lia. }
        lra.
      + specialize (Hn' ltac:(lra)). lra. }
  apply lt_IZR in Hlt. lia.
Qed.

Lemma trunc_of_IZR x n (a : Z) :
  trunc_of x n -> ((IZR a <= x)%R -> 0 <= a -> a <= n) /\ ((x <= IZR a)%R -> a <= 0 -> n <= a).
Proof.
  intros [Hp Hn]. split; intros Hx Ha.
  - assert (0 <= x)%R as H0 by (apply IZR_le in Ha; lra). specialize (Hp H0).
    assert (IZR a < IZR (n + 1))%R as Hlt by (rewrite plus_IZR; lra).
    apply lt_IZR in Hlt. lia.
  - assert (x <= 0)%R as H0 by (apply IZR_le in Ha; lra). specialize (Hn H0).
    assert (IZR (n - 1) < IZR a)%R as Hlt by (rewrite minus_IZR; lra).
    apply lt_IZR in Hlt. lia.
Qed.

Lemma canonical_lt m1 e1 m2 e2 :
  bounded prec emax m1 e1 = true -> bounded prec emax m2 e2 = true -> e1 < e2 ->
  (F2R (Zpos m1) e1 < F2R (Zpos m2) e2)%R.
Proof.
  intros H1 H2 He.
  apply bounded_inv in H1 as [H1 _]. apply bounded_inv in H2 as [H2 _].
  rewrite fexp_eq in *.
  pose proof (Zdigits2_bounds (Zpos m1) ltac:(lia)) as [A1 A2].
  pose proof (Zdigits2_bounds (Zpos m2) ltac:(lia)) as [B1 B2].
  assert (Zdigits2 (Zpos m1) <= 53) as Hd1 by lia.
  assert (Zdigits2 (Zpos m2) = 53) as Hd2 by lia.
  rewrite Hd2 in B1. simpl in B1.
  assert (Zpos m1 < 2 ^ 53) as Hm1.
  { apply Z.lt_le_trans with (2 ^ Zdigits2 (Zpos m1)); [exact A2|].
    apply Z.pow_le_mono_r; lia. }
  apply Rlt_le_trans with (pow2 (53 + e1)).
  - unfold F2R. rewrite pow2_add, (pow2_IZR 53) by lia.
    apply Rmult_lt_compat_r; [apply pow2_pos | apply IZR_lt, Hm1].
  - apply Rle_trans with (pow2 (52 + e2)); [apply pow2_le; lia|].
    unfold F2R. rewrite pow2_add, (pow2_IZR 52) by lia.
    apply Rmult_le_compat_r; [apply Rlt_le, pow2_pos | apply IZR_le, B1].
Qed.

Lemma pos_cmp_ok m1 e1 m2 e2 :
  bounded prec emax m1 e1 = true -> bounded prec emax m2 e2 = true ->
  cmp_ok (match Z.compare e1 e2 with
          | Lt => Lt
          | Gt => Gt
          | Eq => Pos.compare_cont Eq m1 m2
          end) (F2R (Zpos m1) e1) (F2R (Zpos m2) e2).
Proof.
  intros H1 H2. destruct (Z.compare_spec e1 e2) as [->|He|He].
  - change (Pos.compare_cont Eq m1 m2) with (Pos.compare m1 m2).
    pose proof (pow2_pos e2) as Hp.
    destruct (Pos.compare_spec m1 m2) as [->|Hm|Hm]; unfold cmp_ok, F2R.
    + reflexivity.
    + apply Rmult_lt_compat_r; [exact Hp | apply IZR_lt; lia].
    + apply Rmult_lt_compat_r; [exact Hp | apply IZR_lt; lia].
  - apply canonical_lt; assumption.
  - apply canonical_lt; assumption.
Qed.

Lemma cmp_ok_opp c x y : cmp_ok c x y -> cmp_ok (CompOpp c) (- x) (- y).
Proof. destruct c; unfold cmp_ok; simpl; intros; lra. Qed.

Lemma SFcompare_spec x y :
  is_finite x = true -> valid_binary prec emax x = true ->
  is_finite y = true -> valid_binary prec emax y = true ->
  exists c, SFcompare x y = Some c /\ cmp_ok c (SF2R x) (SF2R y).
Proof.
  intros Hfx Hvx Hfy Hvy.
  destruct x as [sx|sx| |sx mx ex]; try discriminate;
  destruct y as [sy|sy| |sy my ey]; try discriminate; simpl in Hvx, Hvy.
  - exists Eq. split; reflexivity.
  - pose proof (F2R_pos (Zpos my) ey ltac:(lia)).
    exists (if sy then Gt else Lt). split; [reflexivity|].
    simpl SF2R. rewrite F2R_cond_Zopp. destruct sy; unfold cmp_ok; lra.
  - pose proof (F2R_pos (Zpos mx) ex ltac:(lia)).
    exists (if sx then Lt else Gt). split; [reflexivity|].
    simpl SF2R. rewrite F2R_cond_Zopp. destruct sx; unfold cmp_ok; lra.
  - pose proof (F2R_pos (Zpos mx) ex ltac:(lia)).
    pose proof (F2R_pos (Zpos my) ey ltac:(lia)).
    pose proof (pos_cmp_ok mx ex my ey Hvx Hvy) as Hc.
    simpl SF2R. rewrite !F2R_cond_Zopp. unfold SFcompare.
    destruct sx, sy.
    + eexists. split; [reflexivity|].
      apply cmp_ok_opp in Hc.
      destruct (ex ?= ey); simpl in Hc |- *; try exact Hc.
    + exists Lt. split; [reflexivity|]. unfold cmp_ok. lra.
    + exists Gt. split; [reflexivity|]. unfold cmp_ok. lra.
    + eexists. split; [reflexivity|]. exact Hc.
Qed.

Lemma SFltb_spec x y :
  is_finite x = true -> valid_binary prec emax x = true ->
  is_finite y = true -> valid_binary prec emax y = true ->
  (SFltb x y = true <-> (SF2R x < SF2R y)%R).
Proof.
  intros Hfx Hvx Hfy Hvy.
  destruct (SFcompare_spec x y Hfx Hvx Hfy Hvy) as (c & Hc & Hok).
  unfold SFltb. rewrite Hc. destruct c; unfold cmp_ok in Hok; split; intros H;
    try reflexivity; try discriminate; lra.
Qed.

Lemma SFleb_spec x y :
  is_finite x = true -> valid_binary prec emax x = true ->
  is_finite y = true -> valid_binary prec emax y = true ->
  (SFleb x y = true <-> (SF2R x <= SF2R y)%R).
Proof.
  intros Hfx Hvx Hfy Hvy.
  destruct (SFcompare_spec x y Hfx Hvx Hfy Hvy) as (c & Hc & Hok).
  unfold SFleb. rewrite Hc. destruct c; unfold cmp_ok in Hok; split; intros H;
    try reflexivity; try discriminate; lra.
Qed.

End FloatFacts.

(** * Facts about the formulas *)

Module FormulaFacts.

Import PyFloat PyStr Bot FloatSem FloatFacts Spec.

Lemma pow2_emax_IZR : pow2 (emax - 1) = IZR (2 ^ 1023).
Proof. apply pow2_IZR. unfold emax. lia. Qed.

Lemma Rabs_le_emax x (lo hi : Z) :
  (IZR lo <= x <= IZR hi)%R -> - 2 ^ 1023 <= lo -> hi <= 2 ^ 1023 ->
  (Rabs x <= pow2 (emax - 1))%R.
Proof.
  intros [H1 H2] Hlo Hhi. rewrite pow2_emax_IZR.
  apply IZR_le in Hlo, Hhi. rewrite opp_IZR in Hlo.
  apply Rabs_le. lra.
Qed.

Lemma fl_ok_finite x f : fl_ok x f -> is_finite f = true.
Proof. intros H. apply H. Qed.

Lemma fl_ok_valid x f : fl_ok x f -> valid_binary prec emax f = true.
Proof. intros H. apply H. Qed.

Lemma fl_ok_rnd x f : fl_ok x f -> rnd x (SF2R f).
Proof. intros H. apply H. Qed.

Lemma fl_ok_between x f (lo hi : Z) :
  fl_ok x f -> (IZR lo <= x <= IZR hi)%R ->
  Z.abs lo < 2 ^ prec -> Z.abs hi < 2 ^ prec ->
  (IZR lo <= SF2R f <= IZR hi)%R.
Proof.
  intros (_ & _ & Hr) [H1 H2] Hlo Hhi. split.
  - eapply rnd_ge_IZR; eauto.
  - eapply rnd_le_IZR; eauto.
Qed.

Lemma fl_ok_mono x x' f f' :
  fl_ok x f -> fl_ok x' f' -> (x <= x')%R -> (SF2R f <= SF2R f')%R.
Proof. intros (_ & _ & Hr) (_ & _ & Hr') Hx. eapply rnd_mono; eauto. Qed.

Lemma fl_ok_exact f' f :
  is_finite f' = true -> valid_binary prec emax f' = true ->
  fl_ok (SF2R f') f -> SF2R f = SF2R f'.
Proof.
  intros Hf Hv (_ & _ & Hr). eapply rnd_unique; [exact Hr | apply valid_rnd; assumption].
Qed.

Lemma fl_ok_IZR n f : Z.abs n < 2 ^ prec -> fl_ok (IZR n) f -> SF2R f = IZR n.
Proof. intros Hn (_ & _ & Hr). apply rnd_IZR; assumption. Qed.

Lemma fconst_ok n : Z.abs n < 2 ^ prec -> fl_ok (IZR n) (fconst n).
Proof.
  intros Hn. rewrite IZR_F2R. apply binary_normalize_ok. rewrite <- IZR_F2R.
  apply (Rabs_le_emax _ n n); [lra | |]; unfold prec in Hn; lia.
Qed.

Lemma fconst_value n : Z.abs n < 2 ^ prec -> SF2R (fconst n) = IZR n.
Proof. intros Hn. apply fl_ok_IZR; [exact Hn | apply fconst_ok, Hn]. Qed.

Lemma float_of_int_ok n : Z.abs n < 2 ^ prec -> float_of_int n = Ok (fconst n).
Proof.
  intros Hn. pose proof (fconst_ok n Hn) as (Hf & _). unfold float_of_int.
  fold (fconst n). destruct (fconst n); try discriminate; reflexivity.
Qed.

Lemma py_int_ok f : is_finite f = true -> py_int f = Ok (trunc_float f).
Proof. destruct f; try discriminate; reflexivity. Qed.

Lemma fexact_value n : SF2R (fexact n) = IZR n.
Proof.
  destruct n; unfold fexact, SF2R; simpl cond_Zopp; rewrite <- ?IZR_F2R; reflexivity.
Qed.

Lemma fexact_finite n : is_finite (fexact n) = true.
Proof. destruct n; reflexivity. Qed.

Lemma fdiv_exact_ok a b :
  b <> 0 -> (Rabs (IZR a / IZR b) <= pow2 (emax - 1))%R ->
  fl_ok (IZR a / IZR b) (SFdiv prec emax (fexact a) (fexact b)).
Proof.
  intros Hb Hbound. rewrite <- (fexact_value a), <- (fexact_value b) in *.
  destruct b as [|p|p]; [lia | |]; apply SFdiv_ok; auto using fexact_finite.
Qed.

Lemma valid_weight_inv w :
  valid_weight w = true ->
  is_finite w = true /\ valid_binary prec emax w = true /\ (30 <= SF2R w <= 300)%R.
Proof.
  unfold valid_weight, is_binary64. rewrite !andb_true_iff. intros [[[Hf Hv] H1] H2].
  pose proof (fconst_ok 30 ltac:(unfold prec; lia)) as (F30 & V30 & _).
  pose proof (fconst_ok 300 ltac:(unfold prec; lia)) as (F300 & V300 & _).
  apply SFleb_spec in H1; auto. apply SFleb_spec in H2; auto.
  rewrite fconst_value in H1, H2 by (unfold prec; lia). auto.
Qed.

Lemma fmul_step x y X Y (lo hi : Z) :
  fl_ok X x -> fl_ok Y y -> (IZR lo <= SF2R x * SF2R y <= IZR hi)%R ->
  Z.abs lo < 2 ^ prec -> Z.abs hi < 2 ^ prec ->
  fl_ok (SF2R x * SF2R y) (fmul x y) /\ (IZR lo <= SF2R (fmul x y) <= IZR hi)%R.
Proof.
  intros Hx Hy Hb Hlo Hhi.
  assert (fl_ok (SF2R x * SF2R y) (fmul x y)) as H.
  { apply SFmul_ok; try apply Hx; try apply Hy.
    apply (Rabs_le_emax _ lo hi Hb); unfold prec in *; lia. }
  split; [exact H | apply (fl_ok_between _ _ lo hi H Hb Hlo Hhi)].
Qed.

Lemma fadd_step x y X Y (lo hi : Z) :
  fl_ok X x -> fl_ok Y y -> (IZR lo <= SF2R x + SF2R y <= IZR hi)%R ->
  Z.abs lo < 2 ^ prec -> Z.abs hi < 2 ^ prec ->
  fl_ok (SF2R x + SF2R y) (fadd x y) /\ (IZR lo <= SF2R (fadd x y) <= IZR hi)%R.
Proof.
  intros Hx Hy Hb Hlo Hhi.
  assert (fl_ok (SF2R x + SF2R y) (fadd x y)) as H.
  { apply SFadd_ok; try apply Hx; try apply Hy.
    apply (Rabs_le_emax _ lo hi Hb); unfold prec in *; lia. }
  split; [exact H | apply (fl_ok_between _ _ lo hi H Hb Hlo Hhi)].
Qed.

Lemma fsub_step x y X Y (lo hi : Z) :
  fl_ok X x -> fl_ok Y y -> (IZR lo <= SF2R x - SF2R y <= IZR hi)%R ->
  Z.abs lo < 2 ^ prec -> Z.abs hi < 2 ^ prec ->
  fl_ok (SF2R x - SF2R y) (fsub x y) /\ (IZR lo <= SF2R (fsub x y) <= IZR hi)%R.
Proof.
  intros Hx Hy Hb Hlo Hhi.
  assert (fl_ok (SF2R x - SF2R y) (fsub x y)) as H.
  { apply SFsub_ok; try apply Hx; try apply Hy.
    apply (Rabs_le_emax _ lo hi Hb); unfold prec in *; lia. }
  split; [exact H | apply (fl_ok_between _ _ lo hi H Hb Hlo Hhi)].
Qed.

Lemma fdec_ok m k :
  0 <= k -> Z.abs m < 2 ^ prec ->
  fl_ok (IZR m / IZR (10 ^ k)) (fdec m k).
Proof.
  intros Hk Hm. assert (0 < 10 ^ k) as Hp by (apply Z.pow_pos_nonneg; lia).
  apply fdiv_exact_ok; [lia|].
  assert (1 <= IZR (10 ^ k))%R as Hd by (apply IZR_le; lia).
  assert (Rabs (IZR m / IZR (10 ^ k)) <= Rabs (IZR m))%R as Hle.
  { unfold Rdiv. rewrite Rabs_mult, (Rabs_pos_eq (/ _)).
    - rewrite <- (Rmult_1_r (Rabs (IZR m))) at 2.
      apply Rmult_le_compat_l; [apply Rabs_pos|].
      rewrite <- Rinv_1. apply Rinv_le_contravar; lra.
    - apply Rlt_le, Rinv_0_lt_compat. lra. }
  eapply Rle_trans; [exact Hle|].
  apply (Rabs_le_emax _ m m); [lra | |]; unfold prec in Hm; lia.
Qed.

Lemma fdec_between m k (lo hi : Z) :
  0 <= k -> Z.abs m < 2 ^ prec ->
  lo * 10 ^ k <= m <= hi * 10 ^ k ->
  Z.abs lo < 2 ^ prec -> Z.abs hi < 2 ^ prec ->
  (IZR lo <= SF2R (fdec m k) <= IZR hi)%R.
Proof.
  intros Hk Hm [H1 H2] Hlo Hhi.
  assert (0 < 10 ^ k) as Hp by (apply Z.pow_pos_nonneg; lia).
  assert (0 < IZR (10 ^ k))%R as Hd by (apply IZR_lt; lia).
  apply (fl_ok_between _ _ lo hi (fdec_ok m k Hk Hm)); auto.
  apply IZR_le in H1, H2. rewrite mult_IZR in H1, H2. split.
  - apply Rmult_le_reg_r with (IZR (10 ^ k)); [exact Hd|].
    unfold Rdiv. rewrite Rmult_assoc, Rinv_l by lra. lra.
  - apply Rmult_le_reg_r with (IZR (10 ^ k)); [exact Hd|].
    unfold Rdiv. rewrite Rmult_assoc, Rinv_l by lra. lra.
Qed.

Lemma Rmult_between x y a b c d :
  (0 <= a <= x)%R -> (x <= b)%R -> (0 <= c <= y)%R -> (y <= d)%R ->
  (a * c <= x * y <= b * d)%R.
Proof.
  intros [Ha Hax] Hxb [Hc Hcy] Hyd. split.
  - apply Rmult_le_compat; lra.
  - apply Rmult_le_compat; lra.
Qed.

Lemma floor_trunc f :
  is_finite f = true -> (0 <= SF2R f)%R -> floor_float f = trunc_float f.
Proof.
  intros Hf Hp. destruct f as [s|s| |s m e]; try discriminate; [reflexivity|].
  destruct s; [|reflexivity]. exfalso. simpl in Hp.
  pose proof (F2R_pos (Zpos m) e ltac:(lia)) as H.
  change (Zneg m) with (- Zpos m) in Hp. rewrite F2R_opp in Hp. lra.
Qed.

(** *** Hydration *)

Lemma heat_code temp :
  match temp with
  | Some t => if negb (is_zero t) && fgt t (fconst 25) then 500 else 0
  | None => 0
  end = heat temp.
Proof.
  unfold heat, exceeds_25. destruct temp as [t|]; [|reflexivity].
  destruct t; reflexivity.
Qed.

Lemma heat_cases temp : heat temp = 0 \/ heat temp = 500.
Proof. unfold heat. destruct (exceeds_25 temp); auto. Qed.

Lemma hydration_steps w ab h :
  valid_weight w = true -> 0 <= ab <= 8000 -> 0 <= h <= 500 ->
  fl_ok (SF2R w * 30) (fmul w (fconst 30)) /\
  fl_ok (SF2R (fmul w (fconst 30)) + IZR ab) (fadd (fmul w (fconst 30)) (fconst ab)) /\
  fl_ok (SF2R (fadd (fmul w (fconst 30)) (fconst ab)) + IZR h)
        (fadd (fadd (fmul w (fconst 30)) (fconst ab)) (fconst h)) /\
  (900 <= SF2R (fadd (fmul w (fconst 30)) (fconst ab)) <= 17000)%R.
Proof.
  intros Hw Hab Hh. apply valid_weight_inv in Hw as (Hf & Hv & Hr).
  assert (Z.abs 30 < 2 ^ prec /\ Z.abs ab < 2 ^ prec /\ Z.abs h < 2 ^ prec) as (P30 & Pab & Ph)
    by (unfold prec; lia).
  pose proof (fconst_ok 30 P30) as C30. pose proof (fconst_ok ab Pab) as Cab.
  pose proof (fconst_ok h Ph) as Ch.
  assert (fl_ok (SF2R w * 30) (fmul w (fconst 30))) as H1.
  { rewrite <- (fconst_value 30 P30). apply SFmul_ok; try apply C30; auto.
    rewrite fconst_value by exact P30. apply (Rabs_le_emax _ 900 9000); [lra | lia | lia]. }
  pose proof (fl_ok_between _ _ 900 9000 H1 ltac:(lra) ltac:(unfold prec; lia) ltac:(unfold prec; lia)) as B1.
  assert (0 <= IZR ab <= 8000)%R as Rab by (split; apply IZR_le; lia).
  assert (fl_ok (SF2R (fmul w (fconst 30)) + IZR ab) (fadd (fmul w (fconst 30)) (fconst ab))) as H2.
  { rewrite <- (fconst_value ab Pab). apply SFadd_ok; try apply H1; try apply Cab.
    rewrite fconst_value by exact Pab. apply (Rabs_le_emax _ 900 17000); [lra | lia | lia]. }
  pose proof (fl_ok_between _ _ 900 17000 H2 ltac:(lra) ltac:(unfold prec; lia) ltac:(unfold prec; lia)) as B2.
  assert (0 <= IZR h <= 500)%R as Rh by (split; apply IZR_le; lia).
  assert (fl_ok (SF2R (fadd (fmul w (fconst 30)) (fconst ab)) + IZR h)
            (fadd (fadd (fmul w (fconst 30)) (fconst ab)) (fconst h))) as H3.
  { rewrite <- (fconst_value h Ph). apply SFadd_ok; try apply H2; try apply Ch.
    rewrite fconst_value by exact Ph. apply (Rabs_le_emax _ 900 17500); [lra | lia | lia]. }
  auto.
Qed.

Lemma activity_bonus_bounds a : 0 <= a <= 500 -> 0 <= a / 30 * 500 <= 8000.
Proof.
  intros H. assert (0 <= a / 30 < 17); [|lia].
  split; [apply Z.div_pos; lia | apply Z.div_lt_upper_bound; lia].
Qed.

Lemma heat_bounds temp : 0 <= heat temp <= 500.
Proof. destruct (heat_cases temp) as [-> | ->]; lia. Qed.

Lemma hydration_code w a temp :
  valid_weight w = true -> 0 <= a <= 500 ->
  calculate_water_norm w a temp = Ok (hydration_target w a temp).
Proof.
  intros Hw Ha. unfold calculate_water_norm, hydration_target. rewrite heat_code.
  pose proof (activity_bonus_bounds a Ha) as Hab. pose proof (heat_bounds temp) as Hh.
  rewrite !float_of_int_ok by (unfold prec; lia). cbv beta iota delta [bind].
  apply py_int_ok. apply (hydration_steps w _ _ Hw Hab Hh).
Qed.

Lemma hydration_value w a temp :
  valid_weight w = true -> 0 <= a <= 500 ->
  trunc_of (SF2R (fadd (fadd (fmul w (fconst 30)) (fconst (a / 30 * 500))) (fconst (heat temp))))
           (hydration_target w a temp).
Proof.
  intros Hw Ha. apply trunc_float_spec.
  apply (hydration_steps w _ _ Hw (activity_bonus_bounds a Ha) (heat_bounds temp)).
Qed.

Lemma hydration_mono w w' a a' temp :
  valid_weight w = true -> valid_weight w' = true ->
  (SF2R w <= SF2R w')%R -> 0 <= a <= a' -> a' <= 500 ->
  hydration_target w a temp <= hydration_target w' a' temp.
Proof.
  intros Hw Hw' Hle Ha Ha'.
  assert (0 <= a <= 500) as Ha0 by lia. assert (0 <= a' <= 500) as Ha1 by lia.
  pose proof (hydration_steps w _ _ Hw (activity_bonus_bounds a Ha0) (heat_bounds temp)) as (A1 & A2 & A3 & _).
  pose proof (hydration_steps w' _ _ Hw' (activity_bonus_bounds a' Ha1) (heat_bounds temp)) as (B1 & B2 & B3 & _).
  pose proof (fl_ok_mono _ _ _ _ A1 B1 ltac:(lra)) as M1.
  assert (a / 30 * 500 <= a' / 30 * 500) as Hab.
  { apply Z.mul_le_mono_nonneg_r; [lia | apply Z.div_le_mono; lia]. }
  apply IZR_le in Hab.
  pose proof (fl_ok_mono _ _ _ _ A2 B2 ltac:(lra)) as M2.
  pose proof (fl_ok_mono _ _ _ _ A3 B3 ltac:(lra)) as M3.
  eapply trunc_of_mono; [exact M3 | |]; apply hydration_value; assumption.
Qed.

Lemma hydration_heat w a cold hot :
  valid_weight w = true -> 0 <= a <= 500 ->
  exceeds_25 cold = false -> exceeds_25 hot = true ->
  hydration_target w a hot = hydration_target w a cold + 500 \/
  hydration_target w a hot = hydration_target w a cold + 501.
Proof.
  intros Hw Ha Hc Hh.
  pose proof (hydration_value w a cold Hw Ha) as Tc.
  pose proof (hydration_value w a hot Hw Ha) as Th.
  pose proof (hydration_steps w _ _ Hw (activity_bonus_bounds a Ha) (heat_bounds cold)) as (_ & A2 & A3 & B2).
  pose proof (hydration_steps w _ _ Hw (activity_bonus_bounds a Ha) (heat_bounds hot)) as (_ & _ & A3' & _).
  unfold heat in *. rewrite Hc in *. rewrite Hh in *.
  set (x2 := fadd (fmul w (fconst 30)) (fconst (a / 30 * 500))) in *.
  set (n := hydration_target w a cold) in *. set (n' := hydration_target w a hot) in *.
  assert (SF2R (fadd x2 (fconst 0)) = SF2R x2) as E0.
  { apply fl_ok_exact; [apply A2 | apply A2 |]. rewrite Rplus_0_r in A3. exact A3. }
  rewrite E0 in Tc. destruct Tc as [Tc _]. specialize (Tc ltac:(lra)).
  assert (0 <= n <= 17000) as Hn.
  { split.
    - assert (IZR (-1) < IZR n)%R as H by (simpl; lra). apply lt_IZR in H. lia.
    - assert (IZR n < IZR 17001)%R as H by (simpl; lra). apply lt_IZR in H. lia. }
  assert (IZR (n + 500) <= SF2R (fadd x2 (fconst 500)) <= IZR (n + 501))%R as Hb.
  { apply (fl_ok_between _ _ _ _ A3'); [rewrite !plus_IZR; lra | |]; unfold prec; lia. }
  rewrite !plus_IZR in Hb.
  destruct Th as [Th _]. specialize (Th ltac:(lra)).
  assert (IZR (n + 499) < IZR n')%R as H1 by (rewrite plus_IZR; lra).
  assert (IZR n' < IZR (n + 502))%R as H2 by (rewrite plus_IZR; lra).
  apply lt_IZR in H1, H2. lia.
Qed.

(** *** Calories *)

Lemma gender_adjustment_code g :
  (if eqb (gender_str g) (str "male") then fconst 5 else fconst (-161)) =
  gender_adjustment g.
Proof. destruct g; reflexivity. Qed.

Lemma activity_coefficient_code activity :
  (if 60 <=? activity then fdec 155 2
   else if 30 <=? activity then fdec 1375 3 else fdec 12 1) =
  activity_coefficient activity.
Proof.
  unfold activity_coefficient.
  destruct (Z.leb_spec 60 activity), (Z.leb_spec 30 activity),
    (Z.ltb_spec activity 30), (Z.leb_spec activity 59); try lia; reflexivity.
Qed.

Lemma activity_coefficient_ok activity :
  fl_ok (SF2R (activity_coefficient activity)) (activity_coefficient activity) /\
  (1 <= SF2R (activity_coefficient activity) <= 2)%R.
Proof.
  assert (forall m k, 0 <= k -> Z.abs m < 2 ^ prec -> 1 * 10 ^ k <= m <= 2 * 10 ^ k ->
            fl_ok (SF2R (fdec m k)) (fdec m k) /\ (1 <= SF2R (fdec m k) <= 2)%R) as H.
  { intros m k Hk Hm Hb. pose proof (fdec_ok m k Hk Hm) as Hok. split.
    - apply valid_fl_ok; apply Hok.
    - apply (fdec_between m k 1 2); auto; unfold prec; lia. }
  unfold activity_coefficient.
  destruct (activity <? 30); [|destruct (activity <=? 59)]; apply H; unfold prec; simpl; lia.
Qed.

Lemma gender_adjustment_ok g :
  fl_ok (IZR (match g with Male => 5 | Female => -161 end)) (gender_adjustment g) /\
  SF2R (gender_adjustment g) = IZR (match g with Male => 5 | Female => -161 end).
Proof.
  destruct g; unfold gender_adjustment; (split; [apply fconst_ok | apply fconst_value]);
    unfold prec; lia.
Qed.

Lemma basal_rate_ok w h a g :
  valid_weight w = true -> 100 <= h <= 250 -> 10 <= a <= 100 ->
  fl_ok (SF2R (basal_rate w h a g)) (basal_rate w h a g) /\
  (239 <= SF2R (basal_rate w h a g) <= 4705)%R.
Proof.
  intros Hw Hh Ha. apply valid_weight_inv in Hw as (Hf & Hv & Hr).
  pose proof (valid_fl_ok w Hf Hv) as Hwok.
  assert (forall n : Z, Z.abs n < 2 ^ 20 -> Z.abs n < 2 ^ prec) as Hsmall
    by (intros; unfold prec; lia).
  pose proof (fconst_ok 10 ltac:(unfold prec; lia)) as C10.
  pose proof (fconst_value 10 ltac:(unfold prec; lia)) as V10.
  pose proof (fconst_ok h ltac:(unfold prec; lia)) as Ch.
  pose proof (fconst_value h ltac:(unfold prec; lia)) as Vh.
  pose proof (fconst_ok (5 * a) ltac:(unfold prec; lia)) as Ca.
  pose proof (fconst_value (5 * a) ltac:(unfold prec; lia)) as Va.
  pose proof (fdec_ok 625 2 ltac:(lia) ltac:(unfold prec; lia)) as C625.
  pose proof (fdec_between 625 2 6 7 ltac:(lia) ltac:(unfold prec; lia) ltac:(simpl; lia)
                ltac:(unfold prec; lia) ltac:(unfold prec; lia)) as B625.
  assert (100 <= IZR h <= 250)%R as Rh by (split; apply IZR_le; lia).
  assert (50 <= IZR (5 * a) <= 500)%R as Ra by (split; apply IZR_le; lia).
  destruct (fmul_step (fconst 10) w _ _ 300 3000 C10 Hwok) as [T1 B1];
    [rewrite V10; lra | unfold prec; lia | unfold prec; lia |].
  destruct (fmul_step (fdec 625 2) (fconst h) _ _ 600 1750 C625 Ch) as [T2 B2];
    [ rewrite Vh;
      pose proof (Rmult_between (SF2R (fdec 625 2)) (IZR h) 6 7 100 250
                    ltac:(lra) ltac:(lra) ltac:(lra) ltac:(lra)); lra
    | unfold prec; lia | unfold prec; lia |].
  destruct (fadd_step _ _ _ _ 900 4750 T1 T2) as [T3 B3];
    [lra | unfold prec; lia | unfold prec; lia |].
  destruct (fsub_step _ (fconst (5 * a)) _ _ 400 4700 T3 Ca) as [T4 B4];
    [rewrite Va; lra | unfold prec; lia | unfold prec; lia |].
  pose proof (gender_adjustment_ok g) as [Cg Vg].
  destruct (fadd_step _ (gender_adjustment g) _ _ 239 4705 T4 Cg) as [T5 B5];
    [rewrite Vg; destruct g; lra | unfold prec; lia | unfold prec; lia |].
  split; [|exact B5]. apply valid_fl_ok; apply T5.
Qed.

Lemma calorie_product_ok w h a g activity :
  valid_weight w = true -> 100 <= h <= 250 -> 10 <= a <= 100 ->
  is_finite (fmul (basal_rate w h a g) (activity_coefficient activity)) = true /\
  (239 <= SF2R (fmul (basal_rate w h a g) (activity_coefficient activity)) <= 9410)%R.
Proof.
  intros Hw Hh Ha.
  pose proof (basal_rate_ok w h a g Hw Hh Ha) as [Tb Bb].
  pose proof (activity_coefficient_ok activity) as [Tc Bc].
  destruct (fmul_step _ _ _ _ 239 9410 Tb Tc) as [T B];
    [ pose proof (Rmult_between (SF2R (basal_rate w h a g))
                    (SF2R (activity_coefficient activity)) 239 4705 1 2
                    ltac:(lra) ltac:(lra) ltac:(lra) ltac:(lra)); lra
    | unfold prec; lia | unfold prec; lia |].
  split; [apply T | exact B].
Qed.

Lemma calorie_code w h a g activity :
  valid_weight w = true -> 100 <= h <= 250 -> 10 <= a <= 100 ->
  calculate_calorie_norm w h a (gender_str g) activity None =
  Ok (calorie_target w h a g activity).
Proof.
  intros Hw Hh Ha. unfold calculate_calorie_norm, calorie_target.
  rewrite !float_of_int_ok by (unfold prec; lia). cbv beta iota delta [bind].
  rewrite gender_adjustment_code, activity_coefficient_code.
  fold (basal_rate w h a g).
  pose proof (calorie_product_ok w h a g activity Hw Hh Ha) as [Hf Hb].
  rewrite py_int_ok by exact Hf. f_equal. symmetry. apply floor_trunc; [exact Hf | lra].
Qed.

Lemma calorie_override w h a gender activity m :
  m <> 0 -> calculate_calorie_norm w h a gender activity (Some m) = Ok m.
Proof.
  intros Hm. unfold calculate_calorie_norm. apply Z.eqb_neq in Hm. rewrite Hm. reflexivity.
Qed.

(** *** Workouts *)

Lemma SFdiv_ok' x y :
  is_finite x = true -> is_finite y = true -> SF2R y <> 0%R ->
  (Rabs (SF2R x / SF2R y) <= pow2 (emax - 1))%R ->
  fl_ok (SF2R x / SF2R y) (fdiv x y).
Proof.
  intros Hx Hy Hy0 Hb. destruct y as [s|s| |s m e]; try discriminate.
  - exfalso. apply Hy0. reflexivity.
  - apply SFdiv_ok; assumption.
Qed.

Lemma met_of_cases kind :
  In (WorkoutCalculator.met_of kind)
     [fdec 100 1; fdec 45 1; fdec 80 1; fdec 95 1; fdec 65 1; fdec 35 1; fdec 70 1].
Proof.
  unfold WorkoutCalculator.met_of, WorkoutCalculator.MET_VALUES, dict_get.
  repeat (destruct (eqb (lower kind) _); [simpl; tauto|]). simpl; tauto.
Qed.

Lemma met_of_ok kind :
  fl_ok (SF2R (WorkoutCalculator.met_of kind)) (WorkoutCalculator.met_of kind) /\
  (3 <= SF2R (WorkoutCalculator.met_of kind) <= 10)%R.
Proof.
  assert (forall m, 30 <= m <= 100 ->
            fl_ok (SF2R (fdec m 1)) (fdec m 1) /\ (3 <= SF2R (fdec m 1) <= 10)%R) as H.
  { intros m Hm. pose proof (fdec_ok m 1 ltac:(lia) ltac:(unfold prec; lia)) as Hok. split.
    - apply valid_fl_ok; apply Hok.
    - apply (fdec_between m 1 3 10); unfold prec; try lia. }
  pose proof (met_of_cases kind) as Hin. simpl in Hin.
  destruct Hin as [<-|[<-|[<-|[<-|[<-|[<-|[<-|[]]]]]]]]; apply H; lia.
Qed.

Lemma f60_value : SF2R (fdec 600 1) = 60%R.
Proof.
  pose proof (fdec_ok 600 1 ltac:(lia) ltac:(unfold prec; lia)) as H.
  replace (IZR 600 / IZR (10 ^ 1))%R with (IZR 60) in H by (simpl; lra).
  apply fl_ok_IZR in H; [exact H | unfold prec; lia].
Qed.

Lemma hours_ok minutes :
  0 <= minutes <= 300 ->
  fl_ok (IZR minutes / 60) (fdiv (fconst minutes) (fdec 600 1)) /\
  (0 <= SF2R (fdiv (fconst minutes) (fdec 600 1)) <= 5)%R.
Proof.
  intros Hm.
  pose proof (fconst_ok minutes ltac:(unfold prec; lia)) as Cm.
  pose proof (fconst_value minutes ltac:(unfold prec; lia)) as Vm.
  assert (0 <= IZR minutes <= 300)%R as Rm by (split; apply IZR_le; lia).
  assert (fl_ok (IZR minutes / 60) (fdiv (fconst minutes) (fdec 600 1))) as H.
  { rewrite <- Vm, <- f60_value. apply SFdiv_ok'; try apply Cm; try reflexivity.
    - rewrite f60_value. lra.
    - rewrite Vm, f60_value. apply (Rabs_le_emax _ 0 5); [lra | lia | lia]. }
  split; [exact H|]. apply (fl_ok_between _ _ 0 5 H); [lra | |]; unfold prec; lia.
Qed.

Lemma burn_steps kind w minutes :
  valid_weight w = true -> 0 <= minutes <= 300 ->
  fl_ok (SF2R (fmul (WorkoutCalculator.met_of kind) w) *
         SF2R (fdiv (fconst minutes) (fdec 600 1)))
        (fmul (fmul (WorkoutCalculator.met_of kind) w)
              (fdiv (fconst minutes) (fdec 600 1))) /\
  (0 <= SF2R (fmul (WorkoutCalculator.met_of kind) w))%R.
Proof.
  intros Hw Hm. apply valid_weight_inv in Hw as (Hf & Hv & Hr).
  pose proof (valid_fl_ok w Hf Hv) as Hwok.
  pose proof (met_of_ok kind) as [Cmet Bmet].
  pose proof (hours_ok minutes Hm) as [Ch Bh].
  destruct (fmul_step _ w _ _ 90 3000 Cmet Hwok) as [T1 B1];
    [ pose proof (Rmult_between (SF2R (WorkoutCalculator.met_of kind)) (SF2R w) 3 10 30 300
                    ltac:(lra) ltac:(lra) ltac:(lra) ltac:(lra)); lra
    | unfold prec; lia | unfold prec; lia |].
  destruct (fmul_step _ _ _ _ 0 15000 T1 Ch) as [T2 B2];
    [ pose proof (Rmult_between (SF2R (fmul (WorkoutCalculator.met_of kind) w))
                    (SF2R (fdiv (fconst minutes) (fdec 600 1))) 0 3000 0 5
                    ltac:(lra) ltac:(lra) ltac:(lra) ltac:(lra)); lra
    | unfold prec; lia | unfold prec; lia |].
  split; [exact T2 | lra].
Qed.

Lemma burn_code kind w minutes :
  valid_weight w = true -> 0 <= minutes <= 300 ->
  WorkoutCalculator.calculate_burned kind minutes w =
  Ok (exercise_burn (WorkoutCalculator.met_of kind) w minutes).
Proof.
  intros Hw Hm. unfold WorkoutCalculator.calculate_burned, exercise_burn.
  rewrite float_of_int_ok by (unfold prec; lia). cbv beta iota delta [bind].
  apply py_int_ok. apply (burn_steps kind w minutes Hw Hm).
Qed.

Lemma burn_mono kind w minutes minutes' :
  valid_weight w = true -> 0 <= minutes <= minutes' -> minutes' <= 300 ->
  exercise_burn (WorkoutCalculator.met_of kind) w minutes <=
  exercise_burn (WorkoutCalculator.met_of kind) w minutes'.
Proof.
  intros Hw Hm Hm'.
  pose proof (burn_steps kind w minutes Hw ltac:(lia)) as [A X0].
  pose proof (burn_steps kind w minutes' Hw ltac:(lia)) as [B _].
  pose proof (hours_ok minutes ltac:(lia)) as [Ha _].
  pose proof (hours_ok minutes' ltac:(lia)) as [Hb _].
  assert (IZR minutes / 60 <= IZR minutes' / 60)%R as Hle.
  { assert (IZR minutes <= IZR minutes')%R by (apply IZR_le; lia). lra. }
  pose proof (fl_ok_mono _ _ _ _ Ha Hb Hle) as Hh.
  assert (SF2R (fmul (WorkoutCalculator.met_of kind) w) *
          SF2R (fdiv (fconst minutes) (fdec 600 1)) <=
          SF2R (fmul (WorkoutCalculator.met_of kind) w) *
          SF2R (fdiv (fconst minutes') (fdec 600 1)))%R as Hprod
    by (apply Rmult_le_compat_l; assumption).
  pose proof (fl_ok_mono _ _ _ _ A B Hprod) as Hfin.
  unfold exercise_burn.
  eapply trunc_of_mono; [exact Hfin | |]; apply trunc_float_spec; [apply A | apply B].
Qed.

Lemma met_of_unknown kind :
  dict_get (lower kind) WorkoutCalculator.MET_VALUES = None ->
  WorkoutCalculator.met_of kind = fdec 70 1.
Proof. intros H. unfold WorkoutCalculator.met_of. rewrite H. reflexivity. Qed.

(** *** Percentages *)

Lemma Rabs_div_le a b : b <> 0 -> (Rabs (IZR a / IZR b) <= Rabs (IZR a))%R.
Proof.
  intros Hb. unfold Rdiv. rewrite Rabs_mult.
  rewrite <- (Rmult_1_r (Rabs (IZR a))) at 2.
  apply Rmult_le_compat_l; [apply Rabs_pos|].
  rewrite Rabs_inv. rewrite <- Rinv_1.
  assert (1 <= Rabs (IZR b))%R as H1.
  { rewrite <- abs_IZR. apply IZR_le. lia. }
  apply Rinv_le_contravar; lra.
Qed.

Lemma int_truediv_ok a b :
  b <> 0 -> Z.abs a <= 2 ^ 1023 ->
  int_truediv a b = Ok (fdiv (fexact a) (fexact b)) /\
  fl_ok (IZR a / IZR b) (fdiv (fexact a) (fexact b)).
Proof.
  intros Hb Ha.
  assert (fl_ok (IZR a / IZR b) (fdiv (fexact a) (fexact b))) as H.
  { apply fdiv_exact_ok; [exact Hb|].
    eapply Rle_trans; [apply Rabs_div_le, Hb|].
    rewrite <- abs_IZR. rewrite pow2_emax_IZR. apply IZR_le, Ha. }
  split; [|exact H]. unfold int_truediv. apply Z.eqb_neq in Hb. rewrite Hb.
  fold (fdiv (fexact a) (fexact b)). destruct H as (Hf & _).
  destruct (fdiv (fexact a) (fexact b)); try discriminate; reflexivity.
Qed.

Lemma quotient_bounds a b :
  0 < b ->
  (0 <= a -> (0 <= IZR a / IZR b)%R) /\
  (a <= 0 -> (IZR a / IZR b <= 0)%R) /\
  (b <= a -> (1 <= IZR a / IZR b)%R).
Proof.
  intros Hb. assert (0 < IZR b)%R as Hb' by (apply IZR_lt, Hb).
  assert (0 < / IZR b)%R as Hi by (apply Rinv_0_lt_compat, Hb').
  split; [|split].
  - intros Ha. apply IZR_le in Ha. unfold Rdiv. apply Rmult_le_pos; lra.
  - intros Ha. apply IZR_le in Ha. unfold Rdiv.
    replace 0%R with (0 * / IZR b)%R by lra. apply Rmult_le_compat_r; lra.
  - intros Ha. apply IZR_le in Ha. unfold Rdiv.
    replace 1%R with (IZR b * / IZR b)%R by (field; lra). apply Rmult_le_compat_r; lra.
Qed.

Lemma Rabs_le_inv x y : (Rabs x <= y)%R -> (- y <= x <= y)%R.
Proof. unfold Rabs. destruct (Rcase_abs x); intros; lra. Qed.

Lemma rnd_abs_le_pow2 x r k :
  rnd x r -> (Rabs x <= pow2 k)%R -> emin prec emax <= k -> (Rabs r <= pow2 k)%R.
Proof.
  intros Hr Hx Hk. apply Rabs_le_inv in Hx.
  assert (pow2 k = F2R 1 k) as E1 by (unfold F2R; lra).
  assert (- pow2 k = F2R (-1) k)%R as E2 by (unfold F2R; lra).
  apply Rabs_le. split.
  - rewrite E2. eapply rnd_ge_repr; eauto; [rewrite <- E2; lra | unfold prec; simpl; lia].
  - rewrite E1. eapply rnd_le_repr; eauto; [rewrite <- E1; lra | unfold prec; simpl; lia].
Qed.

Lemma percent_ok a b :
  0 < b -> Z.abs a < 2 ^ 53 ->
  percent a b = Ok (status_percent a b) /\
  - 2 ^ 60 <= status_percent a b <= 100 /\
  (0 <= a -> 0 <= status_percent a b) /\
  (a <= 0 -> status_percent a b <= 0) /\
  (b <= a -> status_percent a b = 100).
Proof.
  intros Hb Ha.
  pose proof (int_truediv_ok a b ltac:(lia) ltac:(lia)) as [Hq Qok].
  pose proof (quotient_bounds a b Hb) as (Qpos & Qneg & Qone).
  pose proof (fconst_ok 100 ltac:(unfold prec; lia)) as C100.
  pose proof (fconst_value 100 ltac:(unfold prec; lia)) as V100.
  unfold status_percent. set (q := fdiv (fexact a) (fexact b)) in *.
  assert (Rabs (SF2R q) <= pow2 53)%R as Bq.
  { apply (rnd_abs_le_pow2 _ _ 53 (fl_ok_rnd _ _ Qok)); [|rewrite emin_eq; lia].
    eapply Rle_trans; [apply Rabs_div_le; lia|].
    rewrite <- abs_IZR, (pow2_IZR 53) by lia. apply IZR_le. lia. }
  assert (Rabs (SF2R q * SF2R (fconst 100)) <= pow2 60)%R as Bprod.
  { rewrite V100, Rabs_mult, (Rabs_pos_eq 100) by lra.
    replace 60 with (53 + 7) by lia. rewrite pow2_add, (pow2_IZR 7) by lia.
    simpl (IZR (2 ^ 7)). pose proof (Rabs_pos (SF2R q)). pose proof (pow2_pos 53).
    apply Rmult_le_compat; lra. }
  assert (fl_ok (SF2R q * SF2R (fconst 100)) (fmul q (fconst 100))) as Pok.
  { apply SFmul_ok; try apply Qok; try apply C100.
    eapply Rle_trans; [exact Bprod | apply pow2_le; unfold emax; lia]. }
  pose proof (rnd_abs_le_pow2 _ _ 60 (fl_ok_rnd _ _ Pok) Bprod ltac:(rewrite emin_eq; lia)) as BP.
  rewrite (pow2_IZR 60) in BP by lia. apply Rabs_le_inv in BP.
  pose proof (trunc_float_spec _ (fl_ok_finite _ _ Pok)) as Ht.
  set (n := trunc_float (fmul q (fconst 100))) in *.
  pose proof (trunc_of_IZR _ _ (- 2 ^ 60) Ht) as [_ Hlo].
  pose proof (trunc_of_IZR _ _ 0 Ht) as [H0lo H0hi].
  pose proof (trunc_of_IZR _ _ 100 Ht) as [H100 _].
  assert (- 2 ^ 60 <= n) as Hnlo.
  { destruct Ht as [Tp Tn].
    destruct (Rle_dec 0 (SF2R (fmul q (fconst 100)))) as [Hs|Hs].
    - specialize (H0lo Hs ltac:(lia)). lia.
    - specialize (Tn ltac:(lra)).
      assert (IZR (- 2 ^ 60 - 1) < IZR n)%R as Hlt by (rewrite minus_IZR, opp_IZR; lra).
      apply lt_IZR in Hlt. lia. }
  split.
  - unfold percent. rewrite Hq. cbv beta iota delta [bind].
    rewrite py_int_ok by apply Pok. reflexivity.
  - split; [lia|]. split; [|split].
    + intros Ha0. specialize (Qpos Ha0).
      pose proof (rnd_ge_IZR _ _ 0 (fl_ok_rnd _ _ Qok) Qpos ltac:(unfold prec; lia)) as Q0.
      assert (0 <= SF2R q * SF2R (fconst 100))%R as P0 by (rewrite V100; lra).
      pose proof (rnd_ge_IZR _ _ 0 (fl_ok_rnd _ _ Pok) P0 ltac:(unfold prec; lia)) as P1.
      specialize (H0lo P1 ltac:(lia)). lia.
    + intros Ha0. specialize (Qneg Ha0).
      pose proof (rnd_le_IZR _ _ 0 (fl_ok_rnd _ _ Qok) Qneg ltac:(unfold prec; lia)) as Q0.
      assert (SF2R q * SF2R (fconst 100) <= 0)%R as P0 by (rewrite V100; lra).
      pose proof (rnd_le_IZR _ _ 0 (fl_ok_rnd _ _ Pok) P0 ltac:(unfold prec; lia)) as P1.
      specialize (H0hi P1 ltac:(lia)). lia.
    + intros Hba. specialize (Qone Hba).
      pose proof (rnd_ge_IZR _ _ 1 (fl_ok_rnd _ _ Qok) Qone ltac:(unfold prec; lia)) as Q1.
      assert (100 <= SF2R q * SF2R (fconst 100))%R as P0 by (rewrite V100; lra).
      pose proof (rnd_ge_IZR _ _ 100 (fl_ok_rnd _ _ Pok) P0 ltac:(unfold prec; lia)) as P1.
      specialize (H100 P1 ltac:(lia)). lia.
Qed.

Lemma progress_bar_ok pct :
  Z.abs pct <= 2 ^ 1023 -> exists bar, progress_bar pct = Ok bar.
Proof.
  intros Hp. pose proof (int_truediv_ok pct 10 ltac:(lia) Hp) as [Hq Qok].
  unfold progress_bar. rewrite Hq. cbv beta iota delta [bind].
  rewrite py_int_ok by apply Qok. eexists. reflexivity.
Qed.

End FormulaFacts.

(** * Facts about the store and the ledger handlers *)

Module LedgerFacts.

Import PyFloat PyStr Bot FloatSem FloatFacts Spec FormulaFacts.

(** ** The store *)

Lemma get_profile_put_profile w user_id p :
  get_profile (put_profile w user_id p) user_id = Some p.
Proof. unfold get_profile, put_profile. cbn [user_database]. apply lookup_insert_eq. Qed.

Lemma get_profile_put_other w user_id other p :
  user_id <> other ->
  get_profile (put_profile w user_id p) other = get_profile w other.
Proof.
  intros Hne. unfold get_profile, put_profile. cbn [user_database].
  apply lookup_insert_ne. exact Hne.
Qed.

Lemma get_session_put_session w user_id s :
  get_session (put_session w user_id s) user_id = s.
Proof.
  unfold get_session, put_session. cbn [storage]. rewrite lookup_insert_eq. reflexivity.
Qed.

Lemma get_profile_put_session w user_id s other :
  get_profile (put_session w user_id s) other = get_profile w other.
Proof. reflexivity. Qed.

Lemma get_data_clear w user_id : get_data (clear w user_id) user_id = no_data.
Proof. unfold get_data, clear. rewrite get_session_put_session. reflexivity. Qed.

Lemma get_state_clear w user_id : get_state (clear w user_id) user_id = None.
Proof. unfold get_state, clear. rewrite get_session_put_session. reflexivity. Qed.

Lemma get_state_recorded w user_id f st :
  get_state (set_state (update_data w user_id f) user_id st) user_id = Some st.
Proof. unfold get_state, set_state. rewrite get_session_put_session. reflexivity. Qed.

Lemma get_data_recorded w user_id f st :
  get_data (set_state (update_data w user_id f) user_id st) user_id =
  f (get_data w user_id).
Proof.
  unfold set_state. unfold get_data at 1. rewrite get_session_put_session.
  cbn [fsm_data]. unfold update_data. unfold get_data at 1.
  rewrite get_session_put_session. reflexivity.
Qed.

(** ** Substrings *)

Lemma contains_tail sub c s : contains sub s = true -> contains sub (c :: s) = true.
Proof. intros H. cbn [contains]. rewrite H. apply orb_true_r. Qed.

Lemma startswith_contains sub s : startswith s sub = true -> contains sub s = true.
Proof. intros H. destruct s; cbn [contains]; rewrite H; reflexivity. Qed.

(** Whatever contains "female" contains "male". *)
Lemma female_contains_male s :
  contains (str "female") s = true -> contains (str "male") s = true.
Proof.
  induction s as [|c s IH]; [discriminate|].
  cbn [contains]. intros H. apply orb_true_iff in H as [H|H].
  - apply orb_true_iff. right.
    change (str "female") with (102 :: 101 :: str "male") in H.
    cbn [startswith] in H. apply andb_true_iff in H as [_ H].
    destruct s as [|d s]; [discriminate|].
    apply andb_true_iff in H as [_ H].
    apply contains_tail, startswith_contains, H.
  - apply orb_true_iff. right. apply IH, H.
Qed.

(** ** The energy of a portion *)

Lemma f100_value : SF2R (fdec 1000 1) = 100%R.
Proof.
  pose proof (fdec_ok 1000 1 ltac:(lia) ltac:(unfold prec; lia)) as H.
  replace (IZR 1000 / IZR (10 ^ 1))%R with (IZR 100) in H by (simpl; lra).
  apply fl_ok_IZR in H; [exact H | unfold prec; lia].
Qed.

Lemma valid_energy_inv kcal :
  valid_energy kcal = true ->
  is_finite kcal = true /\ valid_binary prec emax kcal = true /\
  (0 <= SF2R kcal <= 1000000)%R.
Proof.
  unfold valid_energy, is_binary64. rewrite !andb_true_iff. intros [[[Hf Hv] H1] H2].
  pose proof (fconst_ok 0 ltac:(unfold prec; lia)) as (F0 & V0 & _).
  pose proof (fconst_ok 1000000 ltac:(unfold prec; lia)) as (F1 & V1 & _).
  apply SFleb_spec in H1; auto. apply SFleb_spec in H2; auto.
  rewrite fconst_value in H1, H2 by (unfold prec; lia). auto.
Qed.

Lemma food_energy_ok kcal grams :
  valid_energy kcal = true -> 0 < grams <= 2000 ->
  float_of_int grams = Ok (fconst grams) /\
  py_int (fdiv (fmul kcal (fconst grams)) (fdec 1000 1)) = Ok (food_energy kcal grams) /\
  0 <= food_energy kcal grams <= 20000000.
Proof.
  intros Hk Hg. apply valid_energy_inv in Hk as (Hf & Hv & Hr).
  pose proof (valid_fl_ok kcal Hf Hv) as Kok.
  pose proof (fconst_ok grams ltac:(unfold prec; lia)) as Gok.
  pose proof (fconst_value grams ltac:(unfold prec; lia)) as Gv.
  assert (1 <= IZR grams <= 2000)%R as Gr by (split; apply IZR_le; lia).
  assert (0 <= SF2R kcal * SF2R (fconst grams) <= 2000000000)%R as Bp.
  { rewrite Gv. split.
    - apply Rmult_le_pos; lra.
    - replace 2000000000%R with (1000000 * 2000)%R by lra.
      apply Rmult_le_compat; lra. }
  destruct (fmul_step _ _ _ _ 0 2000000000 Kok Gok Bp
              ltac:(unfold prec; lia) ltac:(unfold prec; lia)) as [Pok Pb].
  set (p := fmul kcal (fconst grams)) in *.
  assert (0 <= SF2R p / SF2R (fdec 1000 1) <= 20000000)%R as Bq
    by (rewrite f100_value; lra).
  assert (fl_ok (SF2R p / SF2R (fdec 1000 1)) (fdiv p (fdec 1000 1))) as Qok.
  { apply SFdiv_ok'; try apply Pok; try reflexivity.
    - rewrite f100_value. lra.
    - apply (Rabs_le_emax _ 0 20000000 Bq); lia. }
  pose proof (fl_ok_between _ _ 0 20000000 Qok Bq
                ltac:(unfold prec; lia) ltac:(unfold prec; lia)) as Qb.
  pose proof (fl_ok_finite _ _ Qok) as Qf.
  assert (food_energy kcal grams = trunc_float (fdiv p (fdec 1000 1))) as E
    by (apply floor_trunc; [exact Qf | lra]).
  split; [apply float_of_int_ok; unfold prec; lia|]. split.
  - rewrite E. apply py_int_ok, Qf.
  - rewrite E. pose proof (trunc_float_spec _ Qf) as Ht.
    pose proof (trunc_of_IZR _ _ 0 Ht) as [H0 _].
    specialize (H0 ltac:(lra) ltac:(lia)).
    destruct Ht as [Tp _]. specialize (Tp ltac:(lra)).
    assert (IZR (trunc_float (fdiv p (fdec 1000 1))) <= IZR 20000000)%R as Hle by lra.
    apply le_IZR in Hle. lia.
Qed.

End LedgerFacts.

(** * The claims of the specification *)

Import PyFloat PyStr Bot FloatSem FloatFacts Spec Scenario FormulaFacts LedgerFacts.

(** ** C1: the percentages of the status report *)

(** C1, as the claim states it, fails. After the setup of the sample
    conversation and a 30-minute run nothing was eaten and 375 kcal were
    burned: the balance is -375 and the status reports -18 percent (and a
    bar of eleven squares), where the claim promises
    clamp(floor(-375/2068*100), 0, 100) = 0. *)
Lemma C1_counterexample :
  cmd_status after_train user =
    (after_train,
     Ok [StatusMessage
           (mkStatus (mkBar 0 10) 0 0 2450 2450
                     (mkBar 0 11) (-18) 0 375 (-375) 2068 2443)]) /\
  clamped_percent (-375) 2068 = 0 /\
  ~ (0 <= -18 <= 100).
Proof.
  repeat split; try (vm_compute; reflexivity). lia.
Qed.

(** C1, amended: for every existing profile whose targets are positive and
    whose counters are below 2^53, the status reports
    [min(int(consumed / target * 100), 100)] as the water percent and
    [min(int((eaten - burned) / calorie_target * 100), 100)] as the calorie
    percent, computed on floats and truncated towards zero. Both are at
    most 100, and equal to 100 once the target is reached; the water
    percent is at least 0; the calorie percent is at least 0 when the
    balance is, and at most 0 when calories burned exceed calories eaten. *)
Theorem C1_status_percent (w : World) (user_id : Z) (profile : UserProfile) :
  get_profile w user_id = Some profile ->
  0 < water_target profile -> 0 < Bot.calorie_target profile ->
  0 <= water_consumed profile < 2 ^ 53 ->
  Z.abs (calories_eaten profile - calories_burned profile) < 2 ^ 53 ->
  exists r,
    cmd_status w user_id = (w, Ok [StatusMessage r]) /\
    st_water_percent r =
      status_percent (water_consumed profile) (water_target profile) /\
    st_calorie_percent r =
      status_percent (calories_eaten profile - calories_burned profile)
                     (Bot.calorie_target profile) /\
    0 <= st_water_percent r <= 100 /\
    st_calorie_percent r <= 100 /\
    (0 <= calories_eaten profile - calories_burned profile ->
       0 <= st_calorie_percent r) /\
    (calories_eaten profile - calories_burned profile <= 0 ->
       st_calorie_percent r <= 0) /\
    (water_target profile <= water_consumed profile -> st_water_percent r = 100) /\
    (Bot.calorie_target profile <= calories_eaten profile - calories_burned profile ->
       st_calorie_percent r = 100).
Proof.
  intros Hp Hwt Hct Hwc Hbal.
  pose proof (percent_ok (water_consumed profile) (water_target profile) Hwt ltac:(lia))
    as (Pw & Bw & Pos_w & _ & Top_w).
  pose proof (percent_ok (calories_eaten profile - calories_burned profile)
                (Bot.calorie_target profile) Hct Hbal) as (Pc & Bc & Pos_c & Neg_c & Top_c).
  destruct (progress_bar_ok
              (status_percent (water_consumed profile) (water_target profile))
              ltac:(lia)) as [bw Hbw].
  destruct (progress_bar_ok
              (status_percent (calories_eaten profile - calories_burned profile)
                 (Bot.calorie_target profile)) ltac:(lia)) as [bc Hbc].
  eexists. split.
  - unfold cmd_status. rewrite Hp, Pw, Pc. cbv beta iota delta [bind].
    rewrite Hbw, Hbc. reflexivity.
  - cbn [st_water_percent st_calorie_percent].
    repeat split; try reflexivity; try lia; auto.
Qed.

Lemma C1_status_percent_witness :
  get_profile after_train user = Some profile_after_train /\
  exists r,
    cmd_status after_train user = (after_train, Ok [StatusMessage r]) /\
    st_water_percent r = status_percent 0 2450 /\
    st_calorie_percent r = status_percent (0 - 375) 2068 /\
    0 <= st_water_percent r <= 100 /\
    st_calorie_percent r <= 100 /\
    (0 <= 0 - 375 -> 0 <= st_calorie_percent r) /\
    (0 - 375 <= 0 -> st_calorie_percent r <= 0) /\
    (2450 <= 0 -> st_water_percent r = 100) /\
    (2068 <= 0 - 375 -> st_calorie_percent r = 100).
Proof.
  assert (Hp : get_profile after_train user = Some profile_after_train)
    by (vm_compute; reflexivity).
  split; [exact Hp|].
  apply (C1_status_percent after_train user profile_after_train Hp);
    cbn [profile_after_train water_target Bot.calorie_target water_consumed
         calories_eaten calories_burned]; lia.
Defined.

(** ** C2: charts *)

(** C2 does not hold of the code, by a slip of the code: the guard that
    decides on the "not enough data" message looks at the water and the
    calorie timeline only. In the sample conversation the workout timeline
    has two points after the run, and [cmd_charts] still answers that there
    is not enough data and asks for no chart. *)
Theorem C2_workout_only_gets_no_chart :
  (forall w user_id p,
     get_profile w user_id = Some p ->
     (length (water_timeline p) < 2)%nat ->
     (length (calorie_timeline p) < 2)%nat ->
     cmd_charts w user_id = (w, Ok [ChartsInsufficient])) /\
  (exists p, get_profile after_train user = Some p /\
             length (water_timeline p) = 1%nat /\
             length (calorie_timeline p) = 1%nat /\
             length (workout_timeline p) = 2%nat) /\
  cmd_charts after_train user = (after_train, Ok [ChartsInsufficient]).
Proof.
  split; [|split].
  - intros w user_id p Hp Hw Hc. unfold cmd_charts. rewrite Hp.
    apply Nat.ltb_lt in Hw, Hc. rewrite Hw, Hc. reflexivity.
  - exists profile_after_train. split; [vm_compute; reflexivity|]. repeat split.
  - vm_compute. reflexivity.
Qed.

(** ** C3: calories burned by a workout *)

(** C3, as the claim states it, fails: the product is truncated, so the
    result is not linear in the minutes. A 70 kg user burns 11 kcal in one
    minute of running and 23 kcal in two. *)
Lemma C3_counterexample :
  WorkoutCalculator.calculate_burned (str "run") 1 (fconst 70) = Ok 11 /\
  WorkoutCalculator.calculate_burned (str "run") (2 * 1) (fconst 70) = Ok 23 /\
  23 <> 2 * 11.
Proof.
  repeat split; try (vm_compute; reflexivity). lia.
Qed.

(** C3, amended: for every kind, every weight in [30, 300] and every
    duration up to 300 minutes, [calculate_burned] returns
    [int(MET * weight * (minutes / 60))], where MET is the entry of the
    lower-cased kind in the table and 7.0 for a kind that has none; the
    result is non-decreasing in the minutes (it is the truncation of a
    product that grows with them, and therefore not linear). *)
Theorem C3_exercise_burn (kind : pystr) (minutes : Z) (w : float) :
  valid_weight w = true -> 0 <= minutes <= 300 ->
  WorkoutCalculator.calculate_burned kind minutes w =
    Ok (exercise_burn (WorkoutCalculator.met_of kind) w minutes) /\
  (dict_get (lower kind) WorkoutCalculator.MET_VALUES = None ->
     WorkoutCalculator.calculate_burned kind minutes w =
       Ok (exercise_burn (fdec 70 1) w minutes)) /\
  (forall minutes', minutes <= minutes' <= 300 ->
     exercise_burn (WorkoutCalculator.met_of kind) w minutes <=
     exercise_burn (WorkoutCalculator.met_of kind) w minutes').
Proof.
  intros Hw Hm. split; [apply burn_code; assumption|]. split.
  - intros Hnone. rewrite burn_code by assumption.
    rewrite (met_of_unknown kind Hnone). reflexivity.
  - intros minutes' Hm'. apply burn_mono; auto; lia.
Qed.

Lemma C3_exercise_burn_witness :
  valid_weight (fconst 70) = true /\ 0 <= 45 <= 300 /\
  WorkoutCalculator.calculate_burned (str "Zumba") 45 (fconst 70) =
    Ok (exercise_burn (WorkoutCalculator.met_of (str "Zumba")) (fconst 70) 45) /\
  (dict_get (lower (str "Zumba")) WorkoutCalculator.MET_VALUES = None ->
     WorkoutCalculator.calculate_burned (str "Zumba") 45 (fconst 70) =
       Ok (exercise_burn (fdec 70 1) (fconst 70) 45)) /\
  (forall minutes', 45 <= minutes' <= 300 ->
     exercise_burn (WorkoutCalculator.met_of (str "Zumba")) (fconst 70) 45 <=
     exercise_burn (WorkoutCalculator.met_of (str "Zumba")) (fconst 70) minutes').
Proof.
  split; [reflexivity|]. split; [lia|].
  apply (C3_exercise_burn (str "Zumba") 45 (fconst 70)); [reflexivity | lia].
Defined.

(** ** C4: the calorie target *)

(** C4, as the claim states it, fails in its example: for 75 kg, 175 cm,
    25 years, male and 20 minutes of activity the basal rate is
    750 + 1093.75 - 125 + 5 = 1723.75 and the target is
    int(1723.75 * 1.2) = 2068, not 2041. *)
Lemma C4_counterexample :
  basal_rate (fconst 75) 175 25 Male = fdec 172375 2 /\
  calculate_calorie_norm (fconst 75) 175 25 (str "male") 20 None = Ok 2068 /\
  2068 <> 2041.
Proof.
  repeat split; try (vm_compute; reflexivity). lia.
Qed.

(** C4, amended: [calculate_calorie_norm] returns the manual override
    whenever one in [1000, 5000] is given, whatever the other inputs; with
    no override, for inputs in the validated ranges, it returns
    floor((10*weight + 6.25*height - 5*age + (5 if male, -161 if female))
    * coefficient), the coefficient being 1.20 below 30 minutes of activity,
    1.375 from 30 to 59 and 1.55 from 60 on; for 75 kg, 175 cm, 25 years,
    male and 20 minutes this is 2068. *)
Theorem C4_calorie_target :
  (forall w h a gender activity m,
     1000 <= m <= 5000 ->
     calculate_calorie_norm w h a gender activity (Some m) = Ok m) /\
  (forall w h a g activity,
     valid_weight w = true -> 100 <= h <= 250 -> 10 <= a <= 100 ->
     calculate_calorie_norm w h a (gender_str g) activity None =
       Ok (calorie_target w h a g activity)) /\
  calculate_calorie_norm (fconst 75) 175 25 (gender_str Male) 20 None = Ok 2068.
Proof.
  split; [|split].
  - intros w h a gender activity m Hm. apply calorie_override. lia.
  - intros w h a g activity Hw Hh Ha. apply calorie_code; assumption.
  - vm_compute. reflexivity.
Qed.

Lemma C4_calorie_target_witness :
  calculate_calorie_norm (fconst 75) 175 25 (str "male") 20 (Some 2000) = Ok 2000 /\
  valid_weight (fconst 80) = true /\
  calculate_calorie_norm (fconst 80) 180 30 (gender_str Female) 45 None =
    Ok (calorie_target (fconst 80) 180 30 Female 45) /\
  calorie_target (fconst 80) 180 30 Female 45 = 2219.
Proof.
  destruct C4_calorie_target as (Hmanual & Hformula & _).
  split; [apply Hmanual; lia|]. split; [reflexivity|].
  split; [apply Hformula; [reflexivity | lia | lia] | vm_compute; reflexivity].
Defined.


(** ** C5: the hydration target *)

(** C5, as the claim states it, fails: for a weight of 64.1 kg and no
    activity the target is 1922 ml at 20 degrees and 2423 ml at 30 degrees,
    which is 501 ml more and not 500. The product [64.1 * 30] is the float
    just below 1923; adding 500 rounds it up to 2423 exactly. *)
Lemma C5_counterexample :
  parse_number (str "64.1") true = Some (fdec 641 1) /\
  valid_weight (fdec 641 1) = true /\
  calculate_water_norm (fdec 641 1) 0 (Some (fconst 20)) = Ok 1922 /\
  calculate_water_norm (fdec 641 1) 0 (Some (fconst 30)) = Ok 2423 /\
  2423 <> 1922 + 500.
Proof.
  repeat split; try (vm_compute; reflexivity). lia.
Qed.

(** C5, amended: for every weight in [30, 300] and activity in [0, 500],
    [calculate_water_norm] returns [int(w*30 + (a div 30)*500 + heat)], with
    [heat = 500] when the temperature is known and above 25 degrees and 0
    otherwise; the result is non-decreasing in the weight and in the
    activity; and when the temperature goes from at most 25 degrees (or
    unknown) to above 25 the result grows by 500 or by 501. *)
Theorem C5_hydration_target (w : float) (a : Z) (temp : option float) :
  valid_weight w = true -> 0 <= a <= 500 ->
  calculate_water_norm w a temp = Ok (hydration_target w a temp) /\
  (forall w', valid_weight w' = true -> SFleb w w' = true ->
     hydration_target w a temp <= hydration_target w' a temp) /\
  (forall a', a <= a' <= 500 ->
     hydration_target w a temp <= hydration_target w a' temp) /\
  (forall cold hot, exceeds_25 cold = false -> exceeds_25 hot = true ->
     hydration_target w a hot = hydration_target w a cold + 500 \/
     hydration_target w a hot = hydration_target w a cold + 501).
Proof.
  intros Hw Ha. split; [apply hydration_code; assumption|]. split; [|split].
  - intros w' Hw' Hle.
    pose proof (valid_weight_inv w Hw) as (Hf & Hv & _).
    pose proof (valid_weight_inv w' Hw') as (Hf' & Hv' & _).
    apply SFleb_spec in Hle; auto.
    apply hydration_mono; auto; lia.
  - intros a' Ha'. apply hydration_mono; auto; try lia. lra.
  - intros cold hot Hc Hh. apply hydration_heat; assumption.
Qed.

Lemma C5_hydration_target_witness :
  valid_weight (fconst 75) = true /\ 0 <= 45 <= 500 /\
  calculate_water_norm (fconst 75) 45 None = Ok (hydration_target (fconst 75) 45 None) /\
  (forall w', valid_weight w' = true -> SFleb (fconst 75) w' = true ->
     hydration_target (fconst 75) 45 None <= hydration_target w' 45 None) /\
  (forall a', 45 <= a' <= 500 ->
     hydration_target (fconst 75) 45 None <= hydration_target (fconst 75) a' None) /\
  (forall cold hot, exceeds_25 cold = false -> exceeds_25 hot = true ->
     hydration_target (fconst 75) 45 hot = hydration_target (fconst 75) 45 cold + 500 \/
     hydration_target (fconst 75) 45 hot = hydration_target (fconst 75) 45 cold + 501).
Proof.
  split; [reflexivity|]. split; [lia|].
  apply (C5_hydration_target (fconst 75) 45 None); [reflexivity | lia].
Defined.

(** ** C6: recording water *)

(** C6: for every existing profile, a [/drink] message whose second word
    reads as a whole amount in (0, 3000] replaces the profile by one whose
    water consumed is larger by exactly that amount and whose water
    timeline has one more entry, valued at the new total, every other field
    (and every other user and session) being as before; a message with no
    second word, or whose second word does not read as a number or reads as
    an amount outside (0, 3000], leaves the whole state as it was. *)
Theorem C6_record_water (env : Env) (w : World) (user_id : Z) (text : pystr)
    (profile : UserProfile) :
  get_profile w user_id = Some profile ->
  (forall cmd arg rest amount,
     split text = cmd :: arg :: rest ->
     parse_number arg false = Some amount -> 0 < amount <= 3000 ->
     fst (cmd_drink env w user_id text) =
       put_profile w user_id
         (mkUserProfile (weight profile) (height profile) (age profile)
            (gender profile) (activity_minutes profile) (city profile)
            (temperature profile)
            (water_consumed profile + amount)
            (calories_eaten profile) (calories_burned profile)
            (water_target profile) (Bot.calorie_target profile)
            (water_timeline profile ++
               [(current_time env 0, water_consumed profile + amount)])
            (calorie_timeline profile) (workout_timeline profile))) /\
  ((forall cmd arg rest amount,
      split text = cmd :: arg :: rest ->
      parse_number arg false = Some amount -> ~ (0 < amount <= 3000)) ->
   fst (cmd_drink env w user_id text) = w).
Proof.
  intros Hp. split.
  - intros cmd arg rest amount Hs Ha Hr. unfold cmd_drink.
    rewrite Hp, Hs, Ha.
    replace ((amount =? 0) || (amount <=? 0) || (3000 <? amount)) with false
      by (symmetry; rewrite !orb_false_iff; repeat split; lia).
    reflexivity.
  - intros Hno. unfold cmd_drink. rewrite Hp.
    destruct (split text) as [|cmd [|arg rest]] eqn:Hs; try reflexivity.
    destruct (parse_number arg false) as [amount|] eqn:Ha; [|reflexivity].
    specialize (Hno cmd arg rest amount eq_refl Ha).
    replace ((amount =? 0) || (amount <=? 0) || (3000 <? amount)) with true
      by (symmetry; rewrite !orb_true_iff; lia).
    reflexivity.
Qed.

Lemma C6_record_water_witness :
  get_profile after_train user = Some profile_after_train /\
  split (str "/drink 300.7") = [str "/drink"; str "300.7"] /\
  parse_number (str "300.7") false = Some 300 /\
  fst (cmd_drink env0 after_train user (str "/drink 300.7")) =
    put_profile after_train user
      (mkUserProfile (fconst 75) 175 25 (str "male") 20 (str "Moscow") None
         300 0 375 2450 2068
         [(str "12:00", 0); (str "12:00", 300)] [(str "12:00", 0)]
         [(str "12:00", 0); (str "12:00", 375)]).
Proof.
  assert (Hp : get_profile after_train user = Some profile_after_train)
    by (vm_compute; reflexivity).
  assert (Hs : split (str "/drink 300.7") = [str "/drink"; str "300.7"])
    by (vm_compute; reflexivity).
  assert (Ha : parse_number (str "300.7") false = Some 300)
    by (vm_compute; reflexivity).
  split; [exact Hp|]. split; [exact Hs|]. split; [exact Ha|].
  exact (proj1 (C6_record_water env0 after_train user (str "/drink 300.7")
                  profile_after_train Hp)
           (str "/drink") (str "300.7") [] 300 Hs Ha ltac:(lia)).
Defined.

(** ** C7: logging food *)

(** C7: for every existing profile with a pending food entry (a name and a
    valid energy density) and a positive calorie target, a message that
    reads as a whole number of grams in (0, 2000] adds exactly
    floor(kcal_per_100g * grams / 100), computed on floats, to the calories
    eaten, appends one entry valued at the new total to the calorie
    timeline, changes no other field, reports the entry and discards the
    pending entry and state; 150 g at 89.0 kcal per 100 g are 133 kcal. *)
Theorem C7_food_grams (env : Env) (w : World) (user_id : Z) (text : pystr)
    (profile : UserProfile) (name : pystr) (kcal : float) (grams : Z) :
  get_profile w user_id = Some profile ->
  d_product_name (get_data w user_id) = Some name ->
  d_kcal_per_100g (get_data w user_id) = Some kcal ->
  valid_energy kcal = true ->
  parse_number text false = Some grams -> 0 < grams <= 2000 ->
  0 < Bot.calorie_target profile ->
  Z.abs (calories_eaten profile - calories_burned profile) < 2 ^ 52 ->
  let added := food_energy kcal grams in
  let total := calories_eaten profile + added in
  let w' := fst (process_food_grams env w user_id text) in
  get_profile w' user_id =
    Some (mkUserProfile (weight profile) (height profile) (age profile)
            (gender profile) (activity_minutes profile) (city profile)
            (temperature profile) (water_consumed profile)
            total (calories_burned profile)
            (water_target profile) (Bot.calorie_target profile)
            (water_timeline profile)
            (calorie_timeline profile ++ [(current_time env 0, total)])
            (workout_timeline profile)) /\
  get_data w' user_id = no_data /\
  get_state w' user_id = None /\
  (exists pct,
     snd (process_food_grams env w user_id text) =
       Ok [FoodLogged name grams added total (total - calories_burned profile)
             (Bot.calorie_target profile) pct
             (Z.max (Bot.calorie_target profile -
                     (total - calories_burned profile)) 0)]) /\
  0 <= added /\
  food_energy (fdec 890 1) 150 = 133.
Proof.
  intros Hp Hn Hk Hv Hg Hr Ht Hb added total.
  destruct (food_energy_ok kcal grams Hv Hr) as (Hf & Hi & Hlo & Hhi).
  fold added in Hi, Hlo, Hhi.
  destruct (percent_ok (total - calories_burned profile) (Bot.calorie_target profile)
              Ht ltac:(unfold total; lia)) as (Hpct & _).
  assert (process_food_grams env w user_id text =
          (clear (put_profile w user_id
                    (mkUserProfile (weight profile) (height profile) (age profile)
                       (gender profile) (activity_minutes profile) (city profile)
                       (temperature profile) (water_consumed profile)
                       total (calories_burned profile)
                       (water_target profile) (Bot.calorie_target profile)
                       (water_timeline profile)
                       (calorie_timeline profile ++ [(current_time env 0, total)])
                       (workout_timeline profile))) user_id,
           Ok [FoodLogged name grams added total (total - calories_burned profile)
                 (Bot.calorie_target profile)
                 (status_percent (total - calories_burned profile)
                    (Bot.calorie_target profile))
                 (Z.max (Bot.calorie_target profile -
                         (total - calories_burned profile)) 0)])) as Hrun.
  { unfold process_food_grams. rewrite Hp, Hg.
    replace ((grams =? 0) || (grams <=? 0) || (2000 <? grams)) with false
      by (symmetry; rewrite !orb_false_iff; repeat split; lia).
    rewrite Hn, Hk. cbn [item]. cbv beta iota delta [bind].
    rewrite Hf. cbv beta iota. rewrite Hi. cbv beta iota zeta.
    cbn [set_calories_eaten set_calorie_timeline calories_eaten calories_burned
         Bot.calorie_target calorie_timeline weight height age gender
         activity_minutes city temperature water_consumed water_target
         water_timeline workout_timeline].
    fold total. rewrite Hpct. reflexivity. }
  intros w'. subst w'. rewrite Hrun. cbn [fst snd].
  split; [|split; [|split; [|split; [|split]]]].
  - unfold clear. rewrite get_profile_put_session. apply get_profile_put_profile.
  - apply get_data_clear.
  - apply get_state_clear.
  - eexists. reflexivity.
  - exact Hlo.
  - vm_compute. reflexivity.
Qed.

Lemma C7_food_grams_witness :
  get_profile asked_grams user = Some profile_after_train /\
  d_product_name (get_data asked_grams user) = Some (str "Banana") /\
  d_kcal_per_100g (get_data asked_grams user) = Some (fdec 890 1) /\
  valid_energy (fdec 890 1) = true /\
  parse_number (str "150") false = Some 150 /\
  let added := food_energy (fdec 890 1) 150 in
  let total := 0 + added in
  let w' := fst (process_food_grams env0 asked_grams user (str "150")) in
  get_profile w' user =
    Some (mkUserProfile (fconst 75) 175 25 (str "male") 20 (str "Moscow") None
            0 total 375 2450 2068
            [(str "12:00", 0)]
            ([(str "12:00", 0)] ++ [(str "12:00", total)])
            [(str "12:00", 0); (str "12:00", 375)]) /\
  get_data w' user = no_data /\
  get_state w' user = None /\
  (exists pct,
     snd (process_food_grams env0 asked_grams user (str "150")) =
       Ok [FoodLogged (str "Banana") 150 added total (total - 375) 2068 pct
             (Z.max (2068 - (total - 375)) 0)]) /\
  0 <= added /\
  food_energy (fdec 890 1) 150 = 133.
Proof.
  assert (Hp : get_profile asked_grams user = Some profile_after_train)
    by (vm_compute; reflexivity).
  assert (Hn : d_product_name (get_data asked_grams user) = Some (str "Banana"))
    by (vm_compute; reflexivity).
  assert (Hk : d_kcal_per_100g (get_data asked_grams user) = Some (fdec 890 1))
    by (vm_compute; reflexivity).
  assert (Hv : valid_energy (fdec 890 1) = true) by (vm_compute; reflexivity).
  assert (Hg : parse_number (str "150") false = Some 150) by (vm_compute; reflexivity).
  split; [exact Hp|]. split; [exact Hn|]. split; [exact Hk|].
  split; [exact Hv|]. split; [exact Hg|].
  apply (C7_food_grams env0 asked_grams user (str "150") profile_after_train
           (str "Banana") (fdec 890 1) 150 Hp Hn Hk Hv Hg);
    cbn [profile_after_train Bot.calorie_target calories_eaten calories_burned]; lia.
Defined.

(** ** C8: a new day *)

(** C8: for every existing profile, [/reset] sets water consumed, calories
    eaten and calories burned to 0 and makes each of the three timelines
    the single entry (now, 0); the two targets and weight, height, age,
    gender, activity minutes, city and temperature stay as they were, as do
    the other users and all sessions; the reply shows the two targets. *)
Theorem C8_reset_day (env : Env) (w : World) (user_id : Z) (profile : UserProfile) :
  get_profile w user_id = Some profile ->
  cmd_reset env w user_id =
    (put_profile w user_id
       (mkUserProfile (weight profile) (height profile) (age profile)
          (gender profile) (activity_minutes profile) (city profile)
          (temperature profile)
          0 0 0
          (water_target profile) (Bot.calorie_target profile)
          [(current_time env 0, 0)] [(current_time env 1, 0)]
          [(current_time env 2, 0)]),
     Ok [ResetDone (water_target profile) (Bot.calorie_target profile)]).
Proof.
  intros Hp. unfold cmd_reset. rewrite Hp. reflexivity.
Qed.

Lemma C8_reset_day_witness :
  get_profile after_train user = Some profile_after_train /\
  cmd_reset env0 after_train user =
    (put_profile after_train user
       (mkUserProfile (fconst 75) 175 25 (str "male") 20 (str "Moscow") None
          0 0 0 2450 2068
          [(str "12:00", 0)] [(str "12:00", 0)] [(str "12:00", 0)]),
     Ok [ResetDone 2450 2068]).
Proof.
  assert (Hp : get_profile after_train user = Some profile_after_train)
    by (vm_compute; reflexivity).
  split; [exact Hp|].
  exact (C8_reset_day env0 after_train user profile_after_train Hp).
Defined.

(** ** C9: the gender keywords *)

(** C9: [process_gender] looks for the keywords in the stripped,
    lower-cased text, the male ones first: a text containing "муж" or
    "male" is recorded as male and the conversation moves on to the
    activity; otherwise one containing "жен" or "female" is recorded as
    female; otherwise the question is asked again and nothing changes.
    Every text containing "female" contains "male" and is therefore
    recorded as male, the text "female" itself for one. *)
Theorem C9_gender_keywords (w : World) (user_id : Z) (text : pystr) :
  let t := lower (strip text) in
  let w' := fst (process_gender w user_id text) in
  let reply := snd (process_gender w user_id text) in
  (contains kw_muzh t || contains (str "male") t = true ->
     d_gender (get_data w' user_id) = Some (str "male") /\
     get_state w' user_id = Some activity_input /\
     reply = Ok [Prompt activity_input]) /\
  (contains kw_muzh t || contains (str "male") t = false ->
   contains kw_zhen t || contains (str "female") t = true ->
     d_gender (get_data w' user_id) = Some (str "female") /\
     get_state w' user_id = Some activity_input /\
     reply = Ok [Prompt activity_input]) /\
  (contains kw_muzh t || contains (str "male") t = false ->
   contains kw_zhen t || contains (str "female") t = false ->
     w' = w /\ reply = Ok [Retry gender_input]) /\
  (contains (str "female") t = true ->
     d_gender (get_data w' user_id) = Some (str "male")) /\
  d_gender (get_data (fst (process_gender w user_id (str "female"))) user_id) =
    Some (str "male").
Proof.
  intros t w' reply.
  assert (Hmale : contains kw_muzh t || contains (str "male") t = true ->
                  d_gender (get_data w' user_id) = Some (str "male") /\
                  get_state w' user_id = Some activity_input /\
                  reply = Ok [Prompt activity_input]).
  { intros H. subst w' reply. unfold process_gender. fold t. rewrite H. cbn [fst snd].
    rewrite get_data_recorded, get_state_recorded. repeat split. }
  split; [exact Hmale|]. split; [|split; [|split]].
  - intros H1 H2. subst w' reply. unfold process_gender. fold t. rewrite H1, H2.
    cbn [fst snd]. rewrite get_data_recorded, get_state_recorded. repeat split.
  - intros H1 H2. subst w' reply. unfold process_gender. fold t. rewrite H1, H2.
    split; reflexivity.
  - intros H. apply Hmale. apply female_contains_male in H. rewrite H.
    apply orb_true_r.
  - unfold process_gender.
    replace (contains kw_muzh (lower (strip (str "female"))) ||
             contains (str "male") (lower (strip (str "female")))) with true
      by (vm_compute; reflexivity).
    cbn [fst]. rewrite get_data_recorded. reflexivity.
Qed.

Lemma C9_gender_keywords_witness :
  d_gender (get_data (fst (process_gender asked_gender user
                             [1046; 1077; 1085; 1089; 1082; 1080; 1081])) user) =
    Some (str "female") /\
  d_gender (get_data (fst (process_gender asked_gender user (str " Female "))) user) =
    Some (str "male").
Proof.
  split.
  - pose proof (C9_gender_keywords asked_gender user
                  [1046; 1077; 1085; 1089; 1082; 1080; 1081]) as H.
    cbv zeta in H. destruct H as (_ & H & _). apply H; vm_compute; reflexivity.
  - pose proof (C9_gender_keywords asked_gender user (str " Female ")) as H.
    cbv zeta in H. destruct H as (_ & _ & _ & H & _). apply H. vm_compute. reflexivity.
Defined.

(** ** C10: reading numbers *)

(** C10: [parse_number] replaces commas by dots and strips the text, reads
    it with [float] and, for the integer fields, returns the float
    truncated towards zero; it returns None exactly when [float] rejects
    the text or yields an infinity or a NaN. Hence every integer field
    accepts decimal text and drops the fraction: "175.9" is recorded as the
    height 175, and likewise for the age, the activity, the manual calorie
    norm, the water amount, the grams and the minutes of a workout. *)
Theorem C10_parse_number :
  (forall text,
     parse_number text false =
       match py_float (strip (replace_char 44 46 text)) with
       | Ok f => if is_finite f then Some (trunc_float f) else None
       | Raise _ => None
       end) /\
  (forall text,
     parse_number text false = None <->
     (exists e, py_float (strip (replace_char 44 46 text)) = Raise e) \/
     (exists f, py_float (strip (replace_char 44 46 text)) = Ok f /\
                is_finite f = false)) /\
  (forall f, is_finite f = true -> trunc_of (SF2R f) (trunc_float f)) /\
  parse_number (str "175.9") false = Some 175 /\
  parse_number (str " 175,9 ") false = Some 175 /\
  parse_number (str "-2.5") false = Some (-2) /\
  parse_number (str "abc") false = None /\
  d_height (get_data (fst (process_height asked_height user (str "175.9"))) user)
    = Some 175 /\
  d_age (get_data (fst (process_age asked_age user (str "25.9"))) user)
    = Some 25 /\
  d_activity (get_data (fst (process_activity asked_activity user (str "45,5"))) user)
    = Some 45 /\
  snd (process_manual_calories env0 asked_manual user (str "2000.7"))
    = Ok [ProfileReady (str "Moscow") None 2250 2000] /\
  snd (cmd_drink env0 after_train user (str "/drink 300.7"))
    = Ok [DrinkAdded 300 300 2450 12 2150] /\
  snd (process_food_grams env0 asked_grams user (str "150.5"))
    = Ok [FoodLogged (str "Banana") 150 133 133 (-242) 2068 (-11) 2310] /\
  snd (cmd_train env0 after_setup user (str "/train run 30.9"))
    = Ok [TrainLogged (str "run") 30 375 200 2450 (-375)].
Proof.
  assert (Hchar : forall text,
     parse_number text false =
       match py_float (strip (replace_char 44 46 text)) with
       | Ok f => if is_finite f then Some (trunc_float f) else None
       | Raise _ => None
       end).
  { intros text. unfold parse_number.
    destruct (py_float (strip (replace_char 44 46 text))) as [f|e]; [|reflexivity].
    destruct f; reflexivity. }
  split; [exact Hchar|]. split.
  { intros text. rewrite Hchar.
    destruct (py_float (strip (replace_char 44 46 text))) as [f|e].
    - destruct (is_finite f) eqn:Hf; split.
      + discriminate.
      + intros [[e He]|[f' [He Hf']]]; [discriminate|]. injection He as <-. congruence.
      + intros _. right. exists f. split; [reflexivity | exact Hf].
      + reflexivity.
    - split; [|reflexivity]. intros _. left. exists e. reflexivity. }
  split; [exact trunc_float_spec|].
  repeat split; vm_compute; reflexivity.
Qed.

(** * Further facts: parsing, setup, recommendations, reachable states *)

Module MoreFacts.

Import PyFloat PyStr Bot FloatSem FloatFacts Spec FormulaFacts LedgerFacts.
Import Advice Dispatch Orders.

(** ** Floats that [float()] returns *)

Lemma fl_of_valid s q f : fl_of s q f -> valid_binary prec emax f = true.
Proof.
  intros (r & _ & Hres). destruct Hres as [_|p E _ Hb|_]; [reflexivity | exact Hb | reflexivity].
Qed.

Lemma binary_normalize_valid n :
  valid_binary prec emax (binary_normalize prec emax n 0 false) = true.
Proof.
  destruct n as [|p|p]; [reflexivity| |];
    unfold binary_normalize; eapply fl_of_valid, binary_round_spec.
Qed.

Lemma SFdiv_exact_valid a b :
  valid_binary prec emax (SFdiv prec emax (fexact a) (fexact b)) = true.
Proof.
  destruct a as [|p|p], b as [|q|q]; try reflexivity;
    eapply fl_of_valid, SFdiv_finite_spec.
Qed.

Lemma float_of_decimal_valid neg m e10 :
  valid_binary prec emax (float_of_decimal neg m e10) = true.
Proof.
  unfold float_of_decimal. destruct (m =? 0); [reflexivity|].
  destruct (0 <=? e10); [apply binary_normalize_valid | apply SFdiv_exact_valid].
Qed.

Lemma py_float_valid text f :
  py_float text = Ok f -> valid_binary prec emax f = true.
Proof.
  unfold py_float. destruct (negb _); [discriminate|].
  destruct (remove_underscores (strip text)) as [|c t] eqn:Hs.
  - destruct (parse_decimal []) as [[m e]|].
    + intros [= <-]. apply float_of_decimal_valid.
    + destruct (_ || _); [intros [= <-]; reflexivity|].
      destruct (eqb _ _); [intros [= <-]; reflexivity | discriminate].
  - destruct (if c =? 45 then _ else _) as [neg body].
    destruct (parse_decimal body) as [[m e]|].
    + intros [= <-]. apply float_of_decimal_valid.
    + destruct (_ || _); [intros [= <-]; reflexivity|].
      destruct (eqb _ _); [intros [= <-]; reflexivity | discriminate].
Qed.

Lemma parse_float_valid text x :
  parse_number text true = Some x -> valid_binary prec emax x = true.
Proof.
  unfold parse_number.
  destruct (py_float (strip (replace_char 44 46 text))) as [f|e] eqn:Hf; [|discriminate].
  intros [= <-]. eapply py_float_valid, Hf.
Qed.

Lemma f30_ok : fl_ok 30 (fconst 30).
Proof. apply (fconst_ok 30). unfold prec. lia. Qed.

Lemma f300_ok : fl_ok 300 (fconst 300).
Proof. apply (fconst_ok 300). unfold prec. lia. Qed.

(** What the test [not weight or weight < 30 or weight > 300] lets
    through. *)
Lemma weight_check x :
  valid_binary prec emax x = true ->
  is_zero x || flt x (fconst 30) || fgt x (fconst 300) = false <-> weight_ok x.
Proof.
  intros Hv. pose proof f30_ok as (F30 & V30 & _). pose proof f300_ok as (F300 & V300 & _).
  pose proof (fconst_value 30 ltac:(unfold prec; lia)) as E30.
  pose proof (fconst_value 300 ltac:(unfold prec; lia)) as E300.
  split.
  - rewrite !orb_false_iff. intros [[Hz Hlt] Hgt]. unfold flt, fgt in *.
    destruct x as [s|s| |s m e] eqn:Hx; try discriminate.
    + destruct s; vm_compute in Hlt, Hgt; discriminate.
    + left. reflexivity.
    + right. rewrite <- Hx in *. assert (is_finite x = true) as Hf by (subst x; reflexivity).
      unfold valid_weight, is_binary64. rewrite Hf, Hv. cbn [andb].
      apply andb_true_iff. split; apply SFleb_spec; auto.
      * apply Rnot_lt_le. intros H. apply (SFltb_spec x (fconst 30)) in H; auto.
        congruence.
      * apply Rnot_lt_le. intros H. apply (SFltb_spec (fconst 300) x) in H; auto.
        congruence.
  - intros [->|Hw]; [reflexivity|].
    apply valid_weight_inv in Hw as (Hf & _ & H1 & H2).
    rewrite !orb_false_iff. repeat split.
    + destruct x as [s|s| |s m e]; try discriminate; [|reflexivity].
      simpl in H1. lra.
    + unfold flt. destruct (SFltb x (fconst 30)) eqn:E; [|reflexivity].
      apply SFltb_spec in E; auto. rewrite E30 in E. lra.
    + unfold fgt. destruct (SFltb (fconst 300) x) eqn:E; [|reflexivity].
      apply SFltb_spec in E; auto. rewrite E300 in E. lra.
Qed.

(** ** Bounds of the norms *)

Lemma trunc_between f (lo hi : Z) :
  is_finite f = true -> (IZR lo <= SF2R f <= IZR hi)%R -> 0 <= lo ->
  lo <= trunc_float f <= hi.
Proof.
  intros Hf [H1 H2] Hlo. pose proof (trunc_float_spec f Hf) as Ht.
  pose proof (trunc_of_IZR _ _ lo Ht) as [Hl _]. specialize (Hl H1 Hlo).
  split; [exact Hl|]. destruct Ht as [Tp _].
  assert (0 <= SF2R f)%R as H0 by (apply IZR_le in Hlo; lra).
  specialize (Tp H0). assert (IZR (trunc_float f) <= IZR hi)%R as H by lra.
  apply le_IZR in H. exact H.
Qed.

Lemma hydration_bounds w a temp :
  valid_weight w = true -> 0 <= a <= 500 ->
  900 <= hydration_target w a temp <= 17500.
Proof.
  intros Hw Ha.
  pose proof (hydration_steps w (a / 30 * 500) (heat temp) Hw
                (activity_bonus_bounds a Ha) (heat_bounds temp)) as (_ & _ & Hsum & Hin).
  pose proof (heat_bounds temp) as Hh.
  assert (IZR 0 <= IZR (heat temp) <= IZR 500)%R as Hr by (split; apply IZR_le; lia).
  unfold hydration_target. apply trunc_between; [apply Hsum| |lia].
  apply (fl_ok_between _ _ 900 17500 Hsum); [lra | unfold prec; lia | unfold prec; lia].
Qed.

Lemma calorie_bounds w h a g activity :
  valid_weight w = true -> 100 <= h <= 250 -> 10 <= a <= 100 ->
  239 <= calorie_target w h a g activity <= 9410.
Proof.
  intros Hw Hh Ha.
  destruct (calorie_product_ok w h a g activity Hw Hh Ha) as [Hf Hb].
  unfold calorie_target. rewrite floor_trunc; [|exact Hf|lra].
  apply trunc_between; [exact Hf | exact Hb | lia].
Qed.

Lemma sixty_fourth : F2R 1 (-6) = (/ 64)%R.
Proof. unfold F2R, pow2. simpl powerRZ. lra. Qed.

Lemma burn_bounds kind w minutes :
  valid_weight w = true -> 0 < minutes <= 300 ->
  1 <= exercise_burn (WorkoutCalculator.met_of kind) w minutes <= 15000.
Proof.
  intros Hw Hm. destruct (burn_steps kind w minutes Hw ltac:(lia)) as [Hok _].
  destruct (hours_ok minutes ltac:(lia)) as [Hh [_ Hh5]].
  pose proof (valid_weight_inv w Hw) as (Hf & Hv & Hr).
  pose proof (valid_fl_ok w Hf Hv) as Wok.
  destruct (met_of_ok kind) as [Mok Mb].
  destruct (fmul_step _ w _ _ 90 3000 Mok Wok) as [_ Pb];
    [ pose proof (Rmult_between (SF2R (WorkoutCalculator.met_of kind)) (SF2R w) 3 10 30 300
                    ltac:(lra) ltac:(lra) ltac:(lra) ltac:(lra)); lra
    | unfold prec; lia | unfold prec; lia |].
  assert (/ 64 <= SF2R (fdiv (fconst minutes) (fdec 600 1)))%R as Hlo.
  { rewrite <- sixty_fourth.
    apply (rnd_ge_repr _ _ _ _ (fl_ok_rnd _ _ Hh)); [|unfold prec; lia|rewrite emin_eq; lia].
    rewrite sixty_fourth. assert (1 <= IZR minutes)%R by (apply IZR_le; lia). lra. }
  set (P := SF2R (fmul (WorkoutCalculator.met_of kind) w)) in *.
  set (H := SF2R (fdiv (fconst minutes) (fdec 600 1))) in *.
  assert (IZR 1 <= P * H <= IZR 15000)%R as Bq.
  { pose proof (Rmult_between P H 90 3000 (/ 64) 5
                  ltac:(lra) ltac:(lra) ltac:(lra) ltac:(lra)). lra. }
  unfold exercise_burn. apply trunc_between; [apply Hok| |lia].
  apply (fl_ok_between _ _ 1 15000 Hok Bq); unfold prec; lia.
Qed.

Lemma fmul_nan_l y : fmul S754_nan y = S754_nan.
Proof. destruct y; reflexivity. Qed.

Lemma fadd_nan_l y : fadd S754_nan y = S754_nan.
Proof. destruct y; reflexivity. Qed.

(** A NaN weight makes the water norm fail. *)
Lemma water_norm_nan a temp :
  0 <= a <= 500 -> calculate_water_norm S754_nan a temp = Raise ValueError.
Proof.
  intros Ha. unfold calculate_water_norm.
  pose proof (activity_bonus_bounds a Ha) as Hb.
  rewrite float_of_int_ok by (unfold prec; lia). cbv beta iota delta [bind].
  assert (forall v, v = 0 \/ v = 500 ->
            match float_of_int v with
            | Ok hb => py_int (fadd (fadd (fmul S754_nan (fconst 30)) (fconst (a / 30 * 500))) hb)
            | Raise e => Raise e
            end = Raise ValueError) as Hv.
  { intros v [->| ->]; rewrite float_of_int_ok by (unfold prec; lia);
      rewrite fmul_nan_l, !fadd_nan_l; reflexivity. }
  apply Hv. destruct temp as [t|]; [|left; reflexivity].
  destruct (negb (is_zero t) && fgt t (fconst 25)); auto.
Qed.

(** ** The store, continued *)

Lemma put_session_twice w u s s' :
  put_session (put_session w u s) u s' = put_session w u s'.
Proof.
  unfold put_session. cbn [user_database storage]. f_equal. apply insert_insert_eq.
Qed.

Lemma get_session_put_other w u v s :
  u <> v -> get_session (put_session w u s) v = get_session w v.
Proof.
  intros Hne. unfold get_session, put_session. cbn [storage].
  rewrite lookup_insert_ne by exact Hne. reflexivity.
Qed.

Lemma get_session_put_profile w u p v :
  get_session (put_profile w u p) v = get_session w v.
Proof. reflexivity. Qed.

Lemma get_data_update_data w u f :
  get_data (update_data w u f) u = f (get_data w u).
Proof.
  unfold update_data. unfold get_data at 1. rewrite get_session_put_session. reflexivity.
Qed.

(** Storing an answer and moving on is one write to the session. *)
Lemma recorded w u f st :
  set_state (update_data w u f) u st =
  put_session w u (mkSession (Some st) (f (get_data w u))).
Proof.
  unfold set_state. rewrite get_data_update_data. unfold update_data.
  apply put_session_twice.
Qed.

Lemma untouched_refl v w : untouched v w w.
Proof. split; reflexivity. Qed.

Lemma untouched_put_session v u w w' s :
  v <> u -> untouched v w w' -> untouched v w (put_session w' u s).
Proof.
  intros Hne [Hp Hs]. split.
  - rewrite get_profile_put_session. exact Hp.
  - rewrite get_session_put_other by congruence. exact Hs.
Qed.

Lemma untouched_put_profile v u w w' p :
  v <> u -> untouched v w w' -> untouched v w (put_profile w' u p).
Proof.
  intros Hne [Hp Hs]. split.
  - rewrite get_profile_put_other by congruence. exact Hp.
  - rewrite get_session_put_profile. exact Hs.
Qed.

(** ** The end of the setup *)

Lemma is_gender_inv g : is_gender g -> exists G, g = gender_str G.
Proof. intros [->| ->]; [exists Male | exists Female]; reflexivity. Qed.

(** With six valid answers [finalize_profile] stores the profile and ends
    the conversation. *)
Lemma finalize_ok env w u manual x h a g activity c :
  d_weight (get_data w u) = Some x -> d_height (get_data w u) = Some h ->
  d_age (get_data w u) = Some a -> d_gender (get_data w u) = Some (gender_str g) ->
  d_activity (get_data w u) = Some activity -> d_city (get_data w u) = Some c ->
  valid_weight x = true -> 100 <= h <= 250 -> 10 <= a <= 100 ->
  0 <= activity <= 500 ->
  match manual with Some m => 1000 <= m <= 5000 | None => True end ->
  let water_norm := hydration_target x activity (fetch_weather env c) in
  let calorie_norm :=
    match manual with
    | Some m => m
    | None => calorie_target x h a g activity
    end in
  finalize_profile env w u manual =
    (clear (put_profile w u
              (created_profile env x h a (gender_str g) activity c
                 water_norm calorie_norm)) u,
     Ok [ProfileReady c (fetch_weather env c) water_norm calorie_norm]).
Proof.
  intros Dx Dh Da Dg Dact Dc Hx Hh Ha Hact Hm water_norm calorie_norm.
  unfold finalize_profile. rewrite Dx, Dh, Da, Dg, Dact, Dc. cbn [item].
  cbv beta iota delta [bind].
  rewrite (hydration_code x activity (fetch_weather env c) Hx Hact).
  fold water_norm. cbv beta iota.
  assert (calculate_calorie_norm x h a (gender_str g) activity manual = Ok calorie_norm)
    as ->.
  { subst calorie_norm. destruct manual as [m|].
    - apply calorie_override. lia.
    - apply calorie_code; assumption. }
  reflexivity.
Qed.

(** With a NaN weight it fails, and nothing is written. *)
Lemma finalize_nan env w u manual activity c :
  d_weight (get_data w u) = Some S754_nan ->
  d_activity (get_data w u) = Some activity -> d_city (get_data w u) = Some c ->
  0 <= activity <= 500 ->
  finalize_profile env w u manual = (w, Raise ValueError).
Proof.
  intros Dx Dact Dc Hact. unfold finalize_profile. rewrite Dx, Dact, Dc. cbn [item].
  cbv beta iota delta [bind]. rewrite water_norm_nan by exact Hact. reflexivity.
Qed.

(** ** Invariants of the reachable states *)

Lemma values_snoc tl t v : values (tl ++ [(t, v)]) = values tl ++ [v].
Proof. unfold values. rewrite map_app. reflexivity. Qed.

Lemma last_values_snoc tl t v : last (values (tl ++ [(t, v)])) = Some v.
Proof. rewrite values_snoc. apply last_snoc. Qed.

Lemma ascending_snoc strict l y x :
  ascending strict l = true -> last l = Some y ->
  (if strict then y <? x else y <=? x) = true ->
  ascending strict (l ++ [x]) = true.
Proof.
  induction l as [|a [|b l] IH]; intros Hs Hl Hx.
  - discriminate.
  - injection Hl as ->. cbn. rewrite Hx. reflexivity.
  - cbn [ascending] in Hs. apply andb_true_iff in Hs as [Hab Hs].
    change ((a :: b :: l) ++ [x]) with (a :: (b :: l) ++ [x]).
    change ((b :: l) ++ [x]) with (b :: (l ++ [x])) at 1.
    cbn [ascending]. rewrite Hab. cbn [andb].
    change (b :: l ++ [x]) with ((b :: l) ++ [x]). apply IH; auto.
Qed.

Lemma session_ok_cleared : session_ok cleared.
Proof.
  split; [constructor; cbn; intros; lia | cbn; discriminate].
Qed.

Lemma world_ok_initial : world_ok initial.
Proof.
  split.
  - intros u p H. unfold get_profile, initial in H. cbn in H.
    rewrite lookup_empty in H. discriminate.
  - intros u. unfold get_session, initial. cbn. rewrite lookup_empty.
    apply session_ok_cleared.
Qed.

Lemma world_ok_put_session w u s :
  world_ok w -> session_ok s -> world_ok (put_session w u s).
Proof.
  intros [Hp Hs] Hok. split.
  - intros v p. rewrite get_profile_put_session. apply Hp.
  - intros v. destruct (decide (u = v)) as [<-|Hne].
    + rewrite get_session_put_session. exact Hok.
    + rewrite get_session_put_other by exact Hne. apply Hs.
Qed.

Lemma world_ok_put_profile w u p :
  world_ok w -> profile_ok p -> world_ok (put_profile w u p).
Proof.
  intros [Hp Hs] Hok. split.
  - intros v q. destruct (decide (u = v)) as [<-|Hne].
    + rewrite get_profile_put_profile. intros [= <-]. exact Hok.
    + rewrite get_profile_put_other by exact Hne. apply Hp.
  - intros v. rewrite get_session_put_profile. apply Hs.
Qed.

Lemma world_ok_clear w u : world_ok w -> world_ok (clear w u).
Proof. intros H. apply world_ok_put_session; [exact H | apply session_ok_cleared]. Qed.

Lemma stage_of_state w u st :
  get_state w u = Some st ->
  world_ok w -> answers_ok (get_data w u) (setup_stage (Some st)).
Proof.
  intros Hst [_ Hs]. specialize (Hs u). destruct Hs as [Ha _].
  unfold get_state in Hst. unfold get_data. rewrite Hst in Ha. exact Ha.
Qed.

Ltac answers old :=
  cbn [setup_stage] in old;
  destruct old as [A1 A2 A3 A4 A5 A6];
  split;
  [ constructor;
    cbn [d_weight d_height d_age d_gender d_activity d_city setup_stage fsm_state fsm_data];
    intros Hn; try lia;
    first [ apply A1; lia | apply A2; lia | apply A3; lia | apply A4; lia
          | apply A5; lia | apply A6; lia
          | eexists; split; [reflexivity | auto] ]
  | cbn [fsm_state]; discriminate ].

Lemma cmd_setup_ok w u : world_ok w -> world_ok (fst (cmd_setup w u)).
Proof.
  intros H. unfold cmd_setup. cbn [fst]. unfold set_state.
  apply world_ok_put_session; [apply world_ok_clear, H|].
  split; [constructor; cbn; intros; lia | cbn; discriminate].
Qed.

Lemma process_weight_ok w u text :
  world_ok w -> world_ok (fst (process_weight w u text)).
Proof.
  intros H. unfold process_weight.
  destruct (parse_number text true) as [x|] eqn:Hx; [|exact H].
  destruct (is_zero x || flt x (fconst 30) || fgt x (fconst 300)) eqn:Hc; [exact H|].
  pose proof (parse_float_valid text x Hx) as Hv.
  apply (weight_check x Hv) in Hc.
  cbn [fst]. rewrite recorded. apply world_ok_put_session; [exact H|].
  split; [|cbn; discriminate].
  constructor; cbn [d_weight setup_stage fsm_state fsm_data]; intros Hn; try lia.
  eexists; split; [reflexivity | exact Hc].
Qed.

Lemma process_height_ok w u text :
  get_state w u = Some height_input ->
  world_ok w -> world_ok (fst (process_height w u text)).
Proof.
  intros Hst H. pose proof (stage_of_state w u _ Hst H) as Hold.
  unfold process_height.
  destruct (parse_number text false) as [h|]; [|exact H].
  destruct ((h =? 0) || (h <? 100) || (250 <? h)) eqn:Hc; [exact H|].
  rewrite !orb_false_iff in Hc. cbn [fst]. rewrite recorded.
  apply world_ok_put_session; [exact H|]. answers Hold. lia.
Qed.

Lemma process_age_ok w u text :
  get_state w u = Some age_input ->
  world_ok w -> world_ok (fst (process_age w u text)).
Proof.
  intros Hst H. pose proof (stage_of_state w u _ Hst H) as Hold.
  unfold process_age.
  destruct (parse_number text false) as [a|]; [|exact H].
  destruct ((a =? 0) || (a <? 10) || (100 <? a)) eqn:Hc; [exact H|].
  rewrite !orb_false_iff in Hc. cbn [fst]. rewrite recorded.
  apply world_ok_put_session; [exact H|]. answers Hold. lia.
Qed.

Lemma process_gender_ok w u text :
  get_state w u = Some gender_input ->
  world_ok w -> world_ok (fst (process_gender w u text)).
Proof.
  intros Hst H. pose proof (stage_of_state w u _ Hst H) as Hold.
  unfold process_gender.
  destruct (contains kw_muzh _ || contains (str "male") _).
  - cbn [fst]. rewrite recorded. apply world_ok_put_session; [exact H|].
    answers Hold. left. reflexivity.
  - destruct (contains kw_zhen _ || contains (str "female") _); [|exact H].
    cbn [fst]. rewrite recorded. apply world_ok_put_session; [exact H|].
    answers Hold. right. reflexivity.
Qed.

Lemma process_activity_ok w u text :
  get_state w u = Some activity_input ->
  world_ok w -> world_ok (fst (process_activity w u text)).
Proof.
  intros Hst H. pose proof (stage_of_state w u _ Hst H) as Hold.
  unfold process_activity.
  destruct (parse_number text false) as [a|]; [|exact H].
  destruct ((a <? 0) || (500 <? a)) eqn:Hc; [exact H|].
  rewrite !orb_false_iff in Hc. cbn [fst]. rewrite recorded.
  apply world_ok_put_session; [exact H|]. answers Hold. lia.
Qed.

Lemma process_city_ok w u text :
  get_state w u = Some city_input ->
  world_ok w -> world_ok (fst (process_city w u text)).
Proof.
  intros Hst H. pose proof (stage_of_state w u _ Hst H) as Hold.
  unfold process_city.
  destruct (length (strip text) <? 2)%nat eqn:Hc; [exact H|].
  apply Nat.ltb_ge in Hc. cbn [fst]. rewrite recorded.
  apply world_ok_put_session; [exact H|]. answers Hold.
Qed.

Lemma created_profile_ok env x h a g activity c water_norm calorie_norm :
  valid_weight x = true -> 100 <= h <= 250 -> 10 <= a <= 100 -> is_gender g ->
  0 <= activity <= 500 -> (2 <= length c)%nat ->
  900 <= water_norm -> 239 <= calorie_norm ->
  profile_ok (created_profile env x h a g activity c water_norm calorie_norm).
Proof.
  intros. constructor; cbn; auto; lia.
Qed.

(** In the last two setup states [finalize_profile] either stores a valid
    profile and clears the session, or finds a NaN weight and fails with
    nothing changed; no answer is ever missing. *)
Lemma finalize_cases env w u manual :
  world_ok w -> setup_stage (get_state w u) = 6%nat ->
  match manual with Some m => 1000 <= m <= 5000 | None => True end ->
  (exists p, profile_ok p /\
     finalize_profile env w u manual =
       (clear (put_profile w u p) u,
        Ok [ProfileReady (city p) (temperature p) (water_target p)
              (Bot.calorie_target p)])) \/
  (d_weight (get_data w u) = Some S754_nan /\
   finalize_profile env w u manual = (w, Raise ValueError)).
Proof.
  intros [_ Hs] Hst Hm. specialize (Hs u). destruct Hs as [Ha _].
  unfold get_state in Hst. rewrite Hst in Ha. fold (get_data w u) in Ha.
  destruct Ha as [A1 A2 A3 A4 A5 A6].
  destruct (A1 ltac:(lia)) as (x & Dx & Hx). destruct (A2 ltac:(lia)) as (h & Dh & Hh).
  destruct (A3 ltac:(lia)) as (a & Da & Hage). destruct (A4 ltac:(lia)) as (g & Dg & Hg).
  destruct (A5 ltac:(lia)) as (act & Dact & Hact). destruct (A6 ltac:(lia)) as (c & Dc & Hc).
  destruct Hx as [->|Hx].
  - right. split; [exact Dx|]. eapply finalize_nan; eauto.
  - left. destruct (is_gender_inv g Hg) as [G ->].
    pose proof (finalize_ok env w u manual x h a G act c Dx Dh Da Dg Dact Dc Hx Hh Hage
                  Hact Hm) as Hfin. cbv zeta in Hfin.
    eexists. split; [|exact Hfin].
    apply created_profile_ok; auto.
    + apply hydration_bounds; assumption.
    + destruct manual as [m|]; [lia | apply calorie_bounds; assumption].
Qed.

Lemma finalize_world_ok env w u manual :
  world_ok w -> setup_stage (get_state w u) = 6%nat ->
  match manual with Some m => 1000 <= m <= 5000 | None => True end ->
  world_ok (fst (finalize_profile env w u manual)).
Proof.
  intros H Hst Hm.
  destruct (finalize_cases env w u manual H Hst Hm) as [(p & Hp & ->)|[_ ->]]; cbn [fst].
  - apply world_ok_clear, world_ok_put_profile; assumption.
  - exact H.
Qed.

Lemma process_manual_choice_ok env w u text :
  get_state w u = Some manual_calories_choice ->
  world_ok w -> world_ok (fst (process_manual_choice env w u text)).
Proof.
  intros Hst H. unfold process_manual_choice.
  destruct (contains kw_da _ || contains (str "yes") _).
  - cbn [fst]. unfold set_state. apply world_ok_put_session; [exact H|].
    pose proof (stage_of_state w u _ Hst H) as Hold.
    split; [exact Hold | cbn; discriminate].
  - destruct (contains kw_net _ || contains (str "no") _); [|exact H].
    apply finalize_world_ok; [exact H | rewrite Hst; reflexivity | exact I].
Qed.

Lemma process_manual_calories_ok env w u text :
  get_state w u = Some manual_calories_input ->
  world_ok w -> world_ok (fst (process_manual_calories env w u text)).
Proof.
  intros Hst H. unfold process_manual_calories.
  destruct (parse_number text false) as [m|]; [|exact H].
  destruct ((m =? 0) || (m <? 1000) || (5000 <? m)) eqn:Hc; [exact H|].
  rewrite !orb_false_iff in Hc.
  apply finalize_world_ok; [exact H | rewrite Hst; reflexivity | lia].
Qed.

Lemma cmd_cancel_ok w u : world_ok w -> world_ok (fst (cmd_cancel w u)).
Proof.
  intros H. unfold cmd_cancel. destruct (get_state w u); [|exact H].
  apply world_ok_clear, H.
Qed.

Lemma cmd_drink_ok env w u text : world_ok w -> world_ok (fst (cmd_drink env w u text)).
Proof.
  intros H. unfold cmd_drink. destruct (get_profile w u) as [p|] eqn:Hp; [|exact H].
  destruct (split text) as [|cmd [|arg rest]]; try exact H.
  destruct (parse_number arg false) as [amount|]; [|exact H].
  destruct ((amount =? 0) || (amount <=? 0) || (3000 <? amount)) eqn:Hc; [exact H|].
  rewrite !orb_false_iff in Hc. cbn [fst].
  apply world_ok_put_profile; [exact H|].
  destruct H as [Hdb _]. destruct (Hdb u p Hp). constructor; cbn; auto; try lia.
  - apply last_values_snoc.
  - rewrite values_snoc. eapply ascending_snoc; eauto. lia.
Qed.

Lemma cmd_eat_ok env w u text : world_ok w -> world_ok (fst (cmd_eat env w u text)).
Proof.
  intros H. unfold cmd_eat. destruct (get_profile w u) as [p|]; [|exact H].
  destruct (split_max1 text) as [|cmd [|arg rest]]; try exact H.
  destruct (search_food_calories env (strip arg)) as [[name kcal]|]; [|exact H].
  cbn [fst]. rewrite recorded. apply world_ok_put_session; [exact H|].
  split; [constructor; cbn; intros; lia|].
  intros _. cbn. eauto.
Qed.

Lemma process_food_grams_ok env w u text :
  world_ok w -> world_ok (fst (process_food_grams env w u text)).
Proof.
  intros H. unfold process_food_grams.
  destruct (get_profile w u) as [p|] eqn:Hp; [|apply world_ok_clear, H].
  destruct (parse_number text false) as [grams|]; [|exact H].
  destruct ((grams =? 0) || (grams <=? 0) || (2000 <? grams)); [exact H|].
  match goal with |- context [match ?e with Ok _ => _ | Raise _ => _ end] =>
    destruct e as [[name added]|e'] end; [|exact H].
  assert (profile_ok
            (set_calorie_timeline
               (calorie_timeline (set_calories_eaten (calories_eaten p + added) p) ++
                  [(current_time env 0,
                    calories_eaten (set_calories_eaten (calories_eaten p + added) p))])
               (set_calories_eaten (calories_eaten p + added) p))) as Hnew.
  { destruct H as [Hdb _]. destruct (Hdb u p Hp). constructor; cbn; auto.
    apply last_values_snoc. }
  cbv zeta. destruct (percent _ _); cbn [fst].
  - apply world_ok_clear, world_ok_put_profile; assumption.
  - apply world_ok_put_profile; assumption.
Qed.

Lemma cmd_train_ok env w u text : world_ok w -> world_ok (fst (cmd_train env w u text)).
Proof.
  intros H. unfold cmd_train. destruct (get_profile w u) as [p|] eqn:Hp; [|exact H].
  destruct (split text) as [|cmd [|kind [|arg rest]]]; try exact H.
  destruct (parse_number arg false) as [duration|]; [|exact H].
  destruct ((duration =? 0) || (duration <=? 0) || (300 <? duration)) eqn:Hc; [exact H|].
  rewrite !orb_false_iff in Hc.
  pose proof H as [Hdb _]. destruct (Hdb u p Hp).
  rewrite burn_code by (auto; lia).
  pose proof (burn_bounds (strip kind) (weight p) duration ok_weight0 ltac:(lia)) as Hb.
  assert (0 <= WorkoutCalculator.water_bonus duration) as Hbonus.
  { unfold WorkoutCalculator.water_bonus.
    pose proof (Z.div_pos duration 30 ltac:(lia) ltac:(lia)). lia. }
  cbn [fst]. apply world_ok_put_profile; [exact H|].
  constructor; cbn; auto; try lia.
  - apply last_values_snoc.
  - rewrite values_snoc. eapply ascending_snoc; eauto. cbn. lia.
Qed.

Lemma cmd_status_same w u : fst (cmd_status w u) = w.
Proof. unfold cmd_status. destruct (get_profile w u); reflexivity. Qed.

Lemma cmd_charts_same w u : fst (cmd_charts w u) = w.
Proof.
  unfold cmd_charts. destruct (get_profile w u); [|reflexivity].
  destruct (_ && _); reflexivity.
Qed.

Lemma cmd_tips_same w u : fst (cmd_tips w u) = w.
Proof. unfold cmd_tips. destruct (get_profile w u); reflexivity. Qed.

Lemma cmd_reset_ok env w u : world_ok w -> world_ok (fst (cmd_reset env w u)).
Proof.
  intros H. unfold cmd_reset. destruct (get_profile w u) as [p|] eqn:Hp; [|exact H].
  cbn [fst]. apply world_ok_put_profile; [exact H|].
  destruct H as [Hdb _]. destruct (Hdb u p Hp). constructor; cbn; auto; lia.
Qed.

Lemma step_world_ok u w w' : world_ok w -> step u w w' -> world_ok w'.
Proof.
  intros H Hstep. destruct Hstep;
    try rewrite cmd_status_same; try rewrite cmd_charts_same; try rewrite cmd_tips_same;
    auto using cmd_setup_ok, process_weight_ok, process_height_ok, process_age_ok,
      process_gender_ok, process_activity_ok, process_city_ok, process_manual_choice_ok,
      process_manual_calories_ok, cmd_cancel_ok, cmd_drink_ok, cmd_eat_ok,
      process_food_grams_ok, cmd_train_ok, cmd_reset_ok.
Qed.

Lemma reachable_world_ok w : reachable w -> world_ok w.
Proof.
  induction 1 as [|u w w' _ IH Hstep]; [apply world_ok_initial|].
  eapply step_world_ok; eauto.
Qed.

(** ** A handler run concerns one user *)

Ltac split_cases :=
  repeat match goal with
         | |- context [match ?x with _ => _ end] => destruct x
         | |- context [if ?b then _ else _] => destruct b
         end.

Ltac frame Hne :=
  cbv zeta; cbn [fst];
  unfold set_state, update_data, clear;
  repeat first [ apply untouched_refl
               | apply untouched_put_session; [exact Hne|]
               | apply untouched_put_profile; [exact Hne|] ].

Lemma finalize_untouched env w u manual v :
  v <> u -> untouched v w (fst (finalize_profile env w u manual)).
Proof.
  intros Hne. unfold finalize_profile.
  match goal with |- context [match ?e with Ok _ => _ | Raise _ => _ end] =>
    destruct e end; frame Hne.
Qed.

Lemma step_untouched u w w' v :
  step u w w' -> v <> u -> untouched v w w'.
Proof.
  intros Hstep Hne. destruct Hstep;
    try rewrite cmd_status_same; try rewrite cmd_charts_same; try rewrite cmd_tips_same;
    try apply untouched_refl.
  - unfold cmd_setup. frame Hne.
  - unfold process_weight. split_cases; frame Hne.
  - unfold process_height. split_cases; frame Hne.
  - unfold process_age. split_cases; frame Hne.
  - unfold process_gender. split_cases; frame Hne.
  - unfold process_activity. split_cases; frame Hne.
  - unfold process_city. split_cases; frame Hne.
  - unfold process_manual_choice.
    destruct (_ || _); [frame Hne|]. destruct (_ || _); [|frame Hne].
    apply finalize_untouched, Hne.
  - unfold process_manual_calories.
    destruct (parse_number text false); [|frame Hne].
    destruct (_ || _); [frame Hne|]. apply finalize_untouched, Hne.
  - unfold cmd_cancel. split_cases; frame Hne.
  - unfold cmd_drink. destruct (get_profile w u); [|frame Hne].
    destruct (split text) as [|? [|? ?]]; try frame Hne.
    destruct (parse_number _ false); [|frame Hne]. destruct (_ || _); frame Hne.
  - unfold cmd_eat. destruct (get_profile w u); [|frame Hne].
    destruct (split_max1 text) as [|? [|? ?]]; try frame Hne.
    destruct (search_food_calories env _) as [[? ?]|]; frame Hne.
  - unfold process_food_grams. destruct (get_profile w u); [|frame Hne].
    destruct (parse_number text false); [|frame Hne]. destruct (_ || _); [frame Hne|].
    match goal with |- context [match ?e with Ok _ => _ | Raise _ => _ end] =>
      destruct e as [[? ?]|?] end; [|frame Hne].
    cbv zeta. destruct (percent _ _); frame Hne.
  - unfold cmd_train. destruct (get_profile w u); [|frame Hne].
    destruct (split text) as [|? [|? [|? ?]]]; try frame Hne.
    destruct (parse_number _ false); [|frame Hne]. destruct (_ || _); [frame Hne|].
    destruct (WorkoutCalculator.calculate_burned _ _ _); frame Hne.
  - unfold cmd_reset. destruct (get_profile w u); frame Hne.
Qed.

(** ** The sample conversations are runs of the dispatcher *)

Ltac run_step c :=
  eapply reach_step; [| eapply c; vm_compute; reflexivity].

Lemma asked_manual_reachable : reachable Scenario.asked_manual.
Proof.
  unfold Scenario.asked_manual. run_step step_city.
  unfold Scenario.asked_city. run_step step_activity.
  unfold Scenario.asked_activity. run_step step_gender.
  unfold Scenario.asked_gender. run_step step_age.
  unfold Scenario.asked_age. run_step step_height.
  unfold Scenario.asked_height. run_step step_weight.
  eapply reach_step; [apply reach_initial | apply step_setup].
Qed.

Lemma after_setup_reachable : reachable Scenario.after_setup.
Proof.
  unfold Scenario.after_setup. run_step step_manual_choice.
  apply asked_manual_reachable.
Qed.

Lemma after_train_reachable : reachable Scenario.after_train.
Proof.
  unfold Scenario.after_train.
  eapply reach_step; [apply after_setup_reachable | apply step_train].
Qed.

Lemma nan_asked_manual_reachable : reachable NanScenario.asked_manual.
Proof.
  unfold NanScenario.asked_manual. cbv zeta.
  run_step step_city. run_step step_activity. run_step step_gender.
  run_step step_age. run_step step_height.
  unfold NanScenario.asked_height. run_step step_weight.
  eapply reach_step; [apply reach_initial | apply step_setup].
Qed.

(** ** The weight question, over the reals *)

Lemma valid_weight_iff x :
  valid_binary prec emax x = true ->
  valid_weight x = true <-> is_finite x = true /\ (30 <= SF2R x <= 300)%R.
Proof.
  intros Hv. split.
  - intros H. apply valid_weight_inv in H as (Hf & _ & Hr). auto.
  - intros [Hf [H1 H2]].
    pose proof f30_ok as (F30 & V30 & _). pose proof f300_ok as (F300 & V300 & _).
    unfold valid_weight, is_binary64. rewrite Hf, Hv. cbn [andb].
    apply andb_true_iff. split; apply SFleb_spec; auto;
      rewrite fconst_value by (unfold prec; lia); assumption.
Qed.

Lemma process_weight_cases w u text :
  match parse_number text true with
  | Some x =>
      if is_zero x || flt x (fconst 30) || fgt x (fconst 300)
      then process_weight w u text = (w, Ok [Retry weight_input])
      else snd (process_weight w u text) = Ok [Prompt height_input] /\
           d_weight (get_data (fst (process_weight w u text)) u) = Some x /\
           get_state (fst (process_weight w u text)) u = Some height_input
  | None => process_weight w u text = (w, Ok [Retry weight_input])
  end.
Proof.
  unfold process_weight. destruct (parse_number text true) as [x|]; [|reflexivity].
  destruct (is_zero x || flt x (fconst 30) || fgt x (fconst 300)); [reflexivity|].
  cbn [fst snd]. rewrite get_data_recorded, get_state_recorded. repeat split.
Qed.

(** ** Integer division through floats *)

Lemma F2R_sixteenth k : F2R k (-4) = (IZR k / 16)%R.
Proof. unfold F2R, pow2. simpl powerRZ. lra. Qed.

(** [int(n / 10)] is the quotient of [n] by 10, rounded towards zero. *)
Lemma int_div10 n :
  Z.abs n < 2 ^ 52 ->
  exists q, int_truediv n 10 = Ok q /\ py_int q = Ok (Z.quot n 10).
Proof.
  intros Hn. destruct (int_truediv_ok n 10 ltac:(lia) ltac:(lia)) as [Hq Qok].
  exists (fdiv (fexact n) (fexact 10)). split; [exact Hq|].
  rewrite py_int_ok by apply Qok. f_equal.
  set (f := fdiv (fexact n) (fexact 10)) in *.
  pose proof (trunc_float_spec f (fl_ok_finite _ _ Qok)) as [Tp Tn].
  pose proof (Z.quot_rem' n 10) as Hdiv.
  pose proof (fl_ok_rnd _ _ Qok) as Hr.
  destruct (Z_le_gt_dec 0 n) as [H0|H0].
  - pose proof (Z.rem_bound_pos n 10 H0 ltac:(lia)) as Hrem.
    pose proof (Z.quot_pos n 10 H0 ltac:(lia)) as Hq0.
    assert (IZR n = 10 * IZR (n ÷ 10) + IZR (Z.rem n 10))%R as E
      by (rewrite <- mult_IZR, <- plus_IZR; f_equal; lia).
    assert (0 <= IZR (Z.rem n 10) <= 9)%R as Rr by (split; apply IZR_le; lia).
    assert (IZR (n ÷ 10) <= SF2R f)%R as Lo.
    { apply (rnd_ge_IZR _ _ _ Hr); [rewrite E; lra | unfold prec; lia]. }
    assert (SF2R f <= F2R (16 * (n ÷ 10) + 15) (-4))%R as Hi.
    { apply (rnd_le_repr _ _ _ _ Hr); [|unfold prec; lia|rewrite emin_eq; lia].
      rewrite F2R_sixteenth, plus_IZR, mult_IZR, E. lra. }
    rewrite F2R_sixteenth, plus_IZR, mult_IZR in Hi.
    assert (0 <= IZR (n ÷ 10))%R as Q0 by (apply IZR_le; lia).
    specialize (Tp ltac:(lra)).
    assert (IZR (trunc_float f) < IZR (n ÷ 10 + 1))%R as U by (rewrite plus_IZR; lra).
    assert (IZR (n ÷ 10) < IZR (trunc_float f + 1))%R as L by (rewrite plus_IZR; lra).
    apply lt_IZR in U, L. lia.
  - assert (-10 < Z.rem n 10 <= 0) as Hrem.
    { pose proof (Z.rem_bound_pos (- n) 10 ltac:(lia) ltac:(lia)) as H.
      rewrite Z.rem_opp_l in H by lia. lia. }
    assert (n ÷ 10 <= 0) as Hq0 by lia.
    assert (IZR n = 10 * IZR (n ÷ 10) + IZR (Z.rem n 10))%R as E
      by (rewrite <- mult_IZR, <- plus_IZR; f_equal; lia).
    assert (-9 <= IZR (Z.rem n 10) <= 0)%R as Rr by (split; apply IZR_le; lia).
    assert (SF2R f <= IZR (n ÷ 10))%R as Hi.
    { apply (rnd_le_IZR _ _ _ Hr); [rewrite E; lra | unfold prec; lia]. }
    assert (F2R (16 * (n ÷ 10) - 15) (-4) <= SF2R f)%R as Lo.
    { apply (rnd_ge_repr _ _ _ _ Hr); [|unfold prec; lia|rewrite emin_eq; lia].
      rewrite F2R_sixteenth, minus_IZR, mult_IZR, E. lra. }
    rewrite F2R_sixteenth, minus_IZR, mult_IZR in Lo.
    assert (IZR (n ÷ 10) <= 0)%R as Q0 by (apply IZR_le; lia).
    specialize (Tn ltac:(lra)).
    assert (IZR (trunc_float f - 1) < IZR (n ÷ 10))%R as U by (rewrite minus_IZR; lra).
    assert (IZR (n ÷ 10 - 1) < IZR (trunc_float f))%R as L by (rewrite minus_IZR; lra).
    apply lt_IZR in U, L. lia.
Qed.

Lemma progress_bar_quot pct :
  Z.abs pct < 2 ^ 52 ->
  progress_bar pct = Ok (mkBar (Z.to_nat (pct ÷ 10)) (Z.to_nat (10 - pct ÷ 10))).
Proof.
  intros Hp. destruct (int_div10 pct Hp) as (q & Hq & Hi).
  unfold progress_bar. rewrite Hq. cbv beta iota delta [bind]. rewrite Hi. reflexivity.
Qed.

Lemma status_run p :
  profile_ok p -> water_consumed p < 2 ^ 53 ->
  Z.abs (calories_eaten p - calories_burned p) < 2 ^ 53 ->
  let wp := status_percent (water_consumed p) (water_target p) in
  let cp := status_percent (calories_eaten p - calories_burned p) (Bot.calorie_target p) in
  0 <= wp <= 100 /\
  exists cbar,
    progress_bar cp = Ok cbar /\
    (0 <= calories_eaten p - calories_burned p ->
     cbar = mkBar (Z.to_nat (cp / 10)) (Z.to_nat (10 - cp / 10)) /\ 0 <= cp <= 100) /\
    forall w u, get_profile w u = Some p ->
    cmd_status w u =
      (w, Ok [StatusMessage
                (mkStatus (mkBar (Z.to_nat (wp / 10)) (Z.to_nat (10 - wp / 10))) wp
                   (water_consumed p) (water_target p)
                   (Z.max (water_target p - water_consumed p) 0)
                   cbar cp (calories_eaten p) (calories_burned p)
                   (calories_eaten p - calories_burned p) (Bot.calorie_target p)
                   (Z.max (Bot.calorie_target p -
                           (calories_eaten p - calories_burned p)) 0))]).
Proof.
  intros Hok Hwc Hbal wp cp. destruct Hok.
  destruct (percent_ok (water_consumed p) (water_target p) ltac:(lia) ltac:(lia))
    as (Pw & Bw & Pos_w & _).
  destruct (percent_ok (calories_eaten p - calories_burned p) (Bot.calorie_target p)
              ltac:(lia) Hbal) as (Pc & Bc & Pos_c & _).
  fold wp in Pw, Bw, Pos_w. fold cp in Pc, Bc, Pos_c.
  specialize (Pos_w ok_water_consumed0).
  split; [lia|].
  destruct (progress_bar_ok cp ltac:(lia)) as [cbar Hc].
  exists cbar. split; [exact Hc|]. split.
  - intros Hb. specialize (Pos_c Hb). split; [|lia].
    rewrite progress_bar_quot in Hc by lia.
    rewrite Z.quot_div_nonneg in Hc by lia. congruence.
  - intros w u Hp. unfold cmd_status. rewrite Hp, Pw, Pc. cbv beta iota delta [bind].
    rewrite Hc, progress_bar_quot by lia. rewrite Z.quot_div_nonneg by lia. reflexivity.
Qed.

(** ** Recommendations *)

Lemma walk_met :
  match dict_get kw_walk WorkoutCalculator.MET_VALUES with
  | Some m => m
  | None => fdec 45 1
  end = fdec 45 1.
Proof. vm_compute. reflexivity. Qed.

Lemma f45_ok : fl_ok (9 / 2) (fdec 45 1) /\ SF2R (fdec 45 1) = (9 / 2)%R.
Proof.
  pose proof (fdec_ok 45 1 ltac:(lia) ltac:(unfold prec; lia)) as H.
  replace (IZR 45 / IZR (10 ^ 1))%R with (9 / 2)%R in H by (simpl; lra).
  split; [exact H|].
  replace (9 / 2)%R with (F2R 9 (-1)) in * by (unfold F2R, pow2; simpl; lra).
  apply rnd_exact; [unfold prec; lia | rewrite emin_eq; lia | apply H].
Qed.

Lemma f60c_value : SF2R (fconst 60) = 60%R.
Proof. apply (fconst_value 60). unfold prec. lia. Qed.

(** The pace of a walk, in kcal per minute, for a validated weight. *)
Lemma pace_ok w :
  valid_weight w = true ->
  let pace := fdiv (fmul (fdec 45 1) w) (fconst 60) in
  fl_ok (SF2R (fmul (fdec 45 1) w) / 60) pace /\ (2 <= SF2R pace <= 23)%R.
Proof.
  intros Hw pace. apply valid_weight_inv in Hw as (Hf & Hv & Hr).
  pose proof (valid_fl_ok w Hf Hv) as Wok. destruct f45_ok as [Mok Mv].
  assert (IZR 135 <= SF2R (fdec 45 1) * SF2R w <= IZR 1350)%R as Bp by (rewrite Mv; lra).
  destruct (fmul_step _ _ _ _ 135 1350 Mok Wok Bp
              ltac:(unfold prec; lia) ltac:(unfold prec; lia)) as [Pok Pb].
  pose proof (fconst_ok 60 ltac:(unfold prec; lia)) as C60.
  assert (fl_ok (SF2R (fmul (fdec 45 1) w) / 60) pace) as H.
  { subst pace. rewrite <- f60c_value. apply SFdiv_ok'; try apply Pok; try apply C60.
    - rewrite f60c_value. lra.
    - rewrite f60c_value. apply (Rabs_le_emax _ 2 23); [lra | lia | lia]. }
  split; [exact H|].
  apply (fl_ok_between _ _ 2 23 H); [lra | unfold prec; lia | unfold prec; lia].
Qed.

Lemma walking_minutes_ok excess w :
  valid_weight w = true -> 300 < excess < 2 ^ 53 ->
  exists t, walking_minutes excess w = Ok t /\ 13 <= t <= excess.
Proof.
  intros Hw He. destruct (pace_ok w Hw) as [Pok Pb].
  set (pace := fdiv (fmul (fdec 45 1) w) (fconst 60)) in *.
  unfold walking_minutes. rewrite walk_met. fold pace.
  rewrite float_of_int_ok by (unfold prec; lia). cbv beta iota delta [bind].
  pose proof (fconst_ok excess ltac:(unfold prec; lia)) as Eok.
  pose proof (fconst_value excess ltac:(unfold prec; lia)) as Ev.
  assert (is_zero pace = false) as Hz.
  { destruct pace eqn:E; try reflexivity. simpl in Pb. lra. }
  unfold truediv. rewrite Hz.
  assert (IZR 301 <= IZR excess)%R as E301 by (apply IZR_le; lia).
  assert (IZR 13 <= SF2R (fconst excess) / SF2R pace <= IZR excess)%R as Bq.
  { rewrite Ev. split.
    - apply Rle_trans with (IZR excess / 23)%R; [lra|].
      unfold Rdiv. apply Rmult_le_compat_l; [lra|].
      apply Rinv_le_contravar; lra.
    - apply Rle_trans with (IZR excess / 1)%R; [|lra].
      unfold Rdiv. apply Rmult_le_compat_l; [lra|].
      apply Rinv_le_contravar; lra. }
  assert (fl_ok (SF2R (fconst excess) / SF2R pace) (fdiv (fconst excess) pace)) as Qok.
  { apply SFdiv_ok'; try apply Eok; try apply Pok; [lra|].
    apply (Rabs_le_emax _ 13 excess Bq); lia. }
  pose proof (fl_ok_between _ _ 13 excess Qok Bq
                ltac:(unfold prec; lia) ltac:(unfold prec; lia)) as Qb.
  eexists. split; [apply py_int_ok, Qok|].
  apply trunc_between; [apply Qok | exact Qb | lia].
Qed.

Lemma calorie_advice_cases p :
  valid_weight (weight p) = true ->
  let balance := calories_eaten p - calories_burned p in
  let target := Bot.calorie_target p in
  (target + 300 < balance -> balance - target < 2 ^ 53 ->
   exists t, calorie_advice p = Ok (WalkOff (balance - target) t) /\
             13 <= t <= balance - target) /\
  (target <= balance <= target + 300 -> calorie_advice p = Ok GoalReached) /\
  (target - 300 <= balance < target ->
   calorie_advice p = Ok (NearlyThere (target - balance))) /\
  (balance < target - 300 -> calorie_advice p = Ok (Snack (target - balance))).
Proof.
  intros Hw balance target. unfold calorie_advice. fold balance target.
  split; [|split; [|split]].
  - intros H Hb.
    replace (target + 300 <? balance) with true by (symmetry; apply Z.ltb_lt; lia).
    destruct (walking_minutes_ok (balance - target) (weight p) Hw ltac:(lia))
      as (t & -> & Ht).
    exists t. split; [reflexivity | exact Ht].
  - intros H.
    replace (target + 300 <? balance) with false by (symmetry; apply Z.ltb_ge; lia).
    replace (300 <? target - balance) with false by (symmetry; apply Z.ltb_ge; lia).
    replace (0 <? target - balance) with false by (symmetry; apply Z.ltb_ge; lia).
    reflexivity.
  - intros H.
    replace (target + 300 <? balance) with false by (symmetry; apply Z.ltb_ge; lia).
    replace (300 <? target - balance) with false by (symmetry; apply Z.ltb_ge; lia).
    replace (0 <? target - balance) with true by (symmetry; apply Z.ltb_lt; lia).
    reflexivity.
  - intros H.
    replace (target + 300 <? balance) with false by (symmetry; apply Z.ltb_ge; lia).
    replace (300 <? target - balance) with true by (symmetry; apply Z.ltb_lt; lia).
    reflexivity.
Qed.

(** ** The calorie norm grows with the body *)

Lemma basal_steps w h a g :
  valid_weight w = true -> 100 <= h <= 250 -> 10 <= a <= 100 ->
  let t1 := fmul (fconst 10) w in
  let t2 := fmul (fdec 625 2) (fconst h) in
  let t3 := fadd t1 t2 in
  let t4 := fsub t3 (fconst (5 * a)) in
  fl_ok (10 * SF2R w) t1 /\
  fl_ok (SF2R (fdec 625 2) * IZR h) t2 /\
  fl_ok (SF2R t1 + SF2R t2) t3 /\
  fl_ok (SF2R t3 - IZR (5 * a)) t4 /\
  fl_ok (SF2R t4 + IZR (match g with Male => 5 | Female => -161 end)) (basal_rate w h a g) /\
  (0 <= SF2R (fdec 625 2))%R.
Proof.
  intros Hw Hh Ha t1 t2 t3 t4. apply valid_weight_inv in Hw as (Hf & Hv & Hr).
  pose proof (valid_fl_ok w Hf Hv) as Hwok.
  pose proof (fconst_ok 10 ltac:(unfold prec; lia)) as C10.
  pose proof (fconst_value 10 ltac:(unfold prec; lia)) as V10.
  pose proof (fconst_ok h ltac:(unfold prec; lia)) as Ch.
  pose proof (fconst_value h ltac:(unfold prec; lia)) as Vh.
  pose proof (fconst_ok (5 * a) ltac:(unfold prec; lia)) as Ca.
  pose proof (fconst_value (5 * a) ltac:(unfold prec; lia)) as Va.
  pose proof (fdec_ok 625 2 ltac:(lia) ltac:(unfold prec; lia)) as C625.
  pose proof (fdec_between 625 2 6 7 ltac:(lia) ltac:(unfold prec; lia) ltac:(simpl; lia)
                ltac:(unfold prec; lia) ltac:(unfold prec; lia)) as B625.
  assert (100 <= IZR h <= 250)%R as Rh by (split; apply IZR_le; lia).
  assert (50 <= IZR (5 * a) <= 500)%R as Ra by (split; apply IZR_le; lia).
  destruct (fmul_step (fconst 10) w _ _ 300 3000 C10 Hwok) as [T1 B1];
    [rewrite V10; lra | unfold prec; lia | unfold prec; lia |].
  destruct (fmul_step (fdec 625 2) (fconst h) _ _ 600 1750 C625 Ch) as [T2 B2];
    [ rewrite Vh;
      pose proof (Rmult_between (SF2R (fdec 625 2)) (IZR h) 6 7 100 250
                    ltac:(lra) ltac:(lra) ltac:(lra) ltac:(lra)); lra
    | unfold prec; lia | unfold prec; lia |].
  destruct (fadd_step _ _ _ _ 900 4750 T1 T2) as [T3 B3];
    [lra | unfold prec; lia | unfold prec; lia |].
  destruct (fsub_step _ (fconst (5 * a)) _ _ 400 4700 T3 Ca) as [T4 B4];
    [rewrite Va; lra | unfold prec; lia | unfold prec; lia |].
  pose proof (gender_adjustment_ok g) as [Cg Vg].
  destruct (fadd_step _ (gender_adjustment g) _ _ 239 4705 T4 Cg) as [T5 B5];
    [rewrite Vg; destruct g; lra | unfold prec; lia | unfold prec; lia |].
  rewrite V10 in T1. rewrite Vh in T2. rewrite Va in T4. rewrite Vg in T5.
  repeat split; try apply T1; try apply T2; try apply T3; try apply T4; try apply T5.
  lra.
Qed.

Lemma basal_mono w h a g w' h' a' g' :
  valid_weight w = true -> 100 <= h <= 250 -> 10 <= a <= 100 ->
  valid_weight w' = true -> 100 <= h' <= 250 -> 10 <= a' <= 100 ->
  (SF2R w <= SF2R w')%R -> h <= h' -> a' <= a -> gender_le g g' ->
  (SF2R (basal_rate w h a g) <= SF2R (basal_rate w' h' a' g'))%R.
Proof.
  intros Hw Hh Ha Hw' Hh' Ha' Lw Lh La Lg.
  destruct (basal_steps w h a g Hw Hh Ha) as (T1 & T2 & T3 & T4 & T5 & P).
  destruct (basal_steps w' h' a' g' Hw' Hh' Ha') as (T1' & T2' & T3' & T4' & T5' & _).
  cbv zeta in *.
  pose proof (fl_ok_mono _ _ _ _ T1 T1' ltac:(lra)) as M1.
  assert (IZR h <= IZR h')%R as Rh by (apply IZR_le; lia).
  pose proof (fl_ok_mono _ _ _ _ T2 T2'
                ltac:(apply Rmult_le_compat_l; assumption)) as M2.
  pose proof (fl_ok_mono _ _ _ _ T3 T3' ltac:(lra)) as M3.
  assert (IZR (5 * a') <= IZR (5 * a))%R as Ra by (apply IZR_le; lia).
  pose proof (fl_ok_mono _ _ _ _ T4 T4' ltac:(lra)) as M4.
  apply (fl_ok_mono _ _ _ _ T5 T5').
  destruct g, g'; simpl in Lg; try contradiction; lra.
Qed.

Lemma coefficient_mono activity activity' :
  activity <= activity' ->
  (SF2R (activity_coefficient activity) <= SF2R (activity_coefficient activity'))%R.
Proof.
  intros H.
  pose proof (fdec_ok 120 2 ltac:(lia) ltac:(unfold prec; lia)) as A.
  pose proof (fdec_ok 1375 3 ltac:(lia) ltac:(unfold prec; lia)) as B.
  pose proof (fdec_ok 155 2 ltac:(lia) ltac:(unfold prec; lia)) as C.
  assert (SF2R (fdec 120 2) <= SF2R (fdec 1375 3))%R as AB
    by (apply (fl_ok_mono _ _ _ _ A B); simpl; lra).
  assert (SF2R (fdec 1375 3) <= SF2R (fdec 155 2))%R as BC
    by (apply (fl_ok_mono _ _ _ _ B C); simpl; lra).
  unfold activity_coefficient.
  destruct (Z.ltb_spec activity 30), (Z.ltb_spec activity' 30),
    (Z.leb_spec activity 59), (Z.leb_spec activity' 59); try lia; lra.
Qed.

Lemma calorie_mono w h a g activity w' h' a' g' activity' :
  valid_weight w = true -> 100 <= h <= 250 -> 10 <= a <= 100 ->
  valid_weight w' = true -> 100 <= h' <= 250 -> 10 <= a' <= 100 ->
  (SF2R w <= SF2R w')%R -> h <= h' -> a' <= a -> gender_le g g' ->
  activity <= activity' ->
  calorie_target w h a g activity <= calorie_target w' h' a' g' activity'.
Proof.
  intros Hw Hh Ha Hw' Hh' Ha' Lw Lh La Lg Lact.
  pose proof (basal_mono _ _ _ _ _ _ _ _ Hw Hh Ha Hw' Hh' Ha' Lw Lh La Lg) as Mb.
  pose proof (coefficient_mono _ _ Lact) as Mc.
  pose proof (basal_rate_ok w h a g Hw Hh Ha) as [Tb Bb].
  pose proof (basal_rate_ok w' h' a' g' Hw' Hh' Ha') as [Tb' Bb'].
  pose proof (activity_coefficient_ok activity) as [Tc Bc].
  pose proof (activity_coefficient_ok activity') as [Tc' Bc'].
  destruct (calorie_product_ok w h a g activity Hw Hh Ha) as [Hf Hb].
  destruct (calorie_product_ok w' h' a' g' activity' Hw' Hh' Ha') as [Hf' Hb'].
  assert (fl_ok (SF2R (basal_rate w h a g) * SF2R (activity_coefficient activity))
            (fmul (basal_rate w h a g) (activity_coefficient activity))) as P.
  { apply SFmul_ok; try apply Tb; try apply Tc.
    apply (Rabs_le_emax _ 0 9410); [|lia|lia].
    pose proof (Rmult_between (SF2R (basal_rate w h a g))
                  (SF2R (activity_coefficient activity)) 239 4705 1 2
                  ltac:(lra) ltac:(lra) ltac:(lra) ltac:(lra)). lra. }
  assert (fl_ok (SF2R (basal_rate w' h' a' g') * SF2R (activity_coefficient activity'))
            (fmul (basal_rate w' h' a' g') (activity_coefficient activity'))) as P'.
  { apply SFmul_ok; try apply Tb'; try apply Tc'.
    apply (Rabs_le_emax _ 0 9410); [|lia|lia].
    pose proof (Rmult_between (SF2R (basal_rate w' h' a' g'))
                  (SF2R (activity_coefficient activity')) 239 4705 1 2
                  ltac:(lra) ltac:(lra) ltac:(lra) ltac:(lra)). lra. }
  unfold calorie_target. rewrite !floor_trunc by (assumption || lra).
  eapply trunc_of_mono; [| apply trunc_float_spec, Hf | apply trunc_float_spec, Hf'].
  apply (fl_ok_mono _ _ _ _ P P'). apply Rmult_le_compat; lra.
Qed.

(** ** Runs of the ledger handlers *)

Lemma put_profile_put_session w u s p :
  put_profile (put_session w u s) u p = put_session (put_profile w u p) u s.
Proof. reflexivity. Qed.

Lemma drink_run env w u text p cmd arg rest amount :
  get_profile w u = Some p -> 0 < water_target p ->
  split text = cmd :: arg :: rest ->
  parse_number arg false = Some amount -> 0 < amount <= 3000 ->
  Z.abs (water_consumed p + amount) < 2 ^ 53 ->
  let total := water_consumed p + amount in
  cmd_drink env w u text =
    (put_profile w u
       (set_water_timeline (water_timeline p ++ [(current_time env 0, total)])
          (set_water_consumed total p)),
     Ok [DrinkAdded amount total (water_target p)
           (status_percent total (water_target p))
           (Z.max (water_target p - total) 0)]).
Proof.
  intros Hp Ht Hs Ha Hr Hb total. unfold cmd_drink. rewrite Hp, Hs, Ha.
  replace ((amount =? 0) || (amount <=? 0) || (3000 <? amount)) with false
    by (symmetry; rewrite !orb_false_iff; repeat split; lia).
  cbv zeta.
  cbn [set_water_consumed set_water_timeline water_consumed water_target water_timeline].
  fold total.
  destruct (percent_ok total (water_target p) Ht Hb) as (-> & _).
  reflexivity.
Qed.

Lemma train_run env w u text p cmd kind arg rest duration :
  get_profile w u = Some p -> valid_weight (weight p) = true ->
  split text = cmd :: kind :: arg :: rest ->
  parse_number arg false = Some duration -> 0 < duration <= 300 ->
  let burned := exercise_burn (WorkoutCalculator.met_of (strip kind)) (weight p) duration in
  let bonus := duration / 30 * 200 in
  cmd_train env w u text =
    (put_profile w u
       (mkUserProfile (weight p) (height p) (age p) (gender p) (activity_minutes p)
          (city p) (temperature p) (water_consumed p) (calories_eaten p)
          (calories_burned p + burned) (water_target p + bonus)
          (Bot.calorie_target p) (water_timeline p) (calorie_timeline p)
          (workout_timeline p ++ [(current_time env 0, calories_burned p + burned)])),
     Ok [TrainLogged (strip kind) duration burned bonus (water_target p + bonus)
           (calories_eaten p - (calories_burned p + burned))]).
Proof.
  intros Hp Hw Hs Ha Hr burned bonus. unfold cmd_train. rewrite Hp, Hs, Ha.
  replace ((duration =? 0) || (duration <=? 0) || (300 <? duration)) with false
    by (symmetry; rewrite !orb_false_iff; repeat split; lia).
  rewrite burn_code by (auto; lia). reflexivity.
Qed.

Lemma train_rejected env w u text :
  (forall cmd kind arg rest duration,
     split text = cmd :: kind :: arg :: rest ->
     parse_number arg false = Some duration -> ~ (0 < duration <= 300)) ->
  fst (cmd_train env w u text) = w.
Proof.
  intros Hno. unfold cmd_train. destruct (get_profile w u); [|reflexivity].
  destruct (split text) as [|cmd [|kind [|arg rest]]] eqn:Hs; try reflexivity.
  destruct (parse_number arg false) as [duration|] eqn:Ha; [|reflexivity].
  specialize (Hno cmd kind arg rest duration eq_refl Ha).
  replace ((duration =? 0) || (duration <=? 0) || (300 <? duration)) with true
    by (symmetry; rewrite !orb_true_iff; lia).
  reflexivity.
Qed.

Lemma food_grams_run env w u text p name kcal grams :
  get_profile w u = Some p ->
  d_product_name (get_data w u) = Some name ->
  d_kcal_per_100g (get_data w u) = Some kcal ->
  valid_energy kcal = true ->
  parse_number text false = Some grams -> 0 < grams <= 2000 ->
  0 < Bot.calorie_target p ->
  Z.abs (calories_eaten p - calories_burned p) < 2 ^ 52 ->
  let added := food_energy kcal grams in
  let total := calories_eaten p + added in
  process_food_grams env w u text =
    (clear (put_profile w u
              (set_calorie_timeline (calorie_timeline p ++ [(current_time env 0, total)])
                 (set_calories_eaten total p))) u,
     Ok [FoodLogged name grams added total (total - calories_burned p)
           (Bot.calorie_target p)
           (status_percent (total - calories_burned p) (Bot.calorie_target p))
           (Z.max (Bot.calorie_target p - (total - calories_burned p)) 0)]).
Proof.
  intros Hp Hn Hk Hv Hg Hr Ht Hb added total.
  destruct (food_energy_ok kcal grams Hv Hr) as (Hf & Hi & Hlo & Hhi).
  fold added in Hi, Hlo, Hhi.
  destruct (percent_ok (total - calories_burned p) (Bot.calorie_target p)
              Ht ltac:(unfold total; lia)) as (Hpct & _).
  unfold process_food_grams. rewrite Hp, Hg.
  replace ((grams =? 0) || (grams <=? 0) || (2000 <? grams)) with false
    by (symmetry; rewrite !orb_false_iff; repeat split; lia).
  rewrite Hn, Hk. cbn [item]. cbv beta iota delta [bind].
  rewrite Hf. cbv beta iota. rewrite Hi. cbv beta iota zeta.
  cbn [set_calories_eaten set_calorie_timeline calories_eaten calories_burned
       Bot.calorie_target calorie_timeline].
  fold total. rewrite Hpct. reflexivity.
Qed.

Lemma food_grams_rejected env w u text p :
  get_profile w u = Some p ->
  (forall grams, parse_number text false = Some grams -> ~ (0 < grams <= 2000)) ->
  process_food_grams env w u text = (w, Ok [GramsRange]).
Proof.
  intros Hp Hno. unfold process_food_grams. rewrite Hp.
  destruct (parse_number text false) as [grams|] eqn:Hg; [|reflexivity].
  specialize (Hno grams eq_refl).
  replace ((grams =? 0) || (grams <=? 0) || (2000 <? grams)) with true
    by (symmetry; rewrite !orb_true_iff; lia).
  reflexivity.
Qed.

Lemma eat_run env w u text p cmd arg rest name kcal :
  get_profile w u = Some p ->
  split_max1 text = cmd :: arg :: rest ->
  search_food_calories env (strip arg) = Some (name, kcal) ->
  cmd_eat env w u text =
    (put_session w u
       (mkSession (Some waiting_grams)
          (mkData (d_weight (get_data w u)) (d_height (get_data w u))
             (d_age (get_data w u)) (d_gender (get_data w u))
             (d_activity (get_data w u)) (d_city (get_data w u))
             (Some name) (Some kcal))),
     Ok [FoodFound name kcal]).
Proof.
  intros Hp Hs Hf. unfold cmd_eat. rewrite Hp, Hs, Hf. rewrite recorded. reflexivity.
Qed.

(** ** Profiles are never deleted *)

Ltac persist :=
  cbv zeta; cbn [fst];
  unfold set_state, update_data, clear;
  repeat rewrite get_profile_put_session;
  try rewrite get_profile_put_profile; eauto.

Lemma finalize_persists env w u manual p :
  get_profile w u = Some p ->
  exists p', get_profile (fst (finalize_profile env w u manual)) u = Some p'.
Proof.
  intros Hp. unfold finalize_profile.
  match goal with |- context [match ?e with Ok _ => _ | Raise _ => _ end] =>
    destruct e end; persist.
Qed.

Lemma step_persists u w w' v p :
  step u w w' -> get_profile w v = Some p -> exists p', get_profile w' v = Some p'.
Proof.
  intros Hstep Hp. destruct (decide (v = u)) as [->|Hne].
  2:{ destruct (step_untouched u w w' v Hstep Hne) as [E _]. rewrite E. eauto. }
  destruct Hstep;
    try rewrite cmd_status_same; try rewrite cmd_charts_same; try rewrite cmd_tips_same;
    eauto;
    unfold process_weight, process_height, process_age, process_gender,
      process_activity, process_city, process_manual_choice, process_manual_calories,
      cmd_cancel, cmd_drink, cmd_eat, process_food_grams, cmd_train, cmd_reset;
    try rewrite Hp; split_cases; persist; eapply finalize_persists, Hp.
Qed.

(** ** The relative error of one rounding *)

Lemma rounded_rel q r :
  (pow2 (emin prec emax + prec) <= q)%R -> rounded q r ->
  (Rabs (r - q) <= q * pow2 (- prec))%R.
Proof.
  intros Hq (E & k & Hg & [Hne _] & ->).
  destruct Hg as [[_ Hlt]|[_ [Hlo _]]]; [lra|].
  pose proof (pow2_pos E) as PE. pose proof (pow2_pos (- prec)) as PP.
  set (y := (q / pow2 E)%R) in *.
  assert (q = y * pow2 E)%R as Eq by (unfold y; field; lra).
  unfold F2R. rewrite Eq at 1.
  replace (IZR k * pow2 E - y * pow2 E)%R with ((IZR k - y) * pow2 E)%R by ring.
  rewrite Rabs_mult, (Rabs_pos_eq (pow2 E)) by lra.
  assert (Rabs (IZR k - y) <= /2)%R as Hk by (apply Rabs_le; lra).
  apply Rle_trans with (/2 * pow2 E)%R; [apply Rmult_le_compat_r; lra|].
  replace (/2 * pow2 E)%R with (pow2 (E + prec - 1) * pow2 (- prec))%R.
  - apply Rmult_le_compat_r; lra.
  - rewrite <- pow2_add. replace (E + prec - 1 + - prec) with (E + -1) by lia.
    rewrite pow2_add. unfold pow2 at 2. simpl powerRZ. lra.
Qed.

Lemma eps_value : pow2 (- prec) = (/ 9007199254740992)%R.
Proof.
  unfold prec. replace (-53) with (- (53)) by lia. unfold pow2.
  rewrite powerRZ_neg' . f_equal. change (powerRZ 2 53) with (pow2 53).
  rewrite (pow2_IZR 53) by lia. reflexivity.
Qed.

(** ** The percentage against the exact quotient *)

Lemma rnd_rel x r :
  (pow2 (emin prec emax + prec) <= x)%R -> rnd x r ->
  (Rabs (r - x) <= x * / 9007199254740992)%R.
Proof.
  intros Hx [Hp _]. rewrite <- eps_value. apply rounded_rel; [exact Hx|].
  apply Hp. pose proof (pow2_pos (emin prec emax + prec)). lra.
Qed.

Lemma tiny_bound : (pow2 (emin prec emax + prec) <= / 36028797018963968)%R.
Proof.
  rewrite emin_eq. unfold prec. replace (-1074 + 53) with (- 55 + - 966) by lia.
  rewrite pow2_add.
  assert (pow2 (-55) = / 36028797018963968)%R as ->.
  { replace (-55) with (- (55)) by lia. unfold pow2. rewrite powerRZ_neg'. f_equal.
    change (powerRZ 2 55) with (pow2 55). rewrite (pow2_IZR 55) by lia. reflexivity. }
  assert (pow2 (-966) <= 1)%R as H.
  { replace 1%R with (pow2 0) by reflexivity. apply pow2_le. lia. }
  rewrite <- (Rmult_1_r (/ 36028797018963968)) at 2.
  apply Rmult_le_compat_l; [lra | exact H].
Qed.

Lemma percent_floor a b :
  0 <= a < 2 ^ 44 -> 0 < b < 2 ^ 53 ->
  let n := 100 * a / b in
  let t := trunc_float (fmul (fdiv (fexact a) (fexact b)) (fconst 100)) in
  t = n \/ (t = n - 1 /\ (100 * a) mod b = 0 /\ 0 < a).
Proof.
  intros Ha Hb n t. destruct (Z.eq_dec a 0) as [->|Hne].
  { left. subst n t. destruct b as [|p|p]; try lia. reflexivity. }
  assert (0 < a) as Hpos by lia.
  destruct (int_truediv_ok a b ltac:(lia) ltac:(lia)) as [_ Qok].
  set (q := fdiv (fexact a) (fexact b)) in *.
  pose proof (fconst_ok 100 ltac:(unfold prec; lia)) as C100.
  pose proof (fconst_value 100 ltac:(unfold prec; lia)) as V100.
  set (ib := (/ IZR b)%R).
  assert (0 < IZR b)%R as Bpos by (apply IZR_lt; lia).
  assert (0 < ib)%R as Ipos by (apply Rinv_0_lt_compat; exact Bpos).
  assert (IZR b * ib = 1)%R as Bib by (unfold ib; field; lra).
  assert (IZR b <= 9007199254740992)%R as Bmax by (apply IZR_le; lia).
  assert (/ 9007199254740992 <= ib)%R as Imin
    by (unfold ib; apply Rinv_le_contravar; lra).
  assert (ib <= 1)%R as Imax.
  { unfold ib. rewrite <- Rinv_1. apply Rinv_le_contravar; [lra|]. apply IZR_le. lia. }
  assert (1 <= IZR a <= 17592186044415)%R as Ra by (split; apply IZR_le; lia).
  set (x := (IZR a * ib)%R).
  assert (IZR a / IZR b = x)%R as Ex by (unfold x, ib; field; lra).
  rewrite Ex in Qok.
  assert (ib <= x)%R as Xlo.
  { unfold x. rewrite <- (Rmult_1_l ib) at 1. apply Rmult_le_compat_r; lra. }
  assert (x * 300 * / 9007199254740992 < ib)%R as Xsmall.
  { unfold x. replace (IZR a * ib * 300 * / 9007199254740992)%R
      with ((IZR a * 300 * / 9007199254740992) * ib)%R by ring.
    rewrite <- (Rmult_1_l ib) at 2. apply Rmult_lt_compat_r; lra. }
  assert (x <= 17592186044415)%R as Xhi.
  { unfold x. rewrite <- (Rmult_1_r 17592186044415).
    apply Rmult_le_compat; lra. }
  pose proof tiny_bound as Tiny.
  pose proof (rnd_rel x (SF2R q) ltac:(lra) (fl_ok_rnd _ _ Qok)) as R1.
  apply Rabs_le_inv in R1.
  set (y1 := SF2R q) in *.
  assert (fl_ok (y1 * SF2R (fconst 100)) (fmul q (fconst 100))) as Pok.
  { apply SFmul_ok; try apply Qok; try apply C100.
    rewrite V100. apply (Rabs_le_emax _ 0 3518437208883000); [fold y1; lra|lia|lia]. }
  rewrite V100 in Pok.
  pose proof (rnd_rel (y1 * 100) (SF2R (fmul q (fconst 100))) ltac:(lra)
                (fl_ok_rnd _ _ Pok)) as R2.
  apply Rabs_le_inv in R2.
  set (y2 := SF2R (fmul q (fconst 100))) in *.
  assert (x * 100 - ib < y2 < x * 100 + ib)%R as Hy2 by lra.
  pose proof (Z.div_mod (100 * a) b ltac:(lia)) as Hdiv. fold n in Hdiv.
  pose proof (Z.mod_pos_bound (100 * a) b ltac:(lia)) as Hrem.
  set (r := (100 * a) mod b) in *.
  assert (x * 100 = IZR n + IZR r * ib)%R as EY.
  { unfold x. replace (IZR a * ib * 100)%R with (IZR (100 * a) * ib)%R
      by (rewrite mult_IZR; ring).
    rewrite Hdiv, plus_IZR, mult_IZR.
    replace ((IZR b * IZR n + IZR r) * ib)%R with ((IZR b * ib) * IZR n + IZR r * ib)%R by ring.
    rewrite Bib. ring. }
  assert (0 <= n) as Hn0 by (subst n; apply Z.div_pos; lia).
  assert (0 <= IZR n)%R as Rn0 by (apply IZR_le; lia).
  assert (IZR r * ib <= 1 - ib)%R as Rhi.
  { assert (IZR r <= IZR b - 1)%R as H
      by (rewrite <- minus_IZR; apply IZR_le; lia).
    replace (1 - ib)%R with ((IZR b - 1) * ib)%R
      by (rewrite Rmult_minus_distr_r, Bib; ring).
    apply Rmult_le_compat_r; lra. }
  assert (0 <= IZR r * ib)%R as Rlo
    by (apply Rmult_le_pos; [apply IZR_le; lia | lra]).
  assert (100 * ib <= x * 100)%R as Ybig.
  { unfold x. replace (IZR a * ib * 100)%R with ((IZR a * 100) * ib)%R by ring.
    apply Rmult_le_compat_r; lra. }
  pose proof (trunc_float_spec _ (fl_ok_finite _ _ Pok)) as [Tp _].
  fold y2 in Tp. fold t in Tp. specialize (Tp ltac:(lra)).
  destruct (Z.eq_dec r 0) as [Hr0|Hr0].
  - rewrite Hr0 in EY. rewrite Rmult_0_l, Rplus_0_r in EY.
    assert (IZR (n - 2) < IZR t)%R as L by (rewrite minus_IZR; lra).
    assert (IZR t < IZR (n + 1))%R as U by (rewrite plus_IZR; lra).
    apply lt_IZR in L, U. destruct (Z.eq_dec t n); [left; assumption|].
    right. repeat split; lia.
  - left.
    assert (ib <= IZR r * ib)%R as Rge.
    { rewrite <- (Rmult_1_l ib) at 1. apply Rmult_le_compat_r; [lra|].
      apply IZR_le. lia. }
    assert (IZR (n - 1) < IZR t)%R as L by (rewrite minus_IZR; lra).
    assert (IZR t < IZR (n + 1))%R as U by (rewrite plus_IZR; lra).
    apply lt_IZR in L, U. lia.
Qed.

(** ** Who is asked for grams has a profile *)

Lemma get_state_put_session w u s : get_state (put_session w u s) u = fsm_state s.
Proof. unfold get_state. rewrite get_session_put_session. reflexivity. Qed.

Lemma get_state_put_profile w u p v : get_state (put_profile w u p) v = get_state w v.
Proof. reflexivity. Qed.

Ltac waiting :=
  cbv zeta; cbn [fst];
  unfold set_state, update_data, clear;
  repeat rewrite get_state_put_profile;
  first [ rewrite get_state_put_session; cbn [fsm_state]; discriminate
        | intros Hst; left; exact Hst
        | intros _; right; solve [eauto] ].

Lemma finalize_waiting env w u manual :
  get_state (fst (finalize_profile env w u manual)) u = Some waiting_grams ->
  get_state w u = Some waiting_grams.
Proof.
  unfold finalize_profile.
  match goal with |- context [match ?e with Ok _ => _ | Raise _ => _ end] =>
    destruct e end; cbn [fst]; [|auto].
  unfold clear. rewrite get_state_put_session. discriminate.
Qed.

Lemma step_waiting u w w' :
  step u w w' -> get_state w' u = Some waiting_grams ->
  get_state w u = Some waiting_grams \/ exists p, get_profile w u = Some p.
Proof.
  intros Hstep. destruct Hstep;
    try rewrite cmd_status_same; try rewrite cmd_charts_same; try rewrite cmd_tips_same;
    auto;
    try solve [ unfold cmd_cancel; destruct (get_state w u) eqn:E; cbn [fst];
                [ unfold clear; rewrite get_state_put_session; discriminate
                | intros Hst; rewrite E in Hst; discriminate ] ];
    unfold cmd_setup, process_weight, process_height, process_age, process_gender,
      process_activity, process_city, process_manual_choice, process_manual_calories,
      cmd_drink, cmd_eat, process_food_grams, cmd_train, cmd_reset;
    try (destruct (get_profile w u) as [p|] eqn:Hp);
    split_cases; try waiting;
    intros Hst; left; eapply finalize_waiting, Hst.
Qed.

Lemma waiting_has_profile w u :
  reachable w -> get_state w u = Some waiting_grams ->
  exists p, get_profile w u = Some p.
Proof.
  induction 1 as [|v w w' Hr IH Hstep]; intros Hst.
  - vm_compute in Hst. discriminate.
  - destruct (decide (u = v)) as [->|Hne].
    + destruct (step_waiting v w w' Hstep Hst) as [Hw|[p Hp]].
      * destruct (IH Hw) as [p Hp]. eapply step_persists; eauto.
      * eapply step_persists; eauto.
    + destruct (step_untouched v w w' u Hstep Hne) as [Ep Es].
      rewrite Ep. apply IH. unfold get_state in *. rewrite <- Es. exact Hst.
Qed.

(** ** Which exceptions the arithmetic can raise *)

Lemma float_of_int_exn n e : float_of_int n = Raise e -> e = OverflowError.
Proof.
  unfold float_of_int. destruct (binary_normalize _ _ _ _ _); try discriminate.
  intros [= <-]. reflexivity.
Qed.

Lemma py_int_exn f e : py_int f = Raise e -> e = ValueError \/ e = OverflowError.
Proof. destruct f; try discriminate; intros [= <-]; auto. Qed.

Lemma int_truediv_exn a b e :
  int_truediv a b = Raise e -> e = ZeroDivisionError \/ e = OverflowError.
Proof.
  unfold int_truediv. destruct (b =? 0); [intros [= <-]; auto|].
  destruct (SFdiv _ _ _ _); try discriminate. intros [= <-]. auto.
Qed.

Lemma percent_exn a b e : percent a b = Raise e -> e <> KeyError.
Proof.
  unfold percent. destruct (int_truediv a b) as [q|e1] eqn:E1; cbv beta iota delta [bind].
  - destruct (py_int (fmul q (fconst 100))) as [n|e2] eqn:E2; [discriminate|].
    intros [= <-]. destruct (py_int_exn _ _ E2) as [->| ->]; discriminate.
  - intros [= <-]. destruct (int_truediv_exn _ _ _ E1) as [->| ->]; discriminate.
Qed.

Lemma food_grams_no_key_error env w u text p name kcal :
  get_profile w u = Some p ->
  d_product_name (get_data w u) = Some name ->
  d_kcal_per_100g (get_data w u) = Some kcal ->
  snd (process_food_grams env w u text) <> Raise KeyError /\
  snd (process_food_grams env w u text) <> Ok [NeedProfile].
Proof.
  intros Hp Hn Hk. unfold process_food_grams. rewrite Hp.
  destruct (parse_number text false) as [grams|]; [|split; discriminate].
  destruct (_ || _); [split; discriminate|].
  rewrite Hn, Hk. cbn [item]. cbv beta iota delta [bind].
  destruct (float_of_int grams) as [g|e] eqn:Eg.
  2:{ cbn [snd]. apply float_of_int_exn in Eg as ->. split; discriminate. }
  cbv beta iota.
  destruct (py_int _) as [added|e] eqn:Ea.
  2:{ cbn [snd]. destruct (py_int_exn _ _ Ea) as [->| ->]; split; discriminate. }
  cbv beta iota zeta. destruct (percent _ _) as [pct|e] eqn:Epct; cbn [snd].
  - split; discriminate.
  - apply percent_exn in Epct. split; [congruence | discriminate].
Qed.

Lemma asked_grams_reachable : reachable Scenario.asked_grams.
Proof.
  unfold Scenario.asked_grams.
  eapply reach_step; [apply after_train_reachable | apply step_eat].
Qed.

(** ** Reading a plain whole number *)

Lemma digit_facts c :
  is_digit c = true -> isspace c = false /\ c <> 44 /\ c <> 95 /\ c <> 45 /\ c <> 43 /\ c <> 46.
Proof.
  unfold is_digit, isspace. intros H. apply andb_true_iff in H as [H1 H2].
  apply Z.leb_le in H1, H2.
  repeat split; lia.
Qed.

Lemma replace_digits ds :
  Forall (fun c => is_digit c = true) ds -> replace_char 44 46 ds = ds.
Proof.
  induction 1 as [|c ds Hc _ IH]; [reflexivity|].
  unfold replace_char in *. cbn [map]. rewrite IH.
  destruct (digit_facts c Hc) as (_ & H44 & _).
  apply Z.eqb_neq in H44. rewrite H44. reflexivity.
Qed.

Lemma lstrip_digits ds :
  Forall (fun c => is_digit c = true) ds -> lstrip ds = ds.
Proof.
  destruct 1 as [|c ds Hc _]; [reflexivity|].
  cbn [lstrip]. destruct (digit_facts c Hc) as (-> & _). reflexivity.
Qed.

Lemma strip_digits ds :
  Forall (fun c => is_digit c = true) ds -> strip ds = ds.
Proof.
  intros H. unfold strip, rstrip. rewrite (lstrip_digits ds H).
  rewrite lstrip_digits by (apply Forall_rev; exact H). apply rev_involutive.
Qed.

Lemma underscores_digits prev ds :
  prev <> 95 -> Forall (fun c => is_digit c = true) ds -> underscores_ok prev ds = true.
Proof.
  intros Hp H. revert prev Hp. induction H as [|c ds Hc _ IH]; intros prev Hp.
  - cbn. apply Z.eqb_neq in Hp. rewrite Hp. reflexivity.
  - cbn [underscores_ok]. destruct (digit_facts c Hc) as (_ & _ & H95 & _).
    apply Z.eqb_neq in Hp. pose proof H95 as H95'. apply Z.eqb_neq in H95'.
    rewrite H95', Hp. cbn [andb]. apply IH. exact H95.
Qed.

Lemma remove_underscores_digits ds :
  Forall (fun c => is_digit c = true) ds -> remove_underscores ds = ds.
Proof.
  induction 1 as [|c ds Hc _ IH]; [reflexivity|].
  unfold remove_underscores in *. destruct (digit_facts c Hc) as (_ & _ & H95 & _).
  etransitivity; [apply (filter_cons_True (fun c0 : Z => c0 <> 95)); exact H95|].
  f_equal. exact IH.
Qed.

Lemma span_digits_all ds :
  Forall (fun c => is_digit c = true) ds -> span_digits ds = (ds, []).
Proof.
  induction 1 as [|c ds Hc _ IH]; [reflexivity|].
  cbn [span_digits]. rewrite Hc, IH. reflexivity.
Qed.

Lemma py_float_digits c ds :
  Forall (fun c => is_digit c = true) (c :: ds) ->
  py_float (c :: ds) = Ok (float_of_decimal false (digits_value (c :: ds)) 0).
Proof.
  intros H. unfold py_float. rewrite (strip_digits _ H).
  rewrite (underscores_digits 0 _ ltac:(lia) H). cbn [negb].
  rewrite (remove_underscores_digits _ H).
  pose proof (Forall_inv H) as Hc. destruct (digit_facts c Hc) as (_ & _ & _ & H45 & H43 & _).
  apply Z.eqb_neq in H45, H43. rewrite H45, H43.
  unfold parse_decimal. rewrite (span_digits_all _ H). cbn [app parse_exponent length].
  rewrite app_nil_r. reflexivity.
Qed.

Lemma trunc_fconst m : Z.abs m < 2 ^ prec -> trunc_float (fconst m) = m.
Proof.
  intros Hm. pose proof (fconst_ok m Hm) as Hok.
  pose proof (fconst_value m Hm) as Hv.
  pose proof (trunc_float_spec _ (fl_ok_finite _ _ Hok)) as [Tp Tn]. rewrite Hv in *.
  destruct (Z_le_gt_dec 0 m) as [H0|H0].
  - specialize (Tp ltac:(apply IZR_le; lia)).
    assert (IZR (trunc_float (fconst m)) < IZR (m + 1))%R as U by (rewrite plus_IZR; lra).
    assert (IZR m < IZR (trunc_float (fconst m) + 1))%R as L by (rewrite plus_IZR; lra).
    apply lt_IZR in U, L. lia.
  - specialize (Tn ltac:(apply IZR_le; lia)).
    assert (IZR (trunc_float (fconst m) - 1) < IZR m)%R as U by (rewrite minus_IZR; lra).
    assert (IZR (m - 1) < IZR (trunc_float (fconst m)))%R as L by (rewrite minus_IZR; lra).
    apply lt_IZR in U, L. lia.
Qed.

Lemma digits_value_nonneg ds :
  Forall (fun c => is_digit c = true) ds -> 0 <= digits_value ds.
Proof.
  unfold digits_value. intros H.
  assert (forall acc, 0 <= acc ->
            0 <= fold_left (fun acc c => 10 * acc + (c - 48)) ds acc) as G.
  { induction H as [|c ds Hc _ IH]; intros acc Hacc; [exact Hacc|].
    cbn [fold_left]. apply IH. unfold is_digit in Hc.
    apply andb_true_iff in Hc as [H1 _]. apply Z.leb_le in H1. lia. }
  apply G. lia.
Qed.

Lemma parse_digits c ds :
  Forall (fun c => is_digit c = true) (c :: ds) ->
  digits_value (c :: ds) < 2 ^ 53 ->
  parse_number (c :: ds) false = Some (digits_value (c :: ds)) /\
  parse_number (c :: ds) true = Some (fconst (digits_value (c :: ds))).
Proof.
  intros H Hb. pose proof (digits_value_nonneg _ H) as H0.
  assert (float_of_decimal false (digits_value (c :: ds)) 0 =
          fconst (digits_value (c :: ds))) as E.
  { unfold float_of_decimal. destruct (Z.eqb_spec (digits_value (c :: ds)) 0) as [->|_].
    - reflexivity.
    - cbn [Z.leb Z.compare Z.pow]. unfold fconst. f_equal. lia. }
  unfold parse_number. rewrite (replace_digits _ H), (strip_digits _ H).
  rewrite (py_float_digits c ds H), E. split; [|reflexivity].
  rewrite py_int_ok by (apply fconst_ok; unfold prec; lia).
  rewrite trunc_fconst by (unfold prec; lia). reflexivity.
Qed.

End MoreFacts.

(** * Properties of the whole bot *)

Import PyFloat PyStr Bot FloatSem FloatFacts Spec FormulaFacts LedgerFacts.
Import Advice Dispatch Orders MoreFacts.

(** ** Reachable states *)

(** X1: Every profile the bot ever holds is well formed: the weight is a
    number in [30, 300], height, age and activity are in their validated
    ranges, the gender is "male" or "female", the water target is at least
    900 ml and the calorie target at least 239 kcal (so no percentage ever
    divides by zero), and water consumed and calories burned are not
    negative. *)
Theorem stored_profiles_are_valid (w : World) (u : Z) (p : UserProfile) :
  reachable w -> get_profile w u = Some p ->
  valid_weight (weight p) = true /\
  100 <= height p <= 250 /\ 10 <= age p <= 100 /\
  (gender p = str "male" \/ gender p = str "female") /\
  0 <= activity_minutes p <= 500 /\
  (2 <= length (city p))%nat /\
  900 <= water_target p /\ 239 <= Bot.calorie_target p /\
  0 <= water_consumed p /\ 0 <= calories_burned p.
Proof.
  intros Hr Hp. destruct (reachable_world_ok w Hr) as [Hdb _].
  destruct (Hdb u p Hp). repeat split; auto; lia.
Qed.

Lemma stored_profiles_are_valid_witness :
  get_profile Scenario.after_train Scenario.user = Some Scenario.profile_after_train /\
  valid_weight (fconst 75) = true /\
  100 <= 175 <= 250 /\ 10 <= 25 <= 100 /\
  (str "male" = str "male" \/ str "male" = str "female") /\
  0 <= 20 <= 500 /\
  (2 <= length (str "Moscow"))%nat /\
  900 <= 2450 /\ 239 <= 2068 /\ 0 <= 0 /\ 0 <= 375.
Proof.
  assert (Hp : get_profile Scenario.after_train Scenario.user =
               Some Scenario.profile_after_train) by (vm_compute; reflexivity).
  split; [exact Hp|].
  exact (stored_profiles_are_valid Scenario.after_train Scenario.user
           Scenario.profile_after_train after_train_reachable Hp).
Defined.

(** X2: In every profile the bot ever holds, each timeline is non-empty and
    ends at the current value of its counter; the values of the water
    timeline and those of the workout timeline strictly increase. *)
Theorem timelines_follow_counters (w : World) (u : Z) (p : UserProfile) :
  reachable w -> get_profile w u = Some p ->
  last (values (water_timeline p)) = Some (water_consumed p) /\
  last (values (calorie_timeline p)) = Some (calories_eaten p) /\
  last (values (workout_timeline p)) = Some (calories_burned p) /\
  ascending true (values (water_timeline p)) = true /\
  ascending true (values (workout_timeline p)) = true.
Proof.
  intros Hr Hp. destruct (reachable_world_ok w Hr) as [Hdb _].
  destruct (Hdb u p Hp). repeat split; assumption.
Qed.

Lemma timelines_follow_counters_witness :
  get_profile Scenario.after_train Scenario.user = Some Scenario.profile_after_train /\
  last (values [(str "12:00", 0)]) = Some 0 /\
  last (values [(str "12:00", 0)]) = Some 0 /\
  last (values [(str "12:00", 0); (str "12:00", 375)]) = Some 375 /\
  ascending true (values [(str "12:00", 0)]) = true /\
  ascending true (values [(str "12:00", 0); (str "12:00", 375)]) = true.
Proof.
  assert (Hp : get_profile Scenario.after_train Scenario.user =
               Some Scenario.profile_after_train) by (vm_compute; reflexivity).
  split; [exact Hp|].
  exact (timelines_follow_counters Scenario.after_train Scenario.user
           Scenario.profile_after_train after_train_reachable Hp).
Defined.

(** X3: A handler run for one user changes neither the profile nor the
    conversation of any other user. *)
Theorem other_users_are_untouched (u v : Z) (w w' : World) :
  step u w w' -> v <> u ->
  get_profile w' v = get_profile w v /\ get_session w' v = get_session w v.
Proof.
  intros Hstep Hne. exact (step_untouched u w w' v Hstep Hne).
Qed.

Lemma other_users_are_untouched_witness :
  get_profile (fst (cmd_reset Scenario.env0 Scenario.after_train 1)) 2 =
    get_profile Scenario.after_train 2 /\
  get_session (fst (cmd_reset Scenario.env0 Scenario.after_train 1)) 2 =
    get_session Scenario.after_train 2.
Proof.
  apply (other_users_are_untouched 1 2 Scenario.after_train
           (fst (cmd_reset Scenario.env0 Scenario.after_train 1))).
  - apply step_reset.
  - lia.
Defined.

(** ** The setup conversation *)

(** X4: The weight question accepts a text exactly when it reads as a NaN or as
    a number whose value lies in [30, 300]: the answer is then stored and
    the height is asked. Every other text, readable or not, is answered
    with the retry message and changes nothing. *)
Theorem weight_question (w : World) (u : Z) (text : pystr) :
  (forall x, parse_number text true = Some x ->
     x = S754_nan \/ (is_finite x = true /\ (30 <= SF2R x <= 300)%R) ->
     snd (process_weight w u text) = Ok [Prompt height_input] /\
     d_weight (get_data (fst (process_weight w u text)) u) = Some x /\
     get_state (fst (process_weight w u text)) u = Some height_input) /\
  (forall x, parse_number text true = Some x ->
     ~ (x = S754_nan \/ (is_finite x = true /\ (30 <= SF2R x <= 300)%R)) ->
     process_weight w u text = (w, Ok [Retry weight_input])) /\
  (parse_number text true = None ->
     process_weight w u text = (w, Ok [Retry weight_input])).
Proof.
  pose proof (process_weight_cases w u text) as H.
  destruct (parse_number text true) as [x|] eqn:Hx.
  - pose proof (parse_float_valid text x Hx) as Hv.
    pose proof (weight_check x Hv) as Hc.
    assert (weight_ok x <->
            x = S754_nan \/ (is_finite x = true /\ (30 <= SF2R x <= 300)%R)) as Hw.
    { unfold weight_ok. rewrite (valid_weight_iff x Hv). reflexivity. }
    destruct (is_zero x || flt x (fconst 30) || fgt x (fconst 300)).
    + split; [|split; [|discriminate]].
      * intros y [= <-] Hy. apply Hw, Hc in Hy. discriminate.
      * intros y _ _. exact H.
    + split; [|split; [|discriminate]].
      * intros y [= <-] _. exact H.
      * intros y [= <-] Hy. exfalso. apply Hy, Hw, Hc. reflexivity.
  - split; [|split]; try discriminate. intros _. exact H.
Qed.

Lemma weight_question_witness :
  parse_number (str "64,1") true = Some (fdec 641 1) /\
  snd (process_weight Scenario.empty_world 1 (str "64,1")) = Ok [Prompt height_input] /\
  d_weight (get_data (fst (process_weight Scenario.empty_world 1 (str "64,1"))) 1) =
    Some (fdec 641 1) /\
  get_state (fst (process_weight Scenario.empty_world 1 (str "64,1"))) 1 =
    Some height_input.
Proof.
  assert (Hx : parse_number (str "64,1") true = Some (fdec 641 1))
    by (vm_compute; reflexivity).
  split; [exact Hx|].
  apply (proj1 (weight_question Scenario.empty_world 1 (str "64,1")) _ Hx).
  right. split; [reflexivity|].
  exact (fdec_between 641 1 30 300 ltac:(lia) ltac:(unfold prec; lia)
           ltac:(lia) ltac:(unfold prec; lia) ltac:(unfold prec; lia)).
Defined.

(** X5: A weight answered with "nan" passes the weight question, and the setup
    then cannot be completed: in every reachable state that awaits the last
    answers and holds a NaN weight, [finalize_profile] raises ValueError
    before it writes anything. *)
Theorem nan_weight_blocks_setup :
  parse_number (str "nan") true = Some S754_nan /\
  (forall w u text,
     parse_number text true = Some S754_nan ->
     snd (process_weight w u text) = Ok [Prompt height_input] /\
     d_weight (get_data (fst (process_weight w u text)) u) = Some S754_nan) /\
  (forall env w u manual,
     reachable w -> setup_stage (get_state w u) = 6%nat ->
     d_weight (get_data w u) = Some S754_nan ->
     finalize_profile env w u manual = (w, Raise ValueError)).
Proof.
  split; [vm_compute; reflexivity|]. split.
  - intros w u text Hx. pose proof (process_weight_cases w u text) as H.
    rewrite Hx in H. cbn in H. destruct H as (H1 & H2 & _). auto.
  - intros env w u manual Hr Hst Hx.
    destruct (reachable_world_ok w Hr) as [_ Hs]. specialize (Hs u).
    destruct Hs as [Ha _]. unfold get_state in Hst. rewrite Hst in Ha.
    fold (get_data w u) in Ha. destruct Ha as [_ _ _ _ A5 A6].
    destruct (A5 ltac:(lia)) as (act & Dact & Hact).
    destruct (A6 ltac:(lia)) as (c & Dc & _).
    eapply finalize_nan; eauto.
Qed.

Lemma nan_weight_blocks_setup_witness :
  setup_stage (get_state NanScenario.asked_manual Scenario.user) = 6%nat /\
  d_weight (get_data NanScenario.asked_manual Scenario.user) = Some S754_nan /\
  finalize_profile Scenario.env0 NanScenario.asked_manual Scenario.user None =
    (NanScenario.asked_manual, Raise ValueError).
Proof.
  assert (H1 : setup_stage (get_state NanScenario.asked_manual Scenario.user) = 6%nat)
    by (vm_compute; reflexivity).
  assert (H2 : d_weight (get_data NanScenario.asked_manual Scenario.user) = Some S754_nan)
    by (vm_compute; reflexivity).
  split; [exact H1|]. split; [exact H2|].
  exact (proj2 (proj2 nan_weight_blocks_setup) Scenario.env0 NanScenario.asked_manual
           Scenario.user None nan_asked_manual_reachable H1 H2).
Defined.

(** X6: The setup never misses an answer. In every reachable state that awaits
    the choice about a manual norm, a "no" stores a valid profile, clears
    the conversation and reports the two norms, unless the weight is a NaN,
    in which case ValueError is raised and nothing changes; likewise for a
    manual norm in [1000, 5000]. No KeyError can occur. *)
Theorem setup_completes (env : Env) (w : World) (u : Z) (text : pystr) :
  reachable w ->
  (get_state w u = Some manual_calories_choice ->
   contains kw_da (lower (strip text)) || contains (str "yes") (lower (strip text)) = false ->
   contains kw_net (lower (strip text)) || contains (str "no") (lower (strip text)) = true ->
   (exists p, profile_ok p /\
      process_manual_choice env w u text =
        (clear (put_profile w u p) u,
         Ok [ProfileReady (city p) (temperature p) (water_target p)
               (Bot.calorie_target p)])) \/
   (d_weight (get_data w u) = Some S754_nan /\
    process_manual_choice env w u text = (w, Raise ValueError))) /\
  (forall m,
   get_state w u = Some manual_calories_input ->
   parse_number text false = Some m -> 1000 <= m <= 5000 ->
   (exists p, profile_ok p /\
      process_manual_calories env w u text =
        (clear (put_profile w u p) u,
         Ok [ProfileReady (city p) (temperature p) (water_target p)
               (Bot.calorie_target p)])) \/
   (d_weight (get_data w u) = Some S754_nan /\
    process_manual_calories env w u text = (w, Raise ValueError))).
Proof.
  intros Hr. pose proof (reachable_world_ok w Hr) as Hok. split.
  - intros Hst Hyes Hno. unfold process_manual_choice. rewrite Hyes, Hno.
    apply finalize_cases; [exact Hok | rewrite Hst; reflexivity | exact I].
  - intros m Hst Hm Hrange. unfold process_manual_calories. rewrite Hm.
    replace ((m =? 0) || (m <? 1000) || (5000 <? m)) with false
      by (symmetry; rewrite !orb_false_iff; repeat split; lia).
    apply (finalize_cases env w u (Some m)); [exact Hok | rewrite Hst; reflexivity | exact Hrange].
Qed.

Lemma setup_completes_witness :
  get_state Scenario.asked_manual Scenario.user = Some manual_calories_choice /\
  ((exists p, profile_ok p /\
      process_manual_choice Scenario.env0 Scenario.asked_manual Scenario.user (str "no") =
        (clear (put_profile Scenario.asked_manual Scenario.user p) Scenario.user,
         Ok [ProfileReady (city p) (temperature p) (water_target p)
               (Bot.calorie_target p)])) \/
   (d_weight (get_data Scenario.asked_manual Scenario.user) = Some S754_nan /\
    process_manual_choice Scenario.env0 Scenario.asked_manual Scenario.user (str "no") =
      (Scenario.asked_manual, Raise ValueError))).
Proof.
  assert (Hst : get_state Scenario.asked_manual Scenario.user = Some manual_calories_choice)
    by (vm_compute; reflexivity).
  split; [exact Hst|].
  apply (proj1 (setup_completes Scenario.env0 Scenario.asked_manual Scenario.user (str "no")
                  asked_manual_reachable) Hst); vm_compute; reflexivity.
Defined.

(** X7: The whole setup conversation. Whatever the state before [/setup], six
    valid answers followed by a "no" leave exactly one trace: the user's
    profile is (re)placed by the one built from the answers, with the water
    norm and the Mifflin-St Jeor norm as targets, zeroed counters and
    seeded timelines, and the conversation is cleared. *)
Theorem setup_conversation (env : Env) (w0 : World) (u : Z)
    (tw th ta tg tact tc tm : pystr) (x : float) (h a : Z) (g : Gender) (act : Z) :
  parse_number tw true = Some x -> valid_weight x = true ->
  parse_number th false = Some h -> 100 <= h <= 250 ->
  parse_number ta false = Some a -> 10 <= a <= 100 ->
  match g with
  | Male =>
      contains kw_muzh (lower (strip tg)) || contains (str "male") (lower (strip tg)) = true
  | Female =>
      contains kw_muzh (lower (strip tg)) || contains (str "male") (lower (strip tg)) = false /\
      contains kw_zhen (lower (strip tg)) || contains (str "female") (lower (strip tg)) = true
  end ->
  parse_number tact false = Some act -> 0 <= act <= 500 ->
  (2 <= length (strip tc))%nat ->
  contains kw_da (lower (strip tm)) || contains (str "yes") (lower (strip tm)) = false ->
  contains kw_net (lower (strip tm)) || contains (str "no") (lower (strip tm)) = true ->
  let w1 := fst (cmd_setup w0 u) in
  let w2 := fst (process_weight w1 u tw) in
  let w3 := fst (process_height w2 u th) in
  let w4 := fst (process_age w3 u ta) in
  let w5 := fst (process_gender w4 u tg) in
  let w6 := fst (process_activity w5 u tact) in
  let w7 := fst (process_city w6 u tc) in
  let water_norm := hydration_target x act (fetch_weather env (strip tc)) in
  let calorie_norm := calorie_target x h a g act in
  process_manual_choice env w7 u tm =
    (clear (put_profile w0 u
              (created_profile env x h a (gender_str g) act (strip tc)
                 water_norm calorie_norm)) u,
     Ok [ProfileReady (strip tc) (fetch_weather env (strip tc)) water_norm calorie_norm]).
Proof.
  intros Hx Vx Hh Rh Ha Ra Hg Hact Ract Hc Hyes Hno w1 w2 w3 w4 w5 w6 w7 wn cn.
  assert (E1 : w1 = put_session w0 u (mkSession (Some weight_input) no_data)).
  { subst w1. unfold cmd_setup. cbn [fst]. unfold set_state, clear.
    unfold get_data. rewrite get_session_put_session. apply put_session_twice. }
  assert (E2 : w2 = put_session w0 u
                      (mkSession (Some height_input)
                         (mkData (Some x) None None None None None None None))).
  { subst w2. unfold process_weight. rewrite Hx.
    assert (Hc0 : is_zero x || flt x (fconst 30) || fgt x (fconst 300) = false)
      by (apply (weight_check x (parse_float_valid tw x Hx)); right; exact Vx).
    rewrite Hc0. cbn [fst]. rewrite recorded, E1. unfold get_data.
    rewrite get_session_put_session. apply put_session_twice. }
  assert (E3 : w3 = put_session w0 u
                      (mkSession (Some age_input)
                         (mkData (Some x) (Some h) None None None None None None))).
  { subst w3. unfold process_height. rewrite Hh.
    replace ((h =? 0) || (h <? 100) || (250 <? h)) with false
      by (symmetry; rewrite !orb_false_iff; repeat split; lia).
    cbn [fst]. rewrite recorded, E2. unfold get_data.
    rewrite get_session_put_session. apply put_session_twice. }
  assert (E4 : w4 = put_session w0 u
                      (mkSession (Some gender_input)
                         (mkData (Some x) (Some h) (Some a) None None None None None))).
  { subst w4. unfold process_age. rewrite Ha.
    replace ((a =? 0) || (a <? 10) || (100 <? a)) with false
      by (symmetry; rewrite !orb_false_iff; repeat split; lia).
    cbn [fst]. rewrite recorded, E3. unfold get_data.
    rewrite get_session_put_session. apply put_session_twice. }
  assert (E5 : w5 = put_session w0 u
                      (mkSession (Some activity_input)
                         (mkData (Some x) (Some h) (Some a) (Some (gender_str g))
                            None None None None))).
  { subst w5. unfold process_gender. destruct g.
    - rewrite Hg. cbn [fst]. rewrite recorded, E4. unfold get_data.
      rewrite get_session_put_session. apply put_session_twice.
    - destruct Hg as [Hg1 Hg2]. rewrite Hg1, Hg2. cbn [fst]. rewrite recorded, E4.
      unfold get_data. rewrite get_session_put_session. apply put_session_twice. }
  assert (E6 : w6 = put_session w0 u
                      (mkSession (Some city_input)
                         (mkData (Some x) (Some h) (Some a) (Some (gender_str g))
                            (Some act) None None None))).
  { subst w6. unfold process_activity. rewrite Hact.
    replace ((act <? 0) || (500 <? act)) with false
      by (symmetry; rewrite !orb_false_iff; repeat split; lia).
    cbn [fst]. rewrite recorded, E5. unfold get_data.
    rewrite get_session_put_session. apply put_session_twice. }
  assert (E7 : w7 = put_session w0 u
                      (mkSession (Some manual_calories_choice)
                         (mkData (Some x) (Some h) (Some a) (Some (gender_str g))
                            (Some act) (Some (strip tc)) None None))).
  { subst w7. unfold process_city.
    replace (length (strip tc) <? 2)%nat with false
      by (symmetry; apply Nat.ltb_ge; exact Hc).
    cbn [fst]. rewrite recorded, E6. unfold get_data.
    rewrite get_session_put_session. apply put_session_twice. }
  unfold process_manual_choice. rewrite Hyes, Hno.
  assert (D : get_data w7 u =
              mkData (Some x) (Some h) (Some a) (Some (gender_str g))
                (Some act) (Some (strip tc)) None None).
  { rewrite E7. unfold get_data. rewrite get_session_put_session. reflexivity. }
  rewrite (finalize_ok env w7 u None x h a g act (strip tc));
    try (rewrite D; reflexivity); auto.
  cbv zeta. fold wn cn. f_equal. rewrite E7. unfold clear, put_profile, put_session.
  cbn [user_database storage]. f_equal. apply insert_insert_eq.
Qed.

Lemma setup_conversation_witness :
  parse_number (str "75") true = Some (fconst 75) /\
  valid_weight (fconst 75) = true /\
  parse_number (str "175") false = Some 175 /\
  parse_number (str "25") false = Some 25 /\
  parse_number (str "20") false = Some 20 /\
  process_manual_choice Scenario.env0 Scenario.asked_manual Scenario.user (str "no") =
    (clear (put_profile Scenario.empty_world Scenario.user
              (created_profile Scenario.env0 (fconst 75) 175 25 (gender_str Male) 20
                 (strip (str "Moscow"))
                 (hydration_target (fconst 75) 20
                    (fetch_weather Scenario.env0 (strip (str "Moscow"))))
                 (calorie_target (fconst 75) 175 25 Male 20))) Scenario.user,
     Ok [ProfileReady (strip (str "Moscow"))
           (fetch_weather Scenario.env0 (strip (str "Moscow")))
           (hydration_target (fconst 75) 20
              (fetch_weather Scenario.env0 (strip (str "Moscow"))))
           (calorie_target (fconst 75) 175 25 Male 20)]) /\
  hydration_target (fconst 75) 20 None = 2250 /\
  calorie_target (fconst 75) 175 25 Male 20 = 2068.
Proof.
  assert (H1 : parse_number (str "75") true = Some (fconst 75)) by (vm_compute; reflexivity).
  assert (H2 : valid_weight (fconst 75) = true) by (vm_compute; reflexivity).
  assert (H3 : parse_number (str "175") false = Some 175) by (vm_compute; reflexivity).
  assert (H4 : parse_number (str "25") false = Some 25) by (vm_compute; reflexivity).
  assert (H5 : parse_number (str "20") false = Some 20) by (vm_compute; reflexivity).
  split; [exact H1|]. split; [exact H2|]. split; [exact H3|]. split; [exact H4|].
  split; [exact H5|]. split; [|split; vm_compute; reflexivity].
  apply (setup_conversation Scenario.env0 Scenario.empty_world Scenario.user
           (str "75") (str "175") (str "25") (str "male") (str "20") (str "Moscow")
           (str "no") (fconst 75) 175 25 Male 20 H1 H2 H3 ltac:(lia) H4 ltac:(lia));
    try (vm_compute; reflexivity); try lia.
  vm_compute. lia.
Defined.

(** ** The status report *)

(** X8: The progress bar of [cmd_status] shows [percent / 10], rounded towards
    zero, green squares: the float division followed by [int] is exactly
    the integer quotient. For a percentage in [0, 100] the bar has ten
    squares; for one at or below -10 it has no green square and more than
    ten white ones. *)
Theorem progress_bar_segments (pct : Z) :
  Z.abs pct < 2 ^ 52 ->
  exists bar,
    progress_bar pct = Ok bar /\
    filled_squares bar = Z.to_nat (pct ÷ 10) /\
    empty_squares bar = Z.to_nat (10 - pct ÷ 10) /\
    (0 <= pct <= 100 -> (filled_squares bar + empty_squares bar = 10)%nat) /\
    (pct <= -10 -> filled_squares bar = 0%nat /\ (11 <= empty_squares bar)%nat).
Proof.
  intros Hp. eexists. split; [apply progress_bar_quot, Hp|].
  cbn [filled_squares empty_squares]. split; [reflexivity|]. split; [reflexivity|].
  split.
  - intros Hr. rewrite Z.quot_div_nonneg by lia.
    assert (0 <= pct / 10 <= 10) by (split; [apply Z.div_pos | apply Z.div_le_upper_bound]; lia).
    lia.
  - intros Hr.
    assert (pct ÷ 10 <= -1).
    { pose proof (Z.quot_opp_l pct 10 ltac:(lia)) as E.
      pose proof (Z.quot_le_mono 10 (- pct) 10 ltac:(lia) ltac:(lia)) as M.
      rewrite Z.quot_same in M by lia. lia. }
    lia.
Qed.

Lemma progress_bar_segments_witness :
  exists bar,
    progress_bar (-18) = Ok bar /\
    filled_squares bar = Z.to_nat (-18 ÷ 10) /\
    empty_squares bar = Z.to_nat (10 - -18 ÷ 10) /\
    (0 <= -18 <= 100 -> (filled_squares bar + empty_squares bar = 10)%nat) /\
    (-18 <= -10 -> filled_squares bar = 0%nat /\ (11 <= empty_squares bar)%nat).
Proof.
  apply (progress_bar_segments (-18)). vm_compute. reflexivity.
Defined.

(** X9: In every reachable state the status of an existing profile can be
    computed (no target is zero) as long as the counters stay below 2^53;
    the water percentage lies in [0, 100] and its bar has ten squares, of
    which [percent div 10] are green, and so has the calorie bar whenever
    the balance is not negative. Nothing is changed. *)
Theorem status_of_reachable (w : World) (u : Z) (p : UserProfile) :
  reachable w -> get_profile w u = Some p ->
  water_consumed p < 2 ^ 53 ->
  Z.abs (calories_eaten p - calories_burned p) < 2 ^ 53 ->
  exists r,
    cmd_status w u = (w, Ok [StatusMessage r]) /\
    0 <= st_water_percent r <= 100 /\
    st_water_bar r = mkBar (Z.to_nat (st_water_percent r / 10))
                           (Z.to_nat (10 - st_water_percent r / 10)) /\
    st_water_remain r = Z.max (water_target p - water_consumed p) 0 /\
    st_calorie_remain r =
      Z.max (Bot.calorie_target p - (calories_eaten p - calories_burned p)) 0 /\
    (0 <= calories_eaten p - calories_burned p ->
     0 <= st_calorie_percent r <= 100 /\
     st_calorie_bar r = mkBar (Z.to_nat (st_calorie_percent r / 10))
                              (Z.to_nat (10 - st_calorie_percent r / 10))).
Proof.
  intros Hr Hp Hwc Hbal. destruct (reachable_world_ok w Hr) as [Hdb _].
  destruct (status_run p (Hdb u p Hp) Hwc Hbal) as (Hw & cbar & Hc & Hpos & Hrun).
  eexists. split; [apply Hrun, Hp|].
  cbn [st_water_percent st_water_bar st_water_remain st_calorie_remain
       st_calorie_percent st_calorie_bar].
  split; [exact Hw|]. split; [reflexivity|]. split; [reflexivity|]. split; [reflexivity|].
  intros Hb. destruct (Hpos Hb) as [-> Hcp]. split; [exact Hcp | reflexivity].
Qed.

Lemma status_of_reachable_witness :
  get_profile Scenario.after_setup Scenario.user <> None /\
  exists r,
    cmd_status Scenario.after_setup Scenario.user =
      (Scenario.after_setup, Ok [StatusMessage r]) /\
    0 <= st_water_percent r <= 100 /\
    st_water_bar r = mkBar (Z.to_nat (st_water_percent r / 10))
                           (Z.to_nat (10 - st_water_percent r / 10)) /\
    st_water_remain r = Z.max (2250 - 0) 0 /\
    st_calorie_remain r = Z.max (2068 - (0 - 0)) 0 /\
    (0 <= 0 - 0 ->
     0 <= st_calorie_percent r <= 100 /\
     st_calorie_bar r = mkBar (Z.to_nat (st_calorie_percent r / 10))
                              (Z.to_nat (10 - st_calorie_percent r / 10))).
Proof.
  assert (Hp : get_profile Scenario.after_setup Scenario.user =
               Some (mkUserProfile (fconst 75) 175 25 (str "male") 20 (str "Moscow") None
                       0 0 0 2250 2068 [(str "12:00", 0)] [(str "12:00", 0)]
                       [(str "12:00", 0)])) by (vm_compute; reflexivity).
  split; [rewrite Hp; discriminate|].
  apply (status_of_reachable Scenario.after_setup Scenario.user _ after_setup_reachable Hp);
    cbn; lia.
Defined.

(** X10: After [/reset] the status of a reachable profile is back at the start:
    0 percent and an all-white bar of ten squares for water and for
    calories, with the whole of each target remaining. *)
Theorem reset_then_status (env : Env) (w : World) (u : Z) (p : UserProfile) :
  reachable w -> get_profile w u = Some p ->
  snd (cmd_status (fst (cmd_reset env w u)) u) =
    Ok [StatusMessage
          (mkStatus (mkBar 0 10) 0 0 (water_target p) (water_target p)
                    (mkBar 0 10) 0 0 0 0 (Bot.calorie_target p) (Bot.calorie_target p))].
Proof.
  intros Hr Hp. destruct (reachable_world_ok w Hr) as [Hdb _]. destruct (Hdb u p Hp).
  unfold cmd_reset. rewrite Hp. cbn [fst]. unfold cmd_status.
  rewrite get_profile_put_profile. cbn [snd].
  cbn [set_water_consumed set_calories_eaten set_calories_burned set_water_timeline
       set_calorie_timeline set_workout_timeline water_consumed calories_eaten
       calories_burned water_target Bot.calorie_target].
  change (0 - 0) with 0.
  assert (forall b, 0 < b -> percent 0 b = Ok 0) as P0.
  { intros b Hb. destruct (percent_ok 0 b Hb ltac:(lia)) as (-> & _ & H1 & H2 & _).
    f_equal. specialize (H1 ltac:(lia)). specialize (H2 ltac:(lia)). lia. }
  rewrite !P0 by lia. cbv beta iota delta [bind].
  change (progress_bar 0) with (Ok (A := Bar) (mkBar 0 10)).
  cbv beta iota. rewrite !Z.sub_0_r, !Z.max_l by lia. reflexivity.
Qed.

Lemma reset_then_status_witness :
  get_profile Scenario.after_train Scenario.user = Some Scenario.profile_after_train /\
  snd (cmd_status (fst (cmd_reset Scenario.env0 Scenario.after_train Scenario.user))
         Scenario.user) =
    Ok [StatusMessage
          (mkStatus (mkBar 0 10) 0 0 2450 2450 (mkBar 0 10) 0 0 0 0 2068 2068)].
Proof.
  assert (Hp : get_profile Scenario.after_train Scenario.user =
               Some Scenario.profile_after_train) by (vm_compute; reflexivity).
  split; [exact Hp|].
  exact (reset_then_status Scenario.env0 Scenario.after_train Scenario.user
           Scenario.profile_after_train after_train_reachable Hp).
Defined.

(** X11: No handler ever deletes a profile: a user who has one keeps one
    through every step of any user. *)
Theorem profiles_are_never_deleted (u v : Z) (w w' : World) (p : UserProfile) :
  step u w w' -> get_profile w v = Some p ->
  exists p', get_profile w' v = Some p'.
Proof. intros Hstep Hp. exact (step_persists u w w' v p Hstep Hp). Qed.

Lemma profiles_are_never_deleted_witness :
  exists p',
    get_profile (fst (cmd_setup Scenario.after_train Scenario.user)) Scenario.user =
      Some p'.
Proof.
  apply (profiles_are_never_deleted Scenario.user Scenario.user Scenario.after_train
           (fst (cmd_setup Scenario.after_train Scenario.user))
           Scenario.profile_after_train).
  - apply step_setup.
  - vm_compute. reflexivity.
Defined.

(** ** Workouts *)

(** X12: [/train kind minutes] on a profile with a valid weight and minutes that
    read as a whole number in (0, 300] adds the burned calories (at least
    1 and at most 15000) to the counter, adds 200 ml to the water target for every
    complete half hour (nothing for a workout under 30 minutes), appends
    one entry with the new total to the workout timeline and leaves every
    other field alone; a message with fewer than three words, or whose
    minutes are unreadable or out of range, changes nothing. *)
Theorem train_effect (env : Env) (w : World) (u : Z) (text : pystr) (p : UserProfile) :
  get_profile w u = Some p -> valid_weight (weight p) = true ->
  (forall cmd kind arg rest duration,
     split text = cmd :: kind :: arg :: rest ->
     parse_number arg false = Some duration -> 0 < duration <= 300 ->
     let burned :=
       exercise_burn (WorkoutCalculator.met_of (strip kind)) (weight p) duration in
     let bonus := duration / 30 * 200 in
     cmd_train env w u text =
       (put_profile w u
          (mkUserProfile (weight p) (height p) (age p) (gender p) (activity_minutes p)
             (city p) (temperature p) (water_consumed p) (calories_eaten p)
             (calories_burned p + burned) (water_target p + bonus)
             (Bot.calorie_target p) (water_timeline p) (calorie_timeline p)
             (workout_timeline p ++ [(current_time env 0, calories_burned p + burned)])),
        Ok [TrainLogged (strip kind) duration burned bonus (water_target p + bonus)
              (calories_eaten p - (calories_burned p + burned))]) /\
     1 <= burned <= 15000 /\ 0 <= bonus <= 2000 /\ (duration < 30 -> bonus = 0)) /\
  ((forall cmd kind arg rest duration,
      split text = cmd :: kind :: arg :: rest ->
      parse_number arg false = Some duration -> ~ (0 < duration <= 300)) ->
   fst (cmd_train env w u text) = w).
Proof.
  intros Hp Hw. split.
  - intros cmd kind arg rest duration Hs Ha Hr burned bonus.
    split; [apply (train_run env w u text p cmd kind arg rest duration); assumption|].
    split; [apply burn_bounds; [exact Hw | lia]|].
    subst bonus.
    assert (0 <= duration / 30 <= 10)
      by (split; [apply Z.div_pos | apply Z.div_le_upper_bound]; lia).
    split; [lia|]. intros Hlt. rewrite Z.div_small by lia. reflexivity.
  - apply train_rejected.
Qed.

Lemma train_effect_witness :
  get_profile Scenario.after_setup Scenario.user <> None /\
  split (str "/train run 30") = [str "/train"; str "run"; str "30"] /\
  parse_number (str "30") false = Some 30 /\
  cmd_train Scenario.env0 Scenario.after_setup Scenario.user (str "/train run 30") =
    (put_profile Scenario.after_setup Scenario.user
       (mkUserProfile (fconst 75) 175 25 (str "male") 20 (str "Moscow") None 0 0
          (0 + exercise_burn (WorkoutCalculator.met_of (strip (str "run"))) (fconst 75) 30)
          (2250 + 30 / 30 * 200) 2068 [(str "12:00", 0)] [(str "12:00", 0)]
          ([(str "12:00", 0)] ++
           [(str "12:00",
             0 + exercise_burn (WorkoutCalculator.met_of (strip (str "run"))) (fconst 75) 30)])),
     Ok [TrainLogged (strip (str "run")) 30
           (exercise_burn (WorkoutCalculator.met_of (strip (str "run"))) (fconst 75) 30)
           (30 / 30 * 200) (2250 + 30 / 30 * 200)
           (0 - (0 + exercise_burn (WorkoutCalculator.met_of (strip (str "run")))
                       (fconst 75) 30))]) /\
  exercise_burn (WorkoutCalculator.met_of (strip (str "run"))) (fconst 75) 30 = 375.
Proof.
  assert (Hp : get_profile Scenario.after_setup Scenario.user =
               Some (mkUserProfile (fconst 75) 175 25 (str "male") 20 (str "Moscow") None
                       0 0 0 2250 2068 [(str "12:00", 0)] [(str "12:00", 0)]
                       [(str "12:00", 0)])) by (vm_compute; reflexivity).
  assert (Hs : split (str "/train run 30") = [str "/train"; str "run"; str "30"])
    by (vm_compute; reflexivity).
  assert (Ha : parse_number (str "30") false = Some 30) by (vm_compute; reflexivity).
  split; [rewrite Hp; discriminate|]. split; [exact Hs|]. split; [exact Ha|].
  split; [|vm_compute; reflexivity].
  exact (proj1 (proj1 (train_effect Scenario.env0 Scenario.after_setup Scenario.user
                         (str "/train run 30") _ Hp eq_refl)
                  (str "/train") (str "run") (str "30") [] 30 Hs Ha ltac:(lia))).
Defined.

(** ** Recommendations *)

(** X13: The water paragraph of [/tips]: with more than 500 ml left it proposes
    portions, and the portion is always 250 ml (the [min] with the deficit
    never takes effect); with 1 to 500 ml left it says the goal is near;
    with nothing left, that the norm is met. *)
Theorem tips_water_advice (p : UserProfile) :
  let deficit := water_target p - water_consumed p in
  (500 < deficit -> water_advice p = DrinkPortions deficit 250) /\
  (0 < deficit <= 500 -> water_advice p = AlmostThere deficit) /\
  (deficit <= 0 -> water_advice p = WaterDone).
Proof.
  intros deficit. unfold water_advice. fold deficit. repeat split; intros H.
  - replace (500 <? deficit) with true by (symmetry; apply Z.ltb_lt; lia).
    rewrite Z.min_l by lia. reflexivity.
  - replace (500 <? deficit) with false by (symmetry; apply Z.ltb_ge; lia).
    replace (0 <? deficit) with true by (symmetry; apply Z.ltb_lt; lia). reflexivity.
  - replace (500 <? deficit) with false by (symmetry; apply Z.ltb_ge; lia).
    replace (0 <? deficit) with false by (symmetry; apply Z.ltb_ge; lia). reflexivity.
Qed.

Lemma tips_water_advice_witness :
  water_advice Scenario.profile_after_train = DrinkPortions 2450 250.
Proof.
  apply (proj1 (tips_water_advice Scenario.profile_after_train)). vm_compute. reflexivity.
Defined.

(** X14: The calorie paragraph of [/tips], for a profile with a valid weight.
    A balance more than 300 kcal above the target gets a walk of
    [int(excess / (4.5 * weight / 60))] minutes, which is computed without
    error and lies between 13 and the excess; a balance from the target up
    to 300 kcal above it counts as the goal reached; up to 300 kcal below
    the target the goal is near; further below, a snack is proposed. *)
Theorem tips_calorie_advice (p : UserProfile) :
  valid_weight (weight p) = true ->
  let balance := calories_eaten p - calories_burned p in
  let target := Bot.calorie_target p in
  (target + 300 < balance -> balance - target < 2 ^ 53 ->
   exists t, calorie_advice p = Ok (WalkOff (balance - target) t) /\
             13 <= t <= balance - target) /\
  (target <= balance <= target + 300 -> calorie_advice p = Ok GoalReached) /\
  (target - 300 <= balance < target ->
   calorie_advice p = Ok (NearlyThere (target - balance))) /\
  (balance < target - 300 -> calorie_advice p = Ok (Snack (target - balance))).
Proof. intros Hw. exact (calorie_advice_cases p Hw). Qed.

Lemma tips_calorie_advice_witness :
  valid_weight (fconst 75) = true /\
  exists t,
    calorie_advice (set_calories_eaten 3000 Scenario.profile_after_train) =
      Ok (WalkOff (3000 - 375 - 2068) t) /\
    13 <= t <= 3000 - 375 - 2068.
Proof.
  split; [reflexivity|].
  apply (proj1 (tips_calorie_advice (set_calories_eaten 3000 Scenario.profile_after_train)
                  eq_refl)); vm_compute; reflexivity.
Defined.

(** X15: In every reachable state [/tips] answers an existing profile without
    error (the weight it divides by is never zero) as long as the calorie
    excess stays below 2^53: it sends the water paragraph, the calorie
    paragraph and the first three of the five low-calorie foods, and
    changes nothing. *)
Theorem tips_of_reachable (w : World) (u : Z) (p : UserProfile) :
  reachable w -> get_profile w u = Some p ->
  calories_eaten p - calories_burned p - Bot.calorie_target p < 2 ^ 53 ->
  exists calories,
    calorie_advice p = Ok calories /\
    cmd_tips w u =
      (w, Ok (Recommendations (water_advice p) calories
                [Cucumbers; Tomatoes; ChickenBreast])).
Proof.
  intros Hr Hp Hb. destruct (reachable_world_ok w Hr) as [Hdb _]. destruct (Hdb u p Hp).
  destruct (calorie_advice_cases p ok_weight0) as (C1 & C2 & C3 & C4).
  cbv zeta in *.
  assert (exists calories, calorie_advice p = Ok calories) as [c Hc].
  { destruct (Z_lt_le_dec (Bot.calorie_target p + 300)
                (calories_eaten p - calories_burned p)) as [H|H].
    - destruct (C1 H Hb) as (t & -> & _). eauto.
    - destruct (Z_le_gt_dec (Bot.calorie_target p)
                  (calories_eaten p - calories_burned p)) as [H1|H1].
      + rewrite C2 by lia. eauto.
      + destruct (Z_le_gt_dec (Bot.calorie_target p - 300)
                    (calories_eaten p - calories_burned p)) as [H2|H2].
        * rewrite C3 by lia. eauto.
        * rewrite C4 by lia. eauto. }
  exists c. split; [exact Hc|]. unfold cmd_tips. rewrite Hp, Hc. reflexivity.
Qed.

Lemma tips_of_reachable_witness :
  get_profile Scenario.after_train Scenario.user = Some Scenario.profile_after_train /\
  exists calories,
    calorie_advice Scenario.profile_after_train = Ok calories /\
    cmd_tips Scenario.after_train Scenario.user =
      (Scenario.after_train,
       Ok (Recommendations (water_advice Scenario.profile_after_train) calories
             [Cucumbers; Tomatoes; ChickenBreast])).
Proof.
  assert (Hp : get_profile Scenario.after_train Scenario.user =
               Some Scenario.profile_after_train) by (vm_compute; reflexivity).
  split; [exact Hp|].
  apply (tips_of_reachable Scenario.after_train Scenario.user _ after_train_reachable Hp).
  vm_compute. reflexivity.
Defined.

(** ** Charts *)

(** X16: What [/charts] answers for an existing profile: never nothing. Either
    the one "not enough data" message, exactly when the water and the
    calorie timeline both have fewer than two points, or between one and
    three charts; every chart has at least two points and as many time
    labels as values; and the chart of burned calories is sent exactly when
    the workout timeline has two points and one of the other two has. *)
Theorem charts_reply (w : World) (u : Z) (p : UserProfile) :
  get_profile w u = Some p ->
  exists replies,
    cmd_charts w u = (w, Ok replies) /\
    (1 <= length replies <= 3)%nat /\
    (replies = [ChartsInsufficient] <->
     (length (water_timeline p) < 2)%nat /\ (length (calorie_timeline p) < 2)%nat) /\
    (forall r, In r replies ->
       r = ChartsInsufficient \/
       exists c, r = Photo c /\
                 (2 <= length (chart_values c))%nat /\
                 length (chart_times c) = length (chart_values c)) /\
    (In (Photo (chart_of BurnedChart (workout_timeline p) None)) replies <->
     (2 <= length (workout_timeline p))%nat /\
     ((2 <= length (water_timeline p))%nat \/ (2 <= length (calorie_timeline p))%nat)).
Proof.
  intros Hp. unfold cmd_charts. rewrite Hp.
  assert (forall k tl tg, exists c,
            Photo (chart_of k tl tg) = Photo c /\
            ((2 <= length tl)%nat -> (2 <= length (chart_values c))%nat) /\
            length (chart_times c) = length (chart_values c)) as Hphoto.
  { intros k tl tg. eexists. split; [reflexivity|].
    unfold chart_of. cbn [chart_values chart_times]. rewrite !length_map. auto. }
  destruct (le_lt_dec 2 (length (water_timeline p))) as [Hw|Hw];
    destruct (le_lt_dec 2 (length (calorie_timeline p))) as [Hc|Hc];
    destruct (le_lt_dec 2 (length (workout_timeline p))) as [Hk|Hk];
    repeat match goal with
           | H : (2 <= ?n)%nat |- context [(?n <? 2)%nat] =>
               replace (n <? 2)%nat with false by (symmetry; apply Nat.ltb_ge; exact H)
           | H : (?n < 2)%nat |- context [(?n <? 2)%nat] =>
               replace (n <? 2)%nat with true by (symmetry; apply Nat.ltb_lt; exact H)
           | H : (2 <= ?n)%nat |- context [(2 <=? ?n)%nat] =>
               replace (2 <=? n)%nat with true by (symmetry; apply Nat.leb_le; exact H)
           | H : (?n < 2)%nat |- context [(2 <=? ?n)%nat] =>
               replace (2 <=? n)%nat with false by (symmetry; apply Nat.leb_gt; exact H)
           end;
    cbn [andb app]; eexists; (split; [reflexivity|]); (split; [cbn [length]; lia|]);
    (split; [split; [intros H; try discriminate H; lia | intros [? ?]; try lia; reflexivity]|]);
    (split;
     [ intros r Hin; cbn [In] in Hin;
       repeat (destruct Hin as [<-|Hin];
               [ first [ left; reflexivity
                       | right;
                         match goal with
                         | |- exists c, Photo (chart_of ?k ?tl ?tg) = _ /\ _ =>
                             destruct (Hphoto k tl tg) as (c & E & L1 & L2);
                             exists c; split; [exact E | split; [apply L1; assumption | exact L2]]
                         end ] |]);
       contradiction
     | cbn [In]; split;
       [ intros H; repeat (destruct H as [H|H]; [try discriminate H|]);
         try contradiction; try (split; [assumption | auto]); try lia
       | intros [? ?]; try lia; auto 6 ] ]).
Qed.

Lemma charts_reply_witness :
  get_profile Scenario.after_train Scenario.user = Some Scenario.profile_after_train /\
  exists replies,
    cmd_charts Scenario.after_train Scenario.user = (Scenario.after_train, Ok replies) /\
    (1 <= length replies <= 3)%nat /\
    (replies = [ChartsInsufficient] <->
     (length (water_timeline Scenario.profile_after_train) < 2)%nat /\
     (length (calorie_timeline Scenario.profile_after_train) < 2)%nat) /\
    (forall r, In r replies ->
       r = ChartsInsufficient \/
       exists c, r = Photo c /\
                 (2 <= length (chart_values c))%nat /\
                 length (chart_times c) = length (chart_values c)) /\
    (In (Photo (chart_of BurnedChart (workout_timeline Scenario.profile_after_train) None))
        replies <->
     (2 <= length (workout_timeline Scenario.profile_after_train))%nat /\
     ((2 <= length (water_timeline Scenario.profile_after_train))%nat \/
      (2 <= length (calorie_timeline Scenario.profile_after_train))%nat)).
Proof.
  assert (Hp : get_profile Scenario.after_train Scenario.user =
               Some Scenario.profile_after_train) by (vm_compute; reflexivity).
  split; [exact Hp|].
  exact (charts_reply Scenario.after_train Scenario.user Scenario.profile_after_train Hp).
Defined.

(** ** The norms *)

(** X17: On validated inputs neither norm can fail, and both are positive: the
    water norm lies between 900 and 17500 ml and the computed calorie norm
    between 239 and 9410 kcal. *)
Theorem norms_are_defined (w : float) (h a : Z) (g : Gender) (activity : Z)
    (temp : option float) :
  valid_weight w = true -> 100 <= h <= 250 -> 10 <= a <= 100 -> 0 <= activity <= 500 ->
  exists water calories,
    calculate_water_norm w activity temp = Ok water /\
    calculate_calorie_norm w h a (gender_str g) activity None = Ok calories /\
    900 <= water <= 17500 /\ 239 <= calories <= 9410.
Proof.
  intros Hw Hh Ha Hact. exists (hydration_target w activity temp).
  exists (calorie_target w h a g activity).
  split; [apply hydration_code; assumption|].
  split; [apply calorie_code; assumption|].
  split; [apply hydration_bounds | apply calorie_bounds]; assumption.
Qed.

Lemma norms_are_defined_witness :
  valid_weight (fconst 75) = true /\
  exists water calories,
    calculate_water_norm (fconst 75) 20 None = Ok water /\
    calculate_calorie_norm (fconst 75) 175 25 (gender_str Male) 20 None = Ok calories /\
    900 <= water <= 17500 /\ 239 <= calories <= 9410.
Proof.
  split; [reflexivity|].
  apply (norms_are_defined (fconst 75) 175 25 Male 20 None); [reflexivity | lia | lia | lia].
Defined.

(** X18: The computed calorie norm never decreases when, within the validated
    ranges, the weight or the height grows, the age falls, female is
    replaced by male, or the activity grows. *)
Theorem calorie_norm_is_monotone (w w' : float) (h h' a a' : Z) (g g' : Gender)
    (activity activity' : Z) :
  valid_weight w = true -> 100 <= h <= 250 -> 10 <= a <= 100 ->
  valid_weight w' = true -> 100 <= h' <= 250 -> 10 <= a' <= 100 ->
  SFleb w w' = true -> h <= h' -> a' <= a -> gender_le g g' -> activity <= activity' ->
  exists n n',
    calculate_calorie_norm w h a (gender_str g) activity None = Ok n /\
    calculate_calorie_norm w' h' a' (gender_str g') activity' None = Ok n' /\
    n <= n'.
Proof.
  intros Hw Hh Ha Hw' Hh' Ha' Lw Lh La Lg Lact.
  exists (calorie_target w h a g activity), (calorie_target w' h' a' g' activity').
  split; [apply calorie_code; assumption|].
  split; [apply calorie_code; assumption|].
  pose proof (valid_weight_inv w Hw) as (Hf & Hv & _).
  pose proof (valid_weight_inv w' Hw') as (Hf' & Hv' & _).
  apply SFleb_spec in Lw; auto.
  apply calorie_mono; assumption.
Qed.

Lemma calorie_norm_is_monotone_witness :
  valid_weight (fconst 60) = true /\ valid_weight (fconst 75) = true /\
  SFleb (fconst 60) (fconst 75) = true /\
  exists n n',
    calculate_calorie_norm (fconst 60) 165 40 (gender_str Female) 20 None = Ok n /\
    calculate_calorie_norm (fconst 75) 175 25 (gender_str Male) 45 None = Ok n' /\
    n <= n'.
Proof.
  split; [reflexivity|]. split; [reflexivity|]. split; [reflexivity|].
  apply (calorie_norm_is_monotone (fconst 60) (fconst 75) 165 175 40 25 Female Male 20 45);
    try reflexivity; try lia; exact I.
Defined.

(** ** Logging food, from the query to the grams *)

(** X19: [/eat] followed by the grams. For a reachable state, an existing
    profile whose balance is below 2^52 in size, a query the food database
    answers with a valid energy density, and a text that reads as a whole
    number of grams in (0, 2000]: [/eat] leaves the profile alone and awaits
    the grams; the grams then add floor(kcal * grams / 100) to the calories
    eaten, append the new total to the calorie timeline and end the
    conversation. A text that does not read as such a number changes
    nothing, so the bot keeps waiting. *)
Theorem food_logging (env env' : Env) (w : World) (u : Z) (text grams_text : pystr)
    (p : UserProfile) (cmd arg : pystr) (rest : list pystr) (name : pystr) (kcal : float) :
  reachable w -> get_profile w u = Some p ->
  Z.abs (calories_eaten p - calories_burned p) < 2 ^ 52 ->
  split_max1 text = cmd :: arg :: rest ->
  search_food_calories env (strip arg) = Some (name, kcal) ->
  valid_energy kcal = true ->
  let w1 := fst (cmd_eat env w u text) in
  get_profile w1 u = Some p /\
  get_state w1 u = Some waiting_grams /\
  (forall grams, parse_number grams_text false = Some grams -> 0 < grams <= 2000 ->
     let total := calories_eaten p + food_energy kcal grams in
     fst (process_food_grams env' w1 u grams_text) =
       clear (put_profile w u
                (mkUserProfile (weight p) (height p) (age p) (gender p)
                   (activity_minutes p) (city p) (temperature p) (water_consumed p)
                   total (calories_burned p) (water_target p) (Bot.calorie_target p)
                   (water_timeline p)
                   (calorie_timeline p ++ [(current_time env' 0, total)])
                   (workout_timeline p))) u /\
     exists pct remaining,
       snd (process_food_grams env' w1 u grams_text) =
         Ok [FoodLogged name grams (food_energy kcal grams) total
               (total - calories_burned p) (Bot.calorie_target p) pct remaining]) /\
  ((forall grams, parse_number grams_text false = Some grams -> ~ (0 < grams <= 2000)) ->
   process_food_grams env' w1 u grams_text = (w1, Ok [GramsRange])).
Proof.
  intros Hr Hp Hb Hs Hf Hv w1.
  destruct (reachable_world_ok w Hr) as [Hdb _]. destruct (Hdb u p Hp).
  assert (E1 : w1 = put_session w u
                      (mkSession (Some waiting_grams)
                         (mkData (d_weight (get_data w u)) (d_height (get_data w u))
                            (d_age (get_data w u)) (d_gender (get_data w u))
                            (d_activity (get_data w u)) (d_city (get_data w u))
                            (Some name) (Some kcal)))).
  { subst w1. rewrite (eat_run env w u text p cmd arg rest name kcal Hp Hs Hf). reflexivity. }
  assert (Hp1 : get_profile w1 u = Some p) by (rewrite E1; exact Hp).
  split; [exact Hp1|]. split.
  { rewrite E1. unfold get_state. rewrite get_session_put_session. reflexivity. }
  split.
  - intros grams Hg Hrange total.
    rewrite (food_grams_run env' w1 u grams_text p name kcal grams Hp1); auto;
      try (rewrite E1; unfold get_data; rewrite get_session_put_session; reflexivity);
      try lia.
    cbn [fst snd]. split; [|eauto].
    rewrite E1. unfold clear. rewrite put_profile_put_session, put_session_twice.
    reflexivity.
  - intros Hno. apply (food_grams_rejected env' w1 u grams_text p Hp1 Hno).
Qed.

Lemma food_logging_witness :
  get_profile Scenario.after_train Scenario.user = Some Scenario.profile_after_train /\
  split_max1 (str "/eat banana") = [str "/eat"; str "banana"] /\
  valid_energy (fdec 890 1) = true /\
  parse_number (str "150") false = Some 150 /\
  fst (process_food_grams Scenario.env0
         (fst (cmd_eat Scenario.env0 Scenario.after_train Scenario.user (str "/eat banana")))
         Scenario.user (str "150")) =
    clear (put_profile Scenario.after_train Scenario.user
             (mkUserProfile (fconst 75) 175 25 (str "male") 20 (str "Moscow") None 0
                (0 + food_energy (fdec 890 1) 150) 375 2450 2068
                [(str "12:00", 0)]
                ([(str "12:00", 0)] ++ [(str "12:00", 0 + food_energy (fdec 890 1) 150)])
                [(str "12:00", 0); (str "12:00", 375)])) Scenario.user /\
  food_energy (fdec 890 1) 150 = 133.
Proof.
  assert (Hp : get_profile Scenario.after_train Scenario.user =
               Some Scenario.profile_after_train) by (vm_compute; reflexivity).
  assert (Hs : split_max1 (str "/eat banana") = [str "/eat"; str "banana"])
    by (vm_compute; reflexivity).
  assert (Hv : valid_energy (fdec 890 1) = true) by (vm_compute; reflexivity).
  assert (Hg : parse_number (str "150") false = Some 150) by (vm_compute; reflexivity).
  split; [exact Hp|]. split; [exact Hs|]. split; [exact Hv|]. split; [exact Hg|].
  split; [|vm_compute; reflexivity].
  pose proof (food_logging Scenario.env0 Scenario.env0 Scenario.after_train Scenario.user
                (str "/eat banana") (str "150") Scenario.profile_after_train
                (str "/eat") (str "banana") [] (str "Banana") (fdec 890 1)
                after_train_reachable Hp eq_refl Hs eq_refl Hv) as H.
  cbv zeta in H. destruct H as (_ & _ & H & _).
  exact (proj1 (H 150 Hg ltac:(lia))).
Defined.

(** ** Water, then the status *)

(** X20: The figures [/drink] announces are the ones [/status] shows next. In a
    reachable state, after an accepted amount (with the new total below
    2^53), the total, the target, the percentage and the remainder of the
    [/drink] reply are the water figures of the following status. *)
Theorem drink_then_status (env : Env) (w : World) (u : Z) (text : pystr)
    (p : UserProfile) (cmd arg : pystr) (rest : list pystr) (amount : Z) :
  reachable w -> get_profile w u = Some p ->
  split text = cmd :: arg :: rest ->
  parse_number arg false = Some amount -> 0 < amount <= 3000 ->
  water_consumed p + amount < 2 ^ 53 ->
  Z.abs (calories_eaten p - calories_burned p) < 2 ^ 53 ->
  exists pct remaining r,
    snd (cmd_drink env w u text) =
      Ok [DrinkAdded amount (water_consumed p + amount) (water_target p) pct remaining] /\
    snd (cmd_status (fst (cmd_drink env w u text)) u) = Ok [StatusMessage r] /\
    st_water_consumed r = water_consumed p + amount /\
    st_water_target r = water_target p /\
    st_water_percent r = pct /\
    st_water_remain r = remaining.
Proof.
  intros Hr Hp Hs Ha Hrange Hb Hbal.
  pose proof (reachable_world_ok w Hr) as Hok. pose proof Hok as [Hdb _].
  pose proof (Hdb u p Hp) as Hpok. destruct Hpok.
  pose proof (cmd_drink_ok env w u text Hok) as [Hdb' _].
  rewrite (drink_run env w u text p cmd arg rest amount Hp ltac:(lia) Hs Ha Hrange
             ltac:(lia)) in *.
  cbn [fst snd] in *.
  set (p' := set_water_timeline _ _) in *.
  pose proof (Hdb' u p' (get_profile_put_profile w u p')) as Hp'ok.
  destruct (status_run p' Hp'ok ltac:(subst p'; cbn; lia) ltac:(subst p'; cbn; lia))
    as (_ & cbar & _ & _ & Hrun).
  rewrite (Hrun (put_profile w u p') u (get_profile_put_profile w u p')).
  cbn [snd]. do 3 eexists. split; [reflexivity|]. split; [reflexivity|].
  subst p'. cbn. repeat split.
Qed.

Lemma drink_then_status_witness :
  get_profile Scenario.after_train Scenario.user = Some Scenario.profile_after_train /\
  split (str "/drink 300.7") = [str "/drink"; str "300.7"] /\
  parse_number (str "300.7") false = Some 300 /\
  exists pct remaining r,
    snd (cmd_drink Scenario.env0 Scenario.after_train Scenario.user (str "/drink 300.7")) =
      Ok [DrinkAdded 300 (0 + 300) 2450 pct remaining] /\
    snd (cmd_status
           (fst (cmd_drink Scenario.env0 Scenario.after_train Scenario.user
                   (str "/drink 300.7"))) Scenario.user) = Ok [StatusMessage r] /\
    st_water_consumed r = 0 + 300 /\
    st_water_target r = 2450 /\
    st_water_percent r = pct /\
    st_water_remain r = remaining.
Proof.
  assert (Hp : get_profile Scenario.after_train Scenario.user =
               Some Scenario.profile_after_train) by (vm_compute; reflexivity).
  assert (Hs : split (str "/drink 300.7") = [str "/drink"; str "300.7"])
    by (vm_compute; reflexivity).
  assert (Ha : parse_number (str "300.7") false = Some 300) by (vm_compute; reflexivity).
  split; [exact Hp|]. split; [exact Hs|]. split; [exact Ha|].
  apply (drink_then_status Scenario.env0 Scenario.after_train Scenario.user
           (str "/drink 300.7") Scenario.profile_after_train (str "/drink") (str "300.7")
           [] 300 after_train_reachable Hp Hs Ha); cbn; lia.
Defined.

(** ** Percentages *)

(** X21: Every percentage the bot shows is [min(int(a / b * 100), 100)] on
    floats. For 0 <= a < 2^44 and 0 < b < 2^53 it is the exact
    floor(100 * a / b), capped at 100, or one less than that floor; one less
    only when 100 * a / b is a whole number. Both happen: 870 of 3000 is
    shown as 28 percent although 100 * 870 / 3000 = 29. *)
Theorem percentage_against_floor (a b : Z) :
  0 <= a < 2 ^ 44 -> 0 < b < 2 ^ 53 ->
  exists pct,
    percent a b = Ok pct /\
    (pct = Z.min (100 * a / b) 100 \/
     (pct = Z.min (100 * a / b - 1) 100 /\ (100 * a) mod b = 0 /\ 0 < a)) /\
    percent 870 3000 = Ok 28 /\ 100 * 870 / 3000 = 29 /\
    percent 1 3 = Ok 33 /\ 100 * 1 / 3 = 33.
Proof.
  intros Ha Hb. destruct (percent_ok a b ltac:(lia) ltac:(lia)) as (Hp & _).
  exists (status_percent a b). split; [exact Hp|]. split.
  - unfold status_percent. destruct (percent_floor a b Ha Hb) as [->|(-> & Hm & Hpos)].
    + left. reflexivity.
    + right. repeat split; assumption.
  - repeat split; vm_compute; reflexivity.
Qed.

Lemma percentage_against_floor_witness :
  exists pct,
    percent 300 2450 = Ok pct /\
    (pct = Z.min (100 * 300 / 2450) 100 \/
     (pct = Z.min (100 * 300 / 2450 - 1) 100 /\ (100 * 300) mod 2450 = 0 /\ 0 < 300)) /\
    percent 870 3000 = Ok 28 /\ 100 * 870 / 3000 = 29 /\
    percent 1 3 = Ok 33 /\ 100 * 1 / 3 = 33.
Proof.
  apply (percentage_against_floor 300 2450); lia.
Defined.

(** ** The pending food entry *)

(** X22: Whoever is asked for grams has a profile and a complete pending entry:
    in every reachable state in which a user is in the state
    [waiting_grams], that user's profile exists and the product name and
    its energy density are stored. So [process_food_grams] never answers
    that a profile is needed and never fails with KeyError. *)
Theorem pending_entry_is_complete (w : World) (u : Z) :
  reachable w -> get_state w u = Some waiting_grams ->
  (exists p name kcal,
     get_profile w u = Some p /\
     d_product_name (get_data w u) = Some name /\
     d_kcal_per_100g (get_data w u) = Some kcal) /\
  (forall env text,
     snd (process_food_grams env w u text) <> Raise KeyError /\
     snd (process_food_grams env w u text) <> Ok [NeedProfile]).
Proof.
  intros Hr Hst. destruct (waiting_has_profile w u Hr Hst) as [p Hp].
  destruct (reachable_world_ok w Hr) as [_ Hs]. specialize (Hs u).
  destruct Hs as [_ Hpend]. unfold get_state in Hst.
  destruct (Hpend Hst) as (name & kcal & Hn & Hk).
  split; [exists p, name, kcal; auto|].
  intros env text. exact (food_grams_no_key_error env w u text p name kcal Hp Hn Hk).
Qed.

Lemma pending_entry_is_complete_witness :
  get_state Scenario.asked_grams Scenario.user = Some waiting_grams /\
  (exists p name kcal,
     get_profile Scenario.asked_grams Scenario.user = Some p /\
     d_product_name (get_data Scenario.asked_grams Scenario.user) = Some name /\
     d_kcal_per_100g (get_data Scenario.asked_grams Scenario.user) = Some kcal) /\
  (forall env text,
     snd (process_food_grams env Scenario.asked_grams Scenario.user text) <> Raise KeyError /\
     snd (process_food_grams env Scenario.asked_grams Scenario.user text) <> Ok [NeedProfile]).
Proof.
  assert (Hst : get_state Scenario.asked_grams Scenario.user = Some waiting_grams)
    by (vm_compute; reflexivity).
  split; [exact Hst|].
  exact (pending_entry_is_complete Scenario.asked_grams Scenario.user
           asked_grams_reachable Hst).
Defined.

(** ** Reading numbers *)

(** X23: A plain whole number is read exactly: for a non-empty text of ASCII
    digits whose value is below 2^53, [parse_number] returns that value for
    the integer fields and the float of exactly that value for the
    weight. *)
Theorem whole_numbers_are_read_exactly (c : Z) (ds : pystr) :
  Forall (fun d => is_digit d = true) (c :: ds) ->
  digits_value (c :: ds) < 2 ^ 53 ->
  parse_number (c :: ds) false = Some (digits_value (c :: ds)) /\
  exists x, parse_number (c :: ds) true = Some x /\
            is_finite x = true /\ SF2R x = IZR (digits_value (c :: ds)).
Proof.
  intros H Hb. destruct (parse_digits c ds H Hb) as [Hi Hf].
  split; [exact Hi|]. exists (fconst (digits_value (c :: ds))).
  pose proof (digits_value_nonneg _ H) as H0.
  split; [exact Hf|]. split.
  - apply (fconst_ok (digits_value (c :: ds))). unfold prec. lia.
  - apply fconst_value. unfold prec. lia.
Qed.

Lemma whole_numbers_are_read_exactly_witness :
  parse_number (str "175") false = Some (digits_value (str "175")) /\
  digits_value (str "175") = 175 /\
  exists x, parse_number (str "175") true = Some x /\
            is_finite x = true /\ SF2R x = IZR (digits_value (str "175")).
Proof.
  assert (H : Forall (fun d => is_digit d = true) (str "175"))
    by (repeat constructor).
  assert (Hb : digits_value (str "175") < 2 ^ 53) by (vm_compute; reflexivity).
  pose proof (whole_numbers_are_read_exactly 49 (str "75") H Hb) as [H1 H2].
  split; [exact H1|]. split; [vm_compute; reflexivity | exact H2].
Defined.
